(** * The query-to-context pipeline of the Strava coaching bot

    A shallow embedding of the retrieval and context code of
    [new_bot/utils/chroma_manager.py], the retrieval block of
    [new_bot/agents/workflow.py], the query interpreter of [llm/client.py],
    the per-kilometre normaliser of [strava/client.py] and the chat
    context of [new_bot/utils/chat_context.py], followed by the
    properties the specification states about them.

    Conventions of the embedding.
    - A Python [str] is a list of characters, each character a code point
      below 256; character classes ([str.isspace], line boundaries, [\d],
      [str.lower]) are the ones Python uses on that range.
    - A Python [dict] used as a record of metadata is a [gmap] from key to
      value, so that an absent key and a key holding [None] stay distinct.
    - A number is carried by its decimal text in positional notation (what
      [str()] prints for it) and compared through its exact rational value;
      binary rounding, exponent notation, infinities and NaN of metadata
      values are outside the embedding.
    - Code that can raise returns in [res]; the exception is part of the
      result.
    - What the code asks of a service or of a library that has no
      embedding here (the ranking of the similarity search, the replies of
      the model, the clock, the conversion of a date column by
      [pd.to_datetime]) is a parameter of the function that asks for it. *)

From Stdlib Require Import ZArith QArith Qround Lqa Ascii String List Bool Lia Permutation Sorted.
From stdpp Require Import base option gmap strings list.

Local Open Scope string_scope.
Local Open Scope list_scope.

(** ** Python strings *)

Module PyStr.

Definition str : Type := list ascii.

Definition py (s : string) : str := list_ascii_of_string s.

Definition code (c : ascii) : N := N_of_ascii c.

Definition in_range (lo hi : N) (c : ascii) : bool :=
  (lo <=? code c)%N && (code c <=? hi)%N.

(** [str.isspace] on one character. *)
Definition isspace (c : ascii) : bool :=
  in_range 9 13 c || in_range 28 32 c || (code c =? 133)%N || (code c =? 160)%N.

(** The characters at which [str.splitlines] breaks a line. *)
Definition is_linebreak (c : ascii) : bool :=
  in_range 10 13 c || in_range 28 30 c || (code c =? 133)%N.

(** The regular-expression class [\d]. *)
Definition isdigit (c : ascii) : bool := in_range 48 57 c.

(** The regular-expression class [[\d.]]. *)
Definition isnumch (c : ascii) : bool := isdigit c || Ascii.eqb c ".".

Definition lower_char (c : ascii) : ascii :=
  if in_range 65 90 c || (in_range 192 222 c && negb (code c =? 215)%N)
  then ascii_of_N (code c + 32)
  else c.

(** [s.lower()] *)
Definition lower (s : str) : str := map lower_char s.

Fixpoint lstrip (s : str) : str :=
  match s with
  | c :: t => if isspace c then lstrip t else s
  | [] => []
  end.

Definition rstrip (s : str) : str := rev (lstrip (rev s)).

(** [s.strip()] *)
Definition strip (s : str) : str := rstrip (lstrip s).

(** [s.startswith(p)], returning what follows the prefix. *)
Fixpoint strip_prefix (p s : str) : option str :=
  match p, s with
  | [], _ => Some s
  | a :: p', b :: s' => if Ascii.eqb a b then strip_prefix p' s' else None
  | _ :: _, [] => None
  end.

Definition startswith (p s : str) : bool :=
  match strip_prefix p s with Some _ => true | None => false end.

(** [sub in s] *)
Fixpoint contains (sub s : str) : bool :=
  startswith sub s ||
  match s with
  | [] => false
  | _ :: t => contains sub t
  end.

(** [sep.join(parts)] *)
Fixpoint join (sep : str) (parts : list str) : str :=
  match parts with
  | [] => []
  | [p] => p
  | p :: rest => p ++ sep ++ join sep rest
  end.

(** [s.split(sep)] for a separator of one character. *)
Fixpoint split (sep : ascii) (s : str) : list str :=
  match s with
  | [] => [[]]
  | c :: t =>
      if Ascii.eqb c sep then [] :: split sep t
      else match split sep t with
           | l :: ls => (c :: l) :: ls
           | [] => [[c]]
           end
  end.

(** [s.splitlines()]: breaks at every line boundary, a carriage return
    followed by a line feed counting once; no empty last line. *)
Fixpoint splitlines (s : str) : list str :=
  match s with
  | [] => []
  | c :: t =>
      if is_linebreak c then
        [] :: match t with
              | c2 :: t2 =>
                  if Ascii.eqb c "013" && Ascii.eqb c2 "010"
                  then splitlines t2 else splitlines t
              | [] => []
              end
      else match splitlines t with
           | l :: ls => (c :: l) :: ls
           | [] => [[c]]
           end
  end.

(** [s.replace(old, "")]: the occurrences of [old] are removed from left
    to right without overlap.  [skip] counts the characters of the
    occurrence under removal that are still to be dropped. *)
Fixpoint remove_from (old : str) (skip : nat) (s : str) : str :=
  match s with
  | [] => []
  | c :: t =>
      match skip with
      | S k => remove_from old k t
      | O =>
          match old with
          | [] => c :: remove_from old 0 t
          | _ :: old' =>
              if startswith old s then remove_from old (length old') t
              else c :: remove_from old 0 t
          end
      end
  end.

Definition remove_all (old s : str) : str := remove_from old 0 s.

(** [a < b] on strings: lexicographic on code points. *)
Fixpoint str_ltb (a b : str) : bool :=
  match a, b with
  | [], [] => false
  | [], _ :: _ => true
  | _ :: _, [] => false
  | x :: a', y :: b' =>
      if (code x <? code y)%N then true
      else if (code y <? code x)%N then false
      else str_ltb a' b'
  end.

Definition str_eqb (a b : str) : bool :=
  bool_decide (a = b).

(** The longest prefix of [s] made of characters satisfying [p]. *)
Fixpoint span_while (p : ascii -> bool) (s : str) : str :=
  match s with
  | c :: t => if p c then c :: span_while p t else []
  | [] => []
  end.

(** First match of the pattern [label(cls+)] in [s], as [re.findall]
    finds it: the leftmost place where [label] is followed by at least one
    character of the class; the group is the longest run from there. *)
Fixpoint find_labeled (cls : ascii -> bool) (label : str) (s : str) : option str :=
  let here :=
    match strip_prefix label s with
    | Some rest =>
        match span_while cls rest with
        | [] => None
        | tok => Some tok
        end
    | None => None
    end in
  match here with
  | Some tok => Some tok
  | None =>
      match s with
      | [] => None
      | _ :: t => find_labeled cls label t
      end
  end.

End PyStr.
Export PyStr.

(** ** Exceptions and results *)

Inductive exn : Type :=
| TypeError
| ValueError (message : str)
| IndexError
| AttributeError.

Inductive res (A : Type) : Type :=
| Ok (a : A)
| Raise (e : exn).

Arguments Ok {A} a.
Arguments Raise {A} e.

#[global] Instance res_ret : MRet res := fun A a => Ok a.

#[global] Instance res_bind : MBind res := fun A B k m =>
  match m with
  | Ok a => k a
  | Raise e => Raise e
  end.

(** ** Python values held by metadata and queries *)

Module PyVal.

(** A number, by its decimal text: sign, integer digits and, for a float,
    the digits after the point ([None] for an [int]). *)
Record pynum : Type := PyNum {
  num_neg : bool;
  num_int : str;
  num_frac : option str
}.

Definition pyint (digits : string) : pynum :=
  {| num_neg := false; num_int := py digits; num_frac := None |}.

Definition pyfloat (int_digits frac_digits : string) : pynum :=
  {| num_neg := false; num_int := py int_digits; num_frac := Some (py frac_digits) |}.

Definition digit_val (c : ascii) : N := (code c - 48)%N.

Definition digits_val (ds : str) : N :=
  fold_left (fun acc c => (10 * acc + digit_val c)%N) ds 0%N.

(** The rational written [ip.fp]. *)
Definition dec_value (ip fp : str) : Q :=
  Qred (Z.of_N (digits_val (ip ++ fp)) # Z.to_pos (10 ^ Z.of_nat (length fp))).

Definition num_value (n : pynum) : Q :=
  let v := dec_value (num_int n) (default [] (num_frac n)) in
  if num_neg n then Qopp v else v.

(** [str(n)] *)
Definition str_of_num (n : pynum) : str :=
  (if num_neg n then py "-" else []) ++ num_int n ++
  match num_frac n with
  | Some f => py "." ++ f
  | None => []
  end.

Definition not_a_float (tok : str) : exn :=
  ValueError (py "could not convert string to float: '" ++ tok ++ py "'").

(** [float(tok)] on a token of the class [[\d.]+], the only tokens the
    deserializer converts: at most one point and at least one digit, or
    [ValueError]. *)
Definition float_of_token (tok : str) : res Q :=
  let ip := span_while isdigit tok in
  match drop (length ip) tok with
  | [] => match ip with [] => Raise (not_a_float tok) | _ => Ok (dec_value ip []) end
  | c :: fp =>
      if Ascii.eqb c "." && forallb isdigit fp
      then match ip ++ fp with [] => Raise (not_a_float tok) | _ => Ok (dec_value ip fp) end
      else Raise (not_a_float tok)
  end.

(** [int(tok)] on a token of the class [\d+]; the interpreter's limit on
    the number of digits of such a token is not part of the embedding. *)
Definition int_of_token (tok : str) : Z := Z.of_N (digits_val tok).

Inductive pyval : Type :=
| PNone
| PNum (n : pynum)
| PStr (s : str).

(** [str(v)], as an f-string renders a value. *)
Definition py_str (v : pyval) : str :=
  match v with
  | PNone => py "None"
  | PNum n => str_of_num n
  | PStr s => s
  end.

Definition Qltb (x y : Q) : bool := negb (Qle_bool y x).

(** [a < b]: defined between two numbers and between two strings. *)
Definition py_lt (a b : pyval) : res bool :=
  match a, b with
  | PNum x, PNum y => Ok (Qltb (num_value x) (num_value y))
  | PStr x, PStr y => Ok (str_ltb x y)
  | _, _ => Raise TypeError
  end.

(** [a > b] *)
Definition py_gt (a b : pyval) : res bool := py_lt b a.

(** [a != b]: never raises. *)
Definition py_ne (a b : pyval) : bool :=
  match a, b with
  | PNone, PNone => false
  | PNum x, PNum y => negb (Qeq_bool (num_value x) (num_value y))
  | PStr x, PStr y => negb (str_eqb x y)
  | _, _ => true
  end.

(** [v.lower()]: only a string has the method. *)
Definition py_lower (v : pyval) : res str :=
  match v with
  | PStr s => Ok (lower s)
  | _ => Raise AttributeError
  end.

(** Truth value of a number, a string, an int, a list. *)
Definition truthy_num (n : pynum) : bool := negb (Qeq_bool (num_value n) 0).
Definition truthy_str (s : str) : bool := match s with [] => false | _ => true end.
Definition truthy_int (z : Z) : bool := negb (z =? 0)%Z.
Definition truthy_list {A : Type} (l : list A) : bool :=
  match l with [] => false | _ => true end.

(** [l[:n]] *)
Definition slice_to {A : Type} (n : Z) (l : list A) : list A :=
  if (0 <=? n)%Z then take (Z.to_nat n) l
  else take (length l - Z.to_nat (- n)) l.

(** [dict.get(k)] and [dict.get(k, d)] *)
Definition get (m : gmap string pyval) (k : string) : pyval :=
  default PNone (m !! k).

Definition get_or (m : gmap string pyval) (k : string) (d : pyval) : pyval :=
  default d (m !! k).

End PyVal.
Export PyVal.

(** ** [list.sort(key=..., reverse=True)] *)

Module PySort.

Section Sort.
Context {A K : Type}.
(** [lt a b] is [a < b] on keys, [None] where Python raises [TypeError]. *)
Variable lt : K -> K -> option bool.
Variable key : A -> K.

Definition ltb (x y : A) : bool := default false (lt (key x) (key y)).

(** [x] is placed after the elements whose key is greater than its own
    and before the first one that is not: equal keys keep their order. *)
Fixpoint insert_desc (x : A) (l : list A) : list A :=
  match l with
  | [] => [x]
  | y :: t => if ltb x y then y :: insert_desc x t else x :: y :: t
  end.

Fixpoint sort_desc (l : list A) : list A :=
  match l with
  | [] => []
  | x :: t => insert_desc x (sort_desc t)
  end.

Fixpoint all_comparable (l : list A) : bool :=
  match l with
  | [] => true
  | x :: t =>
      forallb (fun y => bool_decide (is_Some (lt (key x) (key y)))) t
      && all_comparable t
  end.

(** The sort is stable, also in reverse.  A list of fewer than two
    elements is returned without any comparison.  Otherwise the sort
    must relate every element to the others, so it raises [TypeError]
    as soon as two keys of the list cannot be compared. *)
Definition sort_reverse (l : list A) : res (list A) :=
  match l with
  | [] | [_] => Ok l
  | _ => if all_comparable l then Ok (sort_desc l) else Raise TypeError
  end.
End Sort.

End PySort.
Export PySort.

(** ** [datetime.strptime(s, "%Y-%m-%d %H:%M:%S")] *)

Module PyDate.

Record datetime : Type := DateTime {
  year : N; month : N; day : N; hour : N; minute : N; second : N
}.

(** Chronological order of two instants is the order of these numbers. *)
Definition ordinal (t : datetime) : N :=
  ((((year t * 13 + month t) * 32 + day t) * 24 + hour t) * 60 + minute t) * 60
  + second t.

Definition is_leap (y : N) : bool :=
  ((y mod 4 =? 0) && negb (y mod 100 =? 0) || (y mod 400 =? 0))%N.

Definition days_in_month (y m : N) : N :=
  if (m =? 2)%N then (if is_leap y then 29 else 28)%N
  else if ((m =? 4) || (m =? 6) || (m =? 9) || (m =? 11))%N then 30%N
  else 31%N.

(** A field written with one or two digits: two digits give a value
    between [lo2] and [hi]; one digit gives a value from [lo1] up. *)
Definition field (lo1 lo2 hi : N) (ds : str) : option N :=
  let v := digits_val ds in
  match length ds with
  | 1 => if (lo1 <=? v)%N then Some v else None
  | 2 => if ((lo2 <=? v) && (v <=? hi))%N then Some v else None
  | _ => None
  end.

(** Reads the digits in front of [s] as a field that must be followed by
    the character [sep]. *)
Definition field_then (lo1 lo2 hi : N) (sep : ascii) (s : str) : option (N * str) :=
  let ds := span_while isdigit s in
  match drop (length ds) s with
  | c :: rest =>
      if Ascii.eqb c sep then v ← field lo1 lo2 hi ds; Some (v, rest) else None
  | [] => None
  end.

(** The day of the month, which may also be written as a space and one
    digit, followed by at least one whitespace character. *)
Definition day_then_space (s : str) : option (N * str) :=
  let ds := span_while isdigit s in
  let after :=
    match ds, s with
    | [], sp :: d :: rest =>
        if Ascii.eqb sp " " && in_range 49 57 d then Some (digit_val d, rest) else None
    | [], _ => None
    | _, _ => v ← field 1 1 31 ds; Some (v, drop (length ds) s)
    end in
  '(v, rest) ← after;
  match rest with
  | c :: _ => if isspace c then Some (v, lstrip rest) else None
  | [] => None
  end.

Definition strptime (s : str) : option datetime :=
  let yd := take 4 s in
  if negb ((length yd =? 4)%nat && forallb isdigit yd) then None else
  match drop 4 s with
  | c :: s1 =>
      if negb (Ascii.eqb c "-") then None else
      '(m, s2) ← field_then 1 1 12 "-" s1;
      '(d, s3) ← day_then_space s2;
      '(h, s4) ← field_then 0 0 23 ":" s3;
      '(mi, s5) ← field_then 0 0 59 ":" s4;
      let sd := span_while isdigit s5 in
      if negb (length sd =? length s5)%nat then None else
      sec ← field 0 0 61 sd;
      let y := digits_val yd in
      if ((1 <=? y) && (d <=? days_in_month y m) && (sec <=? 59))%N
      then Some (DateTime y m d h mi sec)
      else None
  | [] => None
  end.

(** The last [width] decimal digits of [n], zeros included. *)
Definition digit_char (n : N) : ascii := ascii_of_N (48 + n mod 10).

Fixpoint digits (width : nat) (n : N) : str :=
  match width with
  | O => []
  | S w => digits w (n / 10) ++ [digit_char n]
  end.


End PyDate.
Export PyDate.

(** ** The document store: [ChromaManager] *)

Module Chroma.

Record Document : Type := Doc {
  page_content : str;
  metadata : gmap string pyval
}.

(** The structured query the interpreter produces; a field that is absent
    and a field that is [null] both read as [None] through
    [query.get]. *)
Record Query : Type := {
  type : option str;
  min_avg_hr : option pynum;
  max_avg_hr : option pynum;
  start_date : option str;
  end_date : option str;
  last_n_runs : option Z;
  distance_km : option pynum;
  metric_filter : option str;
  run_names : option (list str)
}.

(** [query.get(k) and query[k] is not None]: the value when it is there
    and true. *)
Definition active {A : Type} (truthy : A -> bool) (field : option A) : option A :=
  match field with
  | Some v => if truthy v then Some v else None
  | None => None
  end.

(** The persisted collection.  [stored] is the order in which
    [vectorstore.get()] enumerates the documents; [nearest] is the order
    in which a similarity search for the empty text ranks them. *)
Record VectorStore : Type := {
  stored : list Document;
  nearest : list Document
}.

(** [as_retriever(search_kwargs={"filter": {"type": t}, "k": k}).invoke("")]:
    the first [k] documents of the ranking that satisfy the equality
    filter, when one is given. *)
Definition similarity_search (vs : VectorStore) (primary_filter : option str)
    (k : nat) : list Document :=
  let pool :=
    match primary_filter with
    | Some t =>
        List.filter (fun d => negb (py_ne (get (metadata d) "type") (PStr t)))
          (nearest vs)
    | None => nearest vs
    end in
  take k pool.

(** [any(name.lower() in run_name.lower() for name in names)] *)
Fixpoint any_name_in (names : list str) (run_name : pyval) : res bool :=
  match names with
  | [] => Ok false
  | name :: rest =>
      rn ← py_lower run_name;
      if contains (lower name) rn then Ok true else any_name_in rest run_name
  end.

(** The conditions of the post-filter loop of [retrieve_runs], one per
    [if]; [true] means the document is skipped by [continue]. *)
Definition skip_type (query : Query) (meta : gmap string pyval) : res bool :=
  match active truthy_str (type query) with
  | Some t => Ok (py_ne (get meta "type") (PStr t))
  | None => Ok false
  end.

Definition skip_min_avg_hr (query : Query) (meta : gmap string pyval) : res bool :=
  match active truthy_num (min_avg_hr query) with
  | Some m => py_lt (get_or meta "avg_hr" (PNum (pyint "0"))) (PNum m)
  | None => Ok false
  end.

Definition skip_max_avg_hr (query : Query) (meta : gmap string pyval) : res bool :=
  match active truthy_num (max_avg_hr query) with
  | Some m => py_gt (get_or meta "avg_hr" (PNum (pyint "9999"))) (PNum m)
  | None => Ok false
  end.

Definition skip_distance_km (query : Query) (meta : gmap string pyval) : res bool :=
  match active truthy_num (distance_km query) with
  | Some m => py_lt (get meta "distance") (PNum m)
  | None => Ok false
  end.

Definition skip_start_date (query : Query) (meta : gmap string pyval) : res bool :=
  match active truthy_str (start_date query) with
  | Some s => py_lt (get meta "date") (PStr s)
  | None => Ok false
  end.

Definition skip_end_date (query : Query) (meta : gmap string pyval) : res bool :=
  match active truthy_str (end_date query) with
  | Some s => py_gt (get meta "date") (PStr s)
  | None => Ok false
  end.

Definition skip_run_names (query : Query) (meta : gmap string pyval) : res bool :=
  match active truthy_list (run_names query) with
  | Some names =>
      found ← any_name_in names (get_or meta "name" (PStr []));
      Ok (negb found)
  | None => Ok false
  end.

(** The first condition that holds skips the document; the later ones are
    then not evaluated. *)
Definition or_skip (c : res bool) (rest : res bool) : res bool :=
  c ≫= λ b : bool, if b then Ok true else rest.

Definition skipped (query : Query) (meta : gmap string pyval) : res bool :=
  or_skip (skip_type query meta)
  (or_skip (skip_min_avg_hr query meta)
  (or_skip (skip_max_avg_hr query meta)
  (or_skip (skip_distance_km query meta)
  (or_skip (skip_start_date query meta)
  (or_skip (skip_end_date query meta)
  (skip_run_names query meta)))))).

Fixpoint post_filter (query : Query) (docs : list Document) : res (list Document) :=
  match docs with
  | [] => Ok []
  | doc :: rest =>
      s ← skipped query (metadata doc);
      kept ← post_filter query rest;
      Ok (if (s : bool) then kept else doc :: kept)
  end.

(** Keys of the date sort of [retrieve_runs] are compared as Python
    values. *)
Definition lt_pyval (a b : pyval) : option bool :=
  match py_lt a b with
  | Ok r => Some r
  | Raise _ => None
  end.

Definition date_of (doc : Document) : pyval :=
  get_or (metadata doc) "date" (PStr []).

(** [retrieve_runs(query, top_k)].  The test [not self.vectorstore] of the
    first line is an empty store here; a store without documents yields
    the empty list on the other path as well. *)
Definition retrieve_runs (vs : VectorStore) (query : Query) (top_k : nat)
    : res (list Document) :=
  match stored vs with
  | [] => Ok []
  | _ =>
      let primary_filter := active truthy_str (type query) in
      let docs := similarity_search vs primary_filter (top_k * 3) in
      filtered_docs ← post_filter query docs;
      filtered_docs ←
        match active truthy_int (last_n_runs query) with
        | Some n =>
            sorted ← sort_reverse lt_pyval date_of filtered_docs;
            Ok (slice_to n sorted)
        | None => Ok filtered_docs
        end;
      Ok (take top_k filtered_docs)
  end.

Definition top_k_default : nat := 20.

(** The filter of [get_runs_by_names]: documents are visited in order and
    the first one whose name has no [lower] raises. *)
Fixpoint matching_docs (run_names : list str) (docs : list Document)
    : res (list Document) :=
  match docs with
  | [] => Ok []
  | doc :: rest =>
      m ← any_name_in run_names (get_or (metadata doc) "name" (PStr []));
      ms ← matching_docs run_names rest;
      Ok (if (m : bool) then doc :: ms else ms)
  end.

Definition get_runs_by_names (vs : VectorStore) (run_names : list str)
    : res (list Document) :=
  match stored vs with
  | [] => Ok []
  | docs => matching_docs run_names docs
  end.

(** The key [get_date_key] gives a document: the parsed instant, or the
    stored value itself when it does not parse. *)
Inductive date_key : Type :=
| KDate (t : datetime)
| KRaw (v : pyval).

Definition get_date_key (doc : Document) : date_key :=
  let date_str := get_or (metadata doc) "date" (PStr []) in
  match date_str with
  | PStr s =>
      match strptime s with
      | Some t => KDate t
      | None => KRaw date_str
      end
  | _ => KRaw date_str
  end.

Definition lt_date_key (a b : date_key) : option bool :=
  match a, b with
  | KDate x, KDate y => Some (ordinal x <? ordinal y)%N
  | KRaw x, KRaw y => lt_pyval x y
  | _, _ => None
  end.

(** [get_latest_runs(n)] *)
Definition get_latest_runs (vs : VectorStore) (n : Z) : res (list Document) :=
  match stored vs with
  | [] => Ok []
  | docs =>
      sorted ← sort_reverse lt_date_key get_date_key docs;
      Ok (slice_to n sorted)
  end.

Definition newline : ascii := "010".

(** The summary line of one document. *)
Definition summary_line (meta : gmap string pyval) : str :=
  newline :: py_str (get meta "date") ++ py " | " ++ py_str (get meta "name") ++ py " | "
  ++ py "Distance: " ++ py_str (get meta "distance") ++ py " km | "
  ++ py "Pace: " ++ py_str (get meta "pace") ++ py " min/km | "
  ++ py "Avg HR: " ++ py_str (get meta "avg_hr") ++ py " bpm | "
  ++ py "Elevation: " ++ py_str (get meta "elevation_gain") ++ py " m | "
  ++ py "Type: " ++ py_str (get meta "type").

(** The per-KM breakdown: the text without its first eight lines. *)
Definition km_data (doc : Document) : str :=
  join [newline] (drop 8 (split newline (page_content doc))).

Definition context_lines (include_per_km : bool) (doc : Document) : list str :=
  summary_line (metadata doc) :: (if include_per_km then [km_data doc] else []).

(** [docs_to_context(docs, include_per_km)] *)
Definition docs_to_context (docs : list Document) (include_per_km : bool) : str :=
  match docs with
  | [] => py "No run data available."
  | _ => join [newline] (flat_map (context_lines include_per_km) docs)
  end.

(** *** [context_to_dataframe] *)

(** The regular expression [^\d{4}-\d{2}-\d{2}] at the start of a line. *)
Definition is_header_line (line : str) : bool :=
  match line with
  | y1 :: y2 :: y3 :: y4 :: d1 :: m1 :: m2 :: d2 :: a1 :: a2 :: _ =>
      isdigit y1 && isdigit y2 && isdigit y3 && isdigit y4 && Ascii.eqb d1 "-"
      && isdigit m1 && isdigit m2 && Ascii.eqb d2 "-" && isdigit a1 && isdigit a2
  | _ => false
  end.

(** [float(re.findall(label + "([\d.]+)", s)[0]) if re.findall(...) else 0] *)
Definition labeled_float (label : string) (s : str) : res Q :=
  match find_labeled isnumch (py label) s with
  | Some tok => float_of_token tok
  | None => Ok 0%Q
  end.

(** The dictionary [current_run] once a summary line has filled it. *)
Record RunHeader : Type := {
  h_date : str;
  h_run_name : str;
  h_distance : Q;
  h_avg_pace : Q;
  h_avg_hr : Q;
  h_total_elevation : Q;
  h_run_type : str
}.

(** One row of the frame. *)
Record Row : Type := {
  date : str;
  run_name : str;
  run_type : str;
  km : Z;
  pace : Q;
  hr : Q;
  power : Q;
  elevation_gain : Q;
  distance : Q;
  avg_hr : Q;
  avg_pace : Q;
  total_elevation : Q
}.

(** A line that opens with a date: the new [current_run], or [None] when
    the line has fewer than seven parts and [current_run] stays as it is.
    The conversions to [float] are not guarded here. *)
Definition parse_header (line : str) : res (option RunHeader) :=
  match split "|" line with
  | p0 :: p1 :: p2 :: p3 :: p4 :: p5 :: p6 :: _ =>
      dist ← labeled_float "" p2;
      pc ← labeled_float "" p3;
      h ← labeled_float "" p4;
      elev ← labeled_float "" p5;
      Ok (Some {| h_date := strip p0;
                  h_run_name := strip p1;
                  h_distance := dist;
                  h_avg_pace := pc;
                  h_avg_hr := h;
                  h_total_elevation := elev;
                  h_run_type := remove_all (py "Type: ") (strip p6) |})
  | _ => Ok None
  end.

(** [current_run.get(k, d)] on the empty or the filled dictionary. *)
Definition run_get {A : Type} (current_run : option RunHeader)
    (f : RunHeader -> A) (d : A) : A :=
  match current_run with
  | Some h => f h
  | None => d
  end.

(** The body of the [try] for a line that starts with [KM]: the row, or
    the exception that the [except] clause swallows. *)
Definition parse_km (current_run : option RunHeader) (line : str) : res Row :=
  match find_labeled isdigit (py "KM ") line with
  | None => Raise IndexError
  | Some tok =>
      let km_num := int_of_token tok in
      pc ← labeled_float "Pace " line;
      h ← labeled_float "HR " line;
      pw ← labeled_float "Power " line;
      eg ← labeled_float "Elevation Gain " line;
      Ok {| date := run_get current_run h_date [];
            run_name := run_get current_run h_run_name [];
            run_type := run_get current_run h_run_type [];
            km := km_num;
            pace := pc;
            hr := h;
            power := pw;
            elevation_gain := eg;
            distance := run_get current_run h_distance 0%Q;
            avg_hr := run_get current_run h_avg_hr 0%Q;
            avg_pace := run_get current_run h_avg_pace 0%Q;
            total_elevation := run_get current_run h_total_elevation 0%Q |}
  end.

(** The loop over the lines, with [current_run] threaded through; the
    result lists the rows in the order they are appended. *)
Fixpoint rows_of_lines (current_run : option RunHeader) (lines : list str)
    : res (list Row) :=
  match lines with
  | [] => Ok []
  | raw :: rest =>
      let line := strip raw in
      match line with
      | [] => rows_of_lines current_run rest
      | _ =>
          if is_header_line line then
            parsed ← parse_header line;
            rows_of_lines (match parsed with
                           | Some h => Some h
                           | None => current_run
                           end) rest
          else if startswith (py "KM") line then
            match parse_km current_run line with
            | Ok row => rows ← rows_of_lines current_run rest; Ok (row :: rows)
            | Raise _ => rows_of_lines current_run rest
            end
          else rows_of_lines current_run rest
      end
  end.

(** The list [rows] when the loop over [context.splitlines()] ends. *)
Definition rows_of_context (context : str) : res (list Row) :=
  rows_of_lines None (splitlines context).

(** The frame that is returned: the rows, and the column that replaces
    their [date] texts once [pd.to_datetime] has converted them.  The
    frame of no row keeps no column and nothing is converted. *)
Record DataFrame (Timestamp : Type) : Type := {
  records : list Row;
  date_column : list Timestamp
}.

Arguments records {Timestamp} _.
Arguments date_column {Timestamp} _.

Section Frame.
(** [pd.to_datetime] on a column of texts: the timestamps of the column,
    or the exception the library raises for a column it rejects. *)
Variable Timestamp : Type.
Variable to_datetime : list str -> res (list Timestamp).

(** [context_to_dataframe(context)] *)
Definition context_to_dataframe (context : str) : res (DataFrame Timestamp) :=
  rows ← rows_of_context context;
  match rows with
  | [] => Ok {| records := []; date_column := [] |}
  | _ =>
      dates ← to_datetime (map date rows);
      Ok {| records := rows; date_column := dates |}
  end.

End Frame.

End Chroma.
Export Chroma.

(** ** The retrieval block of [document_retriever_agent] *)

Module Workflow.

(** The statements that compute [retrieved_docs]: name lookup when
    [run_names] is there and true, the filtered retrieval otherwise, and
    the five latest runs when that gave nothing. *)
Definition retrieved_docs (vs : VectorStore) (query : Query) : res (list Document) :=
  found ←
    match active truthy_list (run_names query) with
    | Some names => get_runs_by_names vs names
    | None => retrieve_runs vs query top_k_default
    end;
  match found with
  | [] => get_latest_runs vs 5
  | _ => Ok found
  end.

(** The agent skips retrieval for the query [{"type": "sync"}] that the
    workflow itself builds for a synchronisation; an exception of the
    block ends up in the [error] entry of the state. *)
Definition document_retriever_agent (vs : VectorStore) (query : Query)
    : res (list Document) :=
  if bool_decide (type query = Some (py "sync")) then Ok []
  else retrieved_docs vs query.

End Workflow.
Export Workflow.

(** ** The query interpreter: [LLMClient.interpret_query] *)

Module LLM.

(** [re.sub(r"^```json\s*|```$", "", response, flags=re.MULTILINE)].
    [bol] tells whether the position is at the start of a line; [skip]
    counts the characters of the current match still to drop and [ws]
    tells whether the whitespace after them belongs to the match. *)
Fixpoint sub_fences (skip : nat) (ws bol : bool) (s : str) : str :=
  match s with
  | [] => []
  | c :: t =>
      match skip with
      | S k => sub_fences k ws (Ascii.eqb c newline) t
      | O =>
          if ws && isspace c then sub_fences 0 true (Ascii.eqb c newline) t
          else if bol && startswith (py "```json") s then sub_fences 6 true false t
          else if startswith (py "```") s
                  && match drop 3 s with
                     | [] => true
                     | c' :: _ => Ascii.eqb c' newline
                     end
          then sub_fences 2 false false t
          else c :: sub_fences 0 false (Ascii.eqb c newline) t
      end
  end.

Definition clean_response (content : str) : str :=
  strip (sub_fences 0 false true (strip content)).

Definition parse_failure (response : str) : exn :=
  ValueError (py "Failed to parse Gemini output as JSON:" ++ [newline] ++ response).

Section Interpreter.
(** The values [json.loads] builds and the function itself, [None]
    standing for [JSONDecodeError]; the prompt template filled with the
    user's text. *)
Variable JSON : Type.
Variable json_loads : str -> option JSON.
Variable interpreter_prompt : str -> str.

(** The generative model, as the replies it will give to the next
    calls and the prompts it has received. *)
Record Model : Type := {
  replies : list str;
  prompts : list str
}.

(** [self.llm.invoke(prompt_text).content]; a model with no reply left
    stands for a call that fails. *)
Definition invoke (prompt_text : str) (llm : Model) : option str * Model :=
  match replies llm with
  | r :: rest => (Some r, {| replies := rest; prompts := prompts llm ++ [prompt_text] |})
  | [] => (None, {| replies := []; prompts := prompts llm ++ [prompt_text] |})
  end.

Inductive outcome : Type :=
| Returned (query_dict : JSON)
| Raised (e : exn)
| ModelFailed.

Definition interpret_query (user_text : str) (llm : Model) : outcome * Model :=
  let prompt_text := interpreter_prompt user_text in
  match invoke prompt_text llm with
  | (Some content, llm') =>
      let response := clean_response content in
      match json_loads response with
      | Some query_dict => (Returned query_dict, llm')
      | None => (Raised (parse_failure response), llm')
      end
  | (None, llm') => (ModelFailed, llm')
  end.
End Interpreter.

Arguments Returned {JSON} query_dict.
Arguments Raised {JSON} e.
Arguments ModelFailed {JSON}.

End LLM.
Export LLM.

(** ** The per-kilometre normaliser: [StravaClient.km_wise_data] *)

Module Strava.

(** A [float64] of an array: a rational, an infinity or NaN. *)
Inductive npfloat : Type :=
| Fin (q : Q)
| Inf (negative : bool)
| NaN.

Definition Qsign_neg (q : Q) : bool := Qltb q 0.

(** Division of two array values; dividing by zero gives an infinity (or
    NaN for [0/0]) and a warning, never an exception. *)
Definition np_div (a b : npfloat) : npfloat :=
  match a, b with
  | NaN, _ | _, NaN => NaN
  | Inf _, Inf _ => NaN
  | Inf s, Fin q => Inf (xorb s (Qsign_neg q))
  | Fin _, Inf _ => Fin 0
  | Fin p, Fin q =>
      if Qeq_bool q 0 then
        (if Qeq_bool p 0 then NaN else Inf (Qsign_neg p))
      else Fin (Qred (p / q))
  end.

Definition np_sub (a b : npfloat) : npfloat :=
  match a, b with
  | Fin p, Fin q => Fin (Qred (p - q))
  | NaN, _ | _, NaN => NaN
  | Inf s, Inf s' => if Bool.eqb s s' then NaN else Inf s
  | Inf s, Fin _ => Inf s
  | Fin _, Inf s => Inf (negb s)
  end.

(** [safe_array(data)]: [None] becomes NaN. *)
Definition safe_array (data : list (option Q)) : list npfloat :=
  map (fun v => match v with Some q => Fin q | None => NaN end) data.

(** [streams.get(name, {}).get("data", [])]; the streams are kept as a
    dictionary from the stream's name to its data. *)
Definition stream_data (streams : gmap string (list (option Q))) (name : string)
    : list (option Q) :=
  default [] (streams !! name).

Definition finite_values (a : list npfloat) : list Q :=
  flat_map (fun v => match v with Fin q => [q] | _ => [] end) a.

Definition Qsum (l : list Q) : Q := fold_right Qplus 0%Q l.

(** [np.nanmean]: the mean of the values that are not NaN, and NaN (with a
    warning) when there is none. *)
Definition nanmean (a : list npfloat) : npfloat :=
  match finite_values a with
  | [] => NaN
  | qs => Fin (Qred (Qsum qs / inject_Z (Z.of_nat (length qs))))
  end.

Definition Qmax (a b : Q) : Q := if Qltb a b then b else a.
Definition Qmin (a b : Q) : Q := if Qltb b a then b else a.

(** [np.nanmax] and [np.nanmin] *)
Definition nanmax (a : list npfloat) : npfloat :=
  match finite_values a with
  | [] => NaN
  | q :: qs => Fin (fold_left Qmax qs q)
  end.

Definition nanmin (a : list npfloat) : npfloat :=
  match finite_values a with
  | [] => NaN
  | q :: qs => Fin (fold_left Qmin qs q)
  end.

(** [a[mask]]: the two arrays must have the same length. *)
Fixpoint select (a : list npfloat) (mask : list bool) : res (list npfloat) :=
  match a, mask with
  | [], [] => Ok []
  | v :: a', m :: mask' =>
      rest ← select a' mask';
      Ok (if (m : bool) then v :: rest else rest)
  | _, _ => Raise IndexError
  end.

(** [f(a[mask]) if a.size else None] *)
Definition aggregate (f : list npfloat -> npfloat) (a : list npfloat)
    (mask : list bool) : res (option npfloat) :=
  match a with
  | [] => Ok None
  | _ => sel ← select a mask; Ok (Some (f sel))
  end.

(** [(1000 / np.nanmean(pace[mask])) / 60] *)
Definition pace_of_velocities (bucket : list npfloat) : npfloat :=
  np_div (np_div (Fin 1000) (nanmean bucket)) (Fin 60).

Definition elevation_of (bucket : list npfloat) : npfloat :=
  np_sub (nanmax bucket) (nanmin bucket).

Record KmRow : Type := {
  KM : nat;
  Avg_HR : option npfloat;
  Avg_Cadence : option npfloat;
  Avg_Power : option npfloat;
  Avg_Pace_min_per_km : option npfloat;
  Elevation_Gain_m : option npfloat
}.

(** [(dist >= (km - 1) * 1000) & (dist < km * 1000)]; a comparison with
    NaN is false. *)
Definition bucket_mask (dist : list npfloat) (km : nat) : list bool :=
  map (fun d =>
         match d with
         | Fin q =>
             Qle_bool (inject_Z ((Z.of_nat km - 1) * 1000)) q
             && Qltb q (inject_Z (Z.of_nat km * 1000))
         | _ => false
         end) dist.

Fixpoint km_rows (dist hr cad watts pace alt : list npfloat) (kms : list nat)
    : res (list KmRow) :=
  match kms with
  | [] => Ok []
  | km :: rest =>
      let mask := bucket_mask dist km in
      if forallb negb mask then km_rows dist hr cad watts pace alt rest
      else
        a_hr ← aggregate nanmean hr mask;
        a_cad ← aggregate nanmean cad mask;
        a_pow ← aggregate nanmean watts mask;
        a_pace ← aggregate pace_of_velocities pace mask;
        a_elev ← aggregate elevation_of alt mask;
        rows ← km_rows dist hr cad watts pace alt rest;
        Ok ({| KM := km; Avg_HR := a_hr; Avg_Cadence := a_cad; Avg_Power := a_pow;
               Avg_Pace_min_per_km := a_pace; Elevation_Gain_m := a_elev |} :: rows)
  end.

Definition nan_to_int : exn := ValueError (py "cannot convert float NaN to integer").

(** [km_wise_data(streams)], the frame as the list of its rows. *)
Definition km_wise_data (streams : gmap string (list (option Q))) : res (list KmRow) :=
  if bool_decide (streams = ∅) then Ok [] else
  let dist := safe_array (stream_data streams "distance") in
  let hr := safe_array (stream_data streams "heartrate") in
  let cad := safe_array (stream_data streams "cadence") in
  let watts := safe_array (stream_data streams "watts") in
  let pace := safe_array (stream_data streams "velocity_smooth") in
  let alt := safe_array (stream_data streams "altitude") in
  match last dist with
  | None => Ok []
  | Some (Fin q) =>
      let km_segments := Qfloor (q / 1000) in
      km_rows dist hr cad watts pace alt (seq 1 (Z.to_nat km_segments))
  | Some _ => Raise nan_to_int
  end.

(** The pace of [create_fallback_data], the path taken for an activity
    without streams: [(distance * 1000) / average_speed / 60 if
    average_speed > 0 else None], with [distance] in kilometres. *)
Definition fallback_pace (distance average_speed : Q) : option Q :=
  if Qltb 0 average_speed
  then Some (Qred ((distance * 1000) / average_speed / 60))
  else None.

End Strava.
Export Strava.

(** ** [ChromaManager.get_existing_run_names] *)

Module ChromaNames.

(** The values of the [name] key of the stored metadata, in the order of
    the store; a document without the key gives nothing. *)
Definition get_existing_run_names (vs : VectorStore) : list pyval :=
  match stored vs with
  | [] => []
  | docs =>
      flat_map (fun doc => match metadata doc !! "name" with
                           | Some name => [name]
                           | None => []
                           end) docs
  end.

End ChromaNames.
Export ChromaNames.

(** ** [LLMClient.get_plotting_code] *)

Module Plotting.

(** [lines[1:-1]] *)
Definition inner_lines (lines : list str) : list str :=
  drop 1 (take (length lines - 1) lines).

(** The code kept from the model's reply: a reply that opens with a
    fence loses its first and its last line. *)
Definition clean_code (content : str) : str :=
  let ai_code := strip content in
  if startswith (py "```") ai_code
  then join [newline] (inner_lines (splitlines ai_code))
  else ai_code.

(** One call of the model on the filled plotting prompt; [None] stands
    for a call that fails. *)
Definition get_plotting_code (plotting_prompt : str -> str -> str -> str)
    (df_description user_question llm_response : str) (llm : Model)
    : option str * Model :=
  let prompt_text := plotting_prompt df_description user_question llm_response in
  match invoke prompt_text llm with
  | (Some content, llm') => (Some (clean_code content), llm')
  | (None, llm') => (None, llm')
  end.

End Plotting.
Export Plotting.

(** ** [ChatContextManager] *)

Module ChatContext.

(** An entry of the chat history. *)
Record ChatEntry : Type := {
  timestamp : str;
  message : str;
  response : str;
  is_user : bool
}.

(** A user's context, with the five keys the default context has. *)
Record Context : Type := {
  user_id : string;
  preferences : gmap string str;
  chat_history : list ChatEntry;
  personal_info : gmap string str;
  last_updated : str
}.

(** The storage directory, as the context held by the file of each user
    that has one, and the number of times the clock has been read. *)
Record Storage : Type := {
  files : gmap string Context;
  clock : nat
}.

(** The dictionary of updates, by the keys of a context: a key that is
    absent is [None]. *)
Record Updates : Type := {
  on_user_id : option string;
  on_preferences : option (gmap string str);
  on_chat_history : option (list ChatEntry);
  on_personal_info : option (gmap string str);
  on_last_updated : option str
}.

(** A whole context passed as the updates. *)
Definition as_updates (context : Context) : Updates :=
  {| on_user_id := Some (user_id context);
     on_preferences := Some (preferences context);
     on_chat_history := Some (chat_history context);
     on_personal_info := Some (personal_info context);
     on_last_updated := Some (last_updated context) |}.

(** [history[-n:]] *)
Definition last_entries {A : Type} (n : nat) (history : list A) : list A :=
  drop (length history - n) history.

Section Clock.
(** [datetime.now().isoformat()] at each reading of the clock. *)
Variable isoformat_now : nat -> str.

Definition now (s : Storage) : str * Storage :=
  (isoformat_now (clock s), {| files := files s; clock := S (clock s) |}).

Definition default_context (user : string) (time : str) : Context :=
  {| user_id := user; preferences := ∅; chat_history := []; personal_info := ∅;
     last_updated := time |}.

Definition get_user_context (user : string) (s : Storage) : Context * Storage :=
  match files s !! user with
  | Some context => (context, s)
  | None => let '(time, s') := now s in (default_context user time, s')
  end.

Definition update_user_context (user : string) (updates : Updates) (s : Storage)
    : Storage :=
  let '(current_context, s1) := get_user_context user s in
  let '(time, s2) := now s1 in
  let updated :=
    {| user_id := default (user_id current_context) (on_user_id updates);
       preferences :=
         match on_preferences updates with
         | Some value => value ∪ preferences current_context
         | None => preferences current_context
         end;
       chat_history :=
         match on_chat_history updates with
         | Some value => last_entries 50 (chat_history current_context ++ value)
         | None => chat_history current_context
         end;
       personal_info :=
         match on_personal_info updates with
         | Some value => value ∪ personal_info current_context
         | None => personal_info current_context
         end;
       last_updated := time |} in
  {| files := <[user := updated]> (files s2); clock := clock s2 |}.

Definition only_chat_history (entries : list ChatEntry) : Updates :=
  {| on_user_id := None; on_preferences := None; on_chat_history := Some entries;
     on_personal_info := None; on_last_updated := None |}.

Definition add_chat_message (user : string) (msg reply : str) (from_user : bool)
    (s : Storage) : Storage :=
  let '(time, s1) := now s in
  let chat_entry :=
    {| timestamp := time; message := msg; response := reply; is_user := from_user |} in
  update_user_context user (only_chat_history [chat_entry]) s1.

Definition update_personal_info (user info_type : string) (value : str) (s : Storage)
    : Storage :=
  let '(current_context, s1) := get_user_context user s in
  let changed :=
    {| user_id := user_id current_context;
       preferences := preferences current_context;
       chat_history := chat_history current_context;
       personal_info := <[info_type := value]> (personal_info current_context);
       last_updated := last_updated current_context |} in
  update_user_context user (as_updates changed) s1.

Definition clear_chat_history (user : string) (s : Storage) : Storage :=
  update_user_context user (only_chat_history []) s.

(** What [reset_command] of the Telegram bot does to the storage before
    it replies. *)
Definition reset_command (user : string) (s : Storage) : Storage :=
  let s1 := clear_chat_history user s in
  let '(current_context, s2) := get_user_context user s1 in
  let emptied :=
    {| user_id := user_id current_context;
       preferences := ∅;
       chat_history := chat_history current_context;
       personal_info := ∅;
       last_updated := last_updated current_context |} in
  update_user_context user (as_updates emptied) s2.

End Clock.

End ChatContext.

(** ** [StravaClient._update_env_refresh_token] *)

Module EnvFile.

Definition token_key : str := py "STRAVA_REFRESH_TOKEN=".

(** The loop over [enumerate(lines)]: the first line that starts with the
    key is replaced and the loop is left; [None] when [updated] stays
    false. *)
Fixpoint update_lines (new_refresh_token : str) (lines : list str) : option (list str) :=
  match lines with
  | [] => None
  | line :: rest =>
      if startswith token_key line
      then Some ((token_key ++ new_refresh_token ++ [newline]) :: rest)
      else match update_lines new_refresh_token rest with
           | Some rest' => Some (line :: rest')
           | None => None
           end
  end.

(** The [.env] file before and after the call, as the lines that
    [readlines] gives and [writelines] takes; [None] is a file that does
    not exist.  The file is written only when a line was replaced. *)
Definition _update_env_refresh_token (new_refresh_token : str)
    (env : option (list str)) : option (list str) :=
  match env with
  | None => None
  | Some lines =>
      match update_lines new_refresh_token lines with
      | Some lines' => Some lines'
      | None => Some lines
      end
  end.

End EnvFile.
Export EnvFile.

(** ** [json.loads] *)

Module PyJson.

(** The values [json.loads] builds: a string by its code points, since an
    escape can denote any character; a float by the text of its literal;
    a dictionary by its items in the order of their first insertion. *)
#[local] Unset Elimination Schemes.
Inductive json : Type :=
| JNull
| JBool (b : bool)
| JInt (n : Z)
| JFloat (literal : str)
| JStr (s : list N)
| JList (items : list json)
| JDict (items : list (list N * json)).
#[local] Set Elimination Schemes.

(** The outcome of a scan: a value and the text after it, a text that is
    not JSON, or a scan given too few steps. *)
Inductive scan (A : Type) : Type :=
| Scanned (a : A) (rest : str)
| Invalid
| OutOfSteps.

Arguments Scanned {A} a rest.
Arguments Invalid {A}.
Arguments OutOfSteps {A}.

(** [d[k] = v] on the items of a dictionary. *)
Fixpoint dict_set (k : list N) (v : json) (items : list (list N * json))
    : list (list N * json) :=
  match items with
  | [] => [(k, v)]
  | (k', v') :: rest =>
      if bool_decide (k = k') then (k, v) :: rest else (k', v') :: dict_set k v rest
  end.

Definition dict_of (pairs : list (list N * json)) : list (list N * json) :=
  fold_left (fun items kv => dict_set (fst kv) (snd kv) items) pairs [].

(** The whitespace of JSON: space, tab, line feed, carriage return. *)
Definition is_ws (c : ascii) : bool :=
  Ascii.eqb c " " || Ascii.eqb c "009" || Ascii.eqb c "010" || Ascii.eqb c "013".

Fixpoint skip_ws (s : str) : str :=
  match s with
  | c :: t => if is_ws c then skip_ws t else s
  | [] => []
  end.

Definition hex_val (c : ascii) : option N :=
  if in_range 48 57 c then Some (code c - 48)%N
  else if in_range 97 102 c then Some (code c - 87)%N
  else if in_range 65 70 c then Some (code c - 55)%N
  else None.

Definition hex4 (a b c d : ascii) : option N :=
  x ← hex_val a; y ← hex_val b; z ← hex_val c; w ← hex_val d;
  Some (((x * 16 + y) * 16 + z) * 16 + w)%N.

(** The character a one-letter escape stands for. *)
Definition escape (c : ascii) : option N :=
  if Ascii.eqb c "034" then Some 34%N
  else if Ascii.eqb c "\" then Some 92%N
  else if Ascii.eqb c "/" then Some 47%N
  else if Ascii.eqb c "b" then Some 8%N
  else if Ascii.eqb c "f" then Some 12%N
  else if Ascii.eqb c "n" then Some 10%N
  else if Ascii.eqb c "r" then Some 13%N
  else if Ascii.eqb c "t" then Some 9%N
  else None.

Definition is_high_surrogate (u : N) : bool := ((55296 <=? u) && (u <=? 56319))%N.
Definition is_low_surrogate (u : N) : bool := ((56320 <=? u) && (u <=? 57343))%N.
Definition join_surrogates (hi lo : N) : N :=
  (65536 + (hi - 55296) * 1024 + (lo - 56320))%N.

(** The string that goes on in [s], after its opening quote, up to the
    closing one: control characters are refused, and a high surrogate
    followed by the escape of a low one makes one character with it. *)
Fixpoint scanstring (s : str) : option (list N * str) :=
  match s with
  | [] => None
  | c :: rest =>
      if Ascii.eqb c "034" then Some ([], rest)
      else if Ascii.eqb c "\" then
        match rest with
        | [] => None
        | e :: rest1 =>
            if Ascii.eqb e "u" then
              match rest1 with
              | h1 :: h2 :: h3 :: h4 :: rest2 =>
                  match hex4 h1 h2 h3 h4 with
                  | None => None
                  | Some u =>
                      let alone :=
                        match scanstring rest2 with
                        | Some (chars, after) => Some (u :: chars, after)
                        | None => None
                        end in
                      match rest2 with
                      | b :: v :: g1 :: g2 :: g3 :: g4 :: rest3 =>
                          if is_high_surrogate u && Ascii.eqb b "\" && Ascii.eqb v "u"
                          then match hex4 g1 g2 g3 g4 with
                               | Some u2 =>
                                   if is_low_surrogate u2
                                   then match scanstring rest3 with
                                        | Some (chars, after) =>
                                            Some (join_surrogates u u2 :: chars, after)
                                        | None => None
                                        end
                                   else alone
                               | None => None
                               end
                          else alone
                      | _ => alone
                      end
                  end
              | _ => None
              end
            else
              match escape e with
              | Some u =>
                  match scanstring rest1 with
                  | Some (chars, after) => Some (u :: chars, after)
                  | None => None
                  end
              | None => None
              end
        end
      else if (code c <? 32)%N then None
      else
        match scanstring rest with
        | Some (chars, after) => Some (code c :: chars, after)
        | None => None
        end
  end.

(** The parts of the number that opens a text, each with the text after
    it: the sign; the integer part, without a leading zero; the fraction,
    when a point is followed by a digit; the exponent, when [e] is
    followed by digits, a sign allowed in between. *)
Definition sign_part (s : str) : str * str :=
  match s with
  | c :: t => if Ascii.eqb c "-" then ([c], t) else ([], s)
  | [] => ([], s)
  end.

Definition integer_part (s : str) : option (str * str) :=
  match s with
  | c :: t =>
      if Ascii.eqb c "0" then Some ([c], t)
      else if in_range 49 57 c
      then let ds := span_while isdigit t in Some (c :: ds, drop (length ds) t)
      else None
  | [] => None
  end.

Definition fraction_part (s : str) : str * str :=
  match s with
  | p :: d :: t =>
      if Ascii.eqb p "." && isdigit d
      then let ds := span_while isdigit (d :: t) in
           (p :: ds, drop (length ds) (d :: t))
      else ([], s)
  | _ => ([], s)
  end.

Definition exponent_part (s : str) : str * str :=
  match s with
  | e :: t =>
      if Ascii.eqb e "e" || Ascii.eqb e "E" then
        let '(esign, t1) :=
          match t with
          | c :: t' =>
              if Ascii.eqb c "-" || Ascii.eqb c "+" then ([c], t') else ([], t)
          | [] => ([], t)
          end in
        match span_while isdigit t1 with
        | [] => ([], s)
        | ds => (e :: esign ++ ds, drop (length ds) t1)
        end
      else ([], s)
  | [] => ([], s)
  end.

(** The number that opens [s]: an [int] when it has neither fraction nor
    exponent, a [float] otherwise. *)
Definition match_number (s : str) : option (json * str) :=
  let '(sign, s1) := sign_part s in
  match integer_part s1 with
  | None => None
  | Some (ip, s2) =>
      let '(frac, s3) := fraction_part s2 in
      let '(exponent, s4) := exponent_part s3 in
      match frac, exponent with
      | [], [] =>
          let n := Z.of_N (digits_val ip) in
          Some (JInt (match sign with [] => n | _ => (- n)%Z end), s4)
      | _, _ => Some (JFloat (sign ++ ip ++ frac ++ exponent), s4)
      end
  end.

(** [scan_once]: the value that opens [s], the recursion of the scanner
    counted in steps.  The two loops read the elements of an array after
    its bracket and the items of an object at the quote of a key. *)
Fixpoint scan_once (steps : nat) (s : str) : scan json :=
  match steps with
  | O => OutOfSteps
  | S steps' =>
      match s with
      | [] => Invalid
      | c :: rest =>
          if Ascii.eqb c "034" then
            match scanstring rest with
            | Some (chars, after) => Scanned (JStr chars) after
            | None => Invalid
            end
          else if Ascii.eqb c "{" then
            match skip_ws rest with
            | [] => Invalid
            | c' :: after =>
                if Ascii.eqb c' "}" then Scanned (JDict []) after
                else match parse_object steps' (c' :: after) with
                     | Scanned pairs after' => Scanned (JDict (dict_of pairs)) after'
                     | Invalid => Invalid
                     | OutOfSteps => OutOfSteps
                     end
            end
          else if Ascii.eqb c "[" then
            match skip_ws rest with
            | [] => Invalid
            | c' :: after =>
                if Ascii.eqb c' "]" then Scanned (JList []) after
                else match parse_array steps' (c' :: after) with
                     | Scanned items after' => Scanned (JList items) after'
                     | Invalid => Invalid
                     | OutOfSteps => OutOfSteps
                     end
            end
          else if startswith (py "null") s then Scanned JNull (drop 4 s)
          else if startswith (py "true") s then Scanned (JBool true) (drop 4 s)
          else if startswith (py "false") s then Scanned (JBool false) (drop 5 s)
          else if startswith (py "NaN") s then Scanned (JFloat (py "NaN")) (drop 3 s)
          else if startswith (py "Infinity") s
          then Scanned (JFloat (py "Infinity")) (drop 8 s)
          else if startswith (py "-Infinity") s
          then Scanned (JFloat (py "-Infinity")) (drop 9 s)
          else match match_number s with
               | Some (v, after) => Scanned v after
               | None => Invalid
               end
      end
  end
with parse_array (steps : nat) (s : str) : scan (list json) :=
  match steps with
  | O => OutOfSteps
  | S steps' =>
      match scan_once steps' s with
      | Scanned v after =>
          match skip_ws after with
          | c :: after' =>
              if Ascii.eqb c "]" then Scanned [v] after'
              else if Ascii.eqb c "," then
                match parse_array steps' (skip_ws after') with
                | Scanned vs after'' => Scanned (v :: vs) after''
                | Invalid => Invalid
                | OutOfSteps => OutOfSteps
                end
              else Invalid
          | [] => Invalid
          end
      | Invalid => Invalid
      | OutOfSteps => OutOfSteps
      end
  end
with parse_object (steps : nat) (s : str) : scan (list (list N * json)) :=
  match steps with
  | O => OutOfSteps
  | S steps' =>
      match s with
      | q :: rest =>
          if Ascii.eqb q "034" then
            match scanstring rest with
            | None => Invalid
            | Some (key, after) =>
                match skip_ws after with
                | c :: after1 =>
                    if Ascii.eqb c ":" then
                      match scan_once steps' (skip_ws after1) with
                      | Scanned v after2 =>
                          match skip_ws after2 with
                          | c' :: after3 =>
                              if Ascii.eqb c' "}" then Scanned [(key, v)] after3
                              else if Ascii.eqb c' "," then
                                match parse_object steps' (skip_ws after3) with
                                | Scanned pairs after4 =>
                                    Scanned ((key, v) :: pairs) after4
                                | Invalid => Invalid
                                | OutOfSteps => OutOfSteps
                                end
                              else Invalid
                          | [] => Invalid
                          end
                      | Invalid => Invalid
                      | OutOfSteps => OutOfSteps
                      end
                    else Invalid
                | [] => Invalid
                end
            end
          else Invalid
      | [] => Invalid
      end
  end.

(** [json.loads(s)] on a [str]: one value between whitespace, or [None]
    for [JSONDecodeError].  The steps given are enough for every text;
    the limits of the interpreter on the depth of the nesting and on the
    digits of an integer are not part of the embedding. *)
Definition json_loads (s : str) : option json :=
  match scan_once (2 * length s + 1) (skip_ws s) with
  | Scanned v rest =>
      match skip_ws rest with
      | [] => Some v
      | _ => None
      end
  | _ => None
  end.

End PyJson.
Export PyJson.

(** ** Notions used to state the properties *)

(** The query in which every field that is there but false reads as
    null. *)
Definition drop_falsy (query : Query) : Query :=
  {| type := active truthy_str (type query);
     min_avg_hr := active truthy_num (min_avg_hr query);
     max_avg_hr := active truthy_num (max_avg_hr query);
     start_date := active truthy_str (start_date query);
     end_date := active truthy_str (end_date query);
     last_n_runs := active truthy_int (last_n_runs query);
     distance_km := active truthy_num (distance_km query);
     metric_filter := active truthy_str (metric_filter query);
     run_names := active truthy_list (run_names query) |}.

(** The stored name of a document, [meta.get("name", "")]. *)
Definition stored_name (doc : Document) : pyval :=
  get_or (metadata doc) "name" (PStr []).

(** A requested name is, case aside, a substring of the stored name. *)
Definition name_matches (names : list str) (doc : Document) : bool :=
  match stored_name doc with
  | PStr s => existsb (fun name => contains (lower name) (lower s)) names
  | _ => false
  end.

(** In the order of a reverse sort, [x] may stand before [y]: its key is
    not below the key of [y]. *)
Definition not_below {A K : Type} (lt : K -> K -> option bool) (key : A -> K)
    (x y : A) : Prop :=
  ltb lt key x y = false.

(** The query that sets [last_n_runs] and nothing else. *)
Definition last_n_only (n : Z) : Query :=
  {| type := None; min_avg_hr := None; max_avg_hr := None; start_date := None;
     end_date := None; last_n_runs := Some n; distance_km := None;
     metric_filter := None; run_names := None |}.

(** The stored date of the document is a string. *)
Definition has_date_string (doc : Document) : Prop :=
  exists s, date_of doc = PStr s.



(** The retrieval that comes first, by names or by the filter, returns no
    document. *)
Definition nothing_found (vs : VectorStore) (query : Query) : Prop :=
  match active truthy_list (run_names query) with
  | Some names => get_runs_by_names vs names
  | None => retrieve_runs vs query top_k_default
  end = Ok [].

(** The stored date of the document is a string in the format of the
    store. *)
Definition has_parsed_date (doc : Document) : Prop :=
  exists t, get_date_key doc = KDate t.

(** Number of documents a retrieval returned; 0 when it raised. *)
Definition returned_count (r : res (list Document)) : nat :=
  match r with
  | Ok docs => length docs
  | Raise _ => 0
  end.

(** The character [sep] does not occur in [s]. *)
Definition free_of (sep : ascii) (s : str) : bool :=
  forallb (fun c => negb (Ascii.eqb c sep)) s.

(** The only line boundary that occurs in [s] is the line feed. *)
Definition only_newlines (s : str) : bool :=
  forallb (fun c => negb (is_linebreak c) || Ascii.eqb c newline) s.

(** [s] neither begins nor ends with whitespace. *)
Definition no_edge_space (s : str) : bool :=
  match s with [] => true | c :: _ => negb (isspace c) end
  && match rev s with [] => true | c :: _ => negb (isspace c) end.

(** The parent-level fields of a row, gathered as a run header. *)
Definition parent_of (r : Row) : RunHeader :=
  {| h_date := date r; h_run_name := run_name r; h_distance := distance r;
     h_avg_pace := avg_pace r; h_avg_hr := avg_hr r;
     h_total_elevation := total_elevation r; h_run_type := run_type r |}.

(** What the empty [current_run] gives a row: empty strings and zeros. *)
Definition blank_run : RunHeader :=
  {| h_date := []; h_run_name := []; h_distance := 0%Q; h_avg_pace := 0%Q;
     h_avg_hr := 0%Q; h_total_elevation := 0%Q; h_run_type := [] |}.

(** The line, once stripped, starts with the per-KM marker. *)
Definition is_km_line (raw : str) : bool := startswith (py "KM") (strip raw).

(** The line is a per-KM line whose numbers convert: it gives a row. *)
Definition km_line_converts (raw : str) : bool :=
  is_km_line raw &&
  match parse_km None (strip raw) with Ok _ => true | Raise _ => false end.

(** The line, once stripped, opens with a date. *)
Definition opens_run (raw : str) : bool := is_header_line (strip raw).

(** The rows that per-KM lines give under a fixed [current_run]. *)
Fixpoint km_rows (current_run : option RunHeader) (lines : list str) : list Row :=
  match lines with
  | [] => []
  | raw :: rest =>
      if is_km_line raw then
        match parse_km current_run (strip raw) with
        | Ok row => row :: km_rows current_run rest
        | Raise _ => km_rows current_run rest
        end
      else km_rows current_run rest
  end.

(** A metadata text the summary line carries unharmed: no pipe, no line
    boundary, no whitespace at either end. *)
Definition no_linebreak (s : str) : bool :=
  forallb (fun c => negb (is_linebreak c)) s.

Definition plain_text (s : str) : bool :=
  free_of "|" s && no_linebreak s && no_edge_space s.

(** A number the summary line prints in a form the deserializer reads
    back: not negative, with digits before the point. *)
Definition plain_number (n : pynum) : bool :=
  negb (num_neg n) && truthy_str (num_int n) && forallb isdigit (num_int n)
  && match num_frac n with
     | Some f => forallb isdigit f
     | None => true
     end.

(** A stored number the summary line carries: a plain number, or no
    value at all (the key is absent or holds [None]), which the summary
    line prints as [None]. *)
Definition stored_number (v : pyval) : Prop :=
  v = PNone \/ exists n, v = PNum n /\ plain_number n = true.

(** A stored document whose rows the round trip gives back. *)
Record well_formed (doc : Document) : Prop := {
  wf_date : exists d, metadata doc !! "date" = Some (PStr d)
                      /\ is_header_line d = true /\ plain_text d = true;
  wf_name : exists s, metadata doc !! "name" = Some (PStr s) /\ plain_text s = true;
  wf_type : exists t, metadata doc !! "type" = Some (PStr t) /\ plain_text t = true
                      /\ t <> [] /\ contains (py "Type: ") t = false;
  wf_distance : stored_number (get (metadata doc) "distance");
  wf_pace : stored_number (get (metadata doc) "pace");
  wf_avg_hr : stored_number (get (metadata doc) "avg_hr");
  wf_elevation : stored_number (get (metadata doc) "elevation_gain");
  (** the text breaks its lines with line feeds only *)
  wf_text : only_newlines (page_content doc) = true;
  (** its first eight lines, the summary, hold no per-KM line *)
  wf_summary : Forall (fun raw => is_km_line raw = false)
                 (take 8 (split newline (page_content doc)));
  (** the lines after them open no run, and the per-KM lines among them
      have numbers that convert *)
  wf_breakdown : Forall (fun raw => opens_run raw = false
                                    /\ (is_km_line raw = true -> km_line_converts raw = true))
                   (drop 8 (split newline (page_content doc)))
}.

(** The number of per-KM lines of the stored text. *)
Definition split_count (doc : Document) : nat :=
  length (List.filter is_km_line (split newline (page_content doc))).

(** The stored value is a number, and [q] is its value. *)
Definition number_is (v : pyval) (q : Q) : Prop :=
  exists n, v = PNum n /\ num_value n = q.

(** The run-level fields of the row are those of the metadata, field for
    field. *)
Definition matches_metadata (meta : gmap string pyval) (r : Row) : Prop :=
  get meta "date" = PStr (date r) /\
  get meta "name" = PStr (run_name r) /\
  get meta "type" = PStr (run_type r) /\
  number_is (get meta "distance") (distance r) /\
  number_is (get meta "avg_hr") (avg_hr r) /\
  number_is (get meta "pace") (avg_pace r) /\
  number_is (get meta "elevation_gain") (total_elevation r).

(** What the round trip makes of a stored number: its value when it is
    there, and 0 when it is missing. *)
Definition read_back (v : pyval) (q : Q) : Prop :=
  (v = PNone /\ q = 0%Q) \/ number_is v q.

(** The run-level fields of the row are those the round trip gives for
    the metadata: the three texts, and each number or 0 in its place. *)
Definition carries_metadata (meta : gmap string pyval) (r : Row) : Prop :=
  get meta "date" = PStr (date r) /\
  get meta "name" = PStr (run_name r) /\
  get meta "type" = PStr (run_type r) /\
  read_back (get meta "distance") (distance r) /\
  read_back (get meta "avg_hr") (avg_hr r) /\
  read_back (get meta "pace") (avg_pace r) /\
  read_back (get meta "elevation_gain") (total_elevation r).

(** The four numbers of the summary line are stored. *)
Definition numbers_present (meta : gmap string pyval) : Prop :=
  Forall (fun k => exists n, meta !! k = Some (PNum n))
    ["distance"; "pace"; "avg_hr"; "elevation_gain"]%string.

(** The text of a summary line, from the texts of its seven fields. *)
Definition format_summary (d nm sd sp sh se t : str) : str :=
  d ++ py " | " ++ nm ++ py " | " ++ py "Distance: " ++ sd ++ py " km | "
  ++ py "Pace: " ++ sp ++ py " min/km | " ++ py "Avg HR: " ++ sh ++ py " bpm | "
  ++ py "Elevation: " ++ se ++ py " m | " ++ py "Type: " ++ t.

(** A text of the class [[\d.]+]. *)
Definition numeric_token (s : str) : bool := truthy_str s && forallb isnumch s.

(** The text the summary line prints for a stored number, and what the
    deserializer reads from the segment that holds it. *)
Definition number_text (s : str) : Prop :=
  numeric_token s = true \/ s = py "None".

Definition read_number (s : str) : res Q :=
  if numeric_token s then float_of_token s else Ok 0%Q.

(** The text and the value of a stored field. *)
Definition text_of (v : pyval) : str :=
  match v with PStr s => s | _ => [] end.

Definition value_of (v : pyval) : Q :=
  match v with PNum n => num_value n | _ => 0%Q end.

(** The run a summary line of the metadata stands for. *)
Definition run_of_metadata (meta : gmap string pyval) : RunHeader :=
  {| h_date := text_of (get meta "date");
     h_run_name := text_of (get meta "name");
     h_distance := value_of (get meta "distance");
     h_avg_pace := value_of (get meta "pace");
     h_avg_hr := value_of (get meta "avg_hr");
     h_total_elevation := value_of (get meta "elevation_gain");
     h_run_type := text_of (get meta "type") |}.

(** The lines of the stored text after the summary. *)
Definition breakdown (doc : Document) : list str :=
  drop 8 (split newline (page_content doc)).

(** The rows the breakdown of a document gives under its own summary. *)
Definition rows_of_doc (doc : Document) : list Row :=
  km_rows (Some (run_of_metadata (metadata doc))) (breakdown doc).

(** The date column of the frame of the documents: the date of each
    document, once for each of its per-KM lines. *)
Definition dates_of_docs (docs : list Document) : list str :=
  flat_map (fun doc => replicate (split_count doc) (text_of (get (metadata doc) "date")))
    docs.

(** The column of the returned frame: an empty frame keeps none. *)
Definition column_of {Timestamp : Type} (rows : list Row) (dates : list Timestamp)
    : list Timestamp :=
  match rows with [] => [] | _ => dates end.

(** The stored heart rate is a number, or is not stored at all. *)
Definition hr_number_or_absent (doc : Document) : Prop :=
  metadata doc !! "avg_hr" = None \/ exists n, metadata doc !! "avg_hr" = Some (PNum n).

(** The query that sets [distance_km] and nothing else. *)
Definition distance_only (m : pynum) : Query :=
  {| type := None; min_avg_hr := None; max_avg_hr := None; start_date := None;
     end_date := None; last_n_runs := None; distance_km := Some m;
     metric_filter := None; run_names := None |}.

(** A per-KM line in the form the deserializer documents:
    [KM 1: Pace 8.409 min/km, HR 142.024 bpm, Power 175.074 W, Elevation
    Gain 8.4 m], from the texts of its five numbers. *)
Definition km_line (k p h w e : str) : str :=
  py "KM " ++ k ++ py ": Pace " ++ p ++ py " min/km, HR " ++ h
  ++ py " bpm, Power " ++ w ++ py " W, Elevation Gain " ++ e ++ py " m".

(** The row a per-KM line gives under [current_run], from the values of
    the line. *)
Definition row_of (current_run : option RunHeader) (k : Z) (p h w e : Q) : Row :=
  {| date := run_get current_run h_date [];
     run_name := run_get current_run h_run_name [];
     run_type := run_get current_run h_run_type [];
     km := k; pace := p; hr := h; power := w; elevation_gain := e;
     distance := run_get current_run h_distance 0%Q;
     avg_hr := run_get current_run h_avg_hr 0%Q;
     avg_pace := run_get current_run h_avg_pace 0%Q;
     total_elevation := run_get current_run h_total_elevation 0%Q |}.

(** [s] ends in a character that is not whitespace. *)
Definition ends_visibly (s : str) : bool :=
  match rev s with [] => false | c :: _ => negb (isspace c) end.

(** The distance sample [d] lies in the kilometre [km], counted from 1. *)
Definition in_kilometre (km : nat) (d : Q) : Prop :=
  (inject_Z ((Z.of_nat km - 1) * 1000) <= d)%Q /\ (d < inject_Z (Z.of_nat km * 1000))%Q.

(** The names of the streams that are averaged per kilometre. *)
Definition averaged_streams : list string :=
  ["heartrate"; "cadence"; "watts"; "velocity_smooth"; "altitude"]%string.

(** The context the manager gives for a user, and the history in it. *)
Definition context_of (isoformat_now : nat -> str) (user : string)
    (s : ChatContext.Storage) : ChatContext.Context :=
  fst (ChatContext.get_user_context isoformat_now user s).

Definition history_of (isoformat_now : nat -> str) (user : string)
    (s : ChatContext.Storage) : list ChatContext.ChatEntry :=
  ChatContext.chat_history (context_of isoformat_now user s).

(** The line holds the refresh token. *)
Definition is_token_line (line : str) : bool := startswith token_key line.

(** ** Sample documents and queries *)

Module Samples.

(** A query that sets no field. *)
Definition no_filter : Query :=
  {| type := None; min_avg_hr := None; max_avg_hr := None; start_date := None;
     end_date := None; last_n_runs := None; distance_km := None;
     metric_filter := None; run_names := None |}.

(** A stored document of a manually entered run: no heart rate. *)
Definition manual_run : Document :=
  Doc (py "Run Name: Easy Run - 1")
      (<["name" := PStr (py "Easy Run - 1")]>
       (<["type" := PStr (py "Easy")]>
       (<["date" := PStr (py "2025-07-30 07:00:00")]>
       (<["distance" := PNum (pyfloat "5" "0")]> ∅)))).

Definition hr_at_most_150 : Query :=
  {| type := None; min_avg_hr := None; max_avg_hr := Some (pyint "150");
     start_date := None; end_date := None; last_n_runs := None;
     distance_km := None; metric_filter := None; run_names := None |}.



(** Every field holds a value that is not null and yet false. *)
Definition all_falsy : Query :=
  {| type := Some []; min_avg_hr := Some (pyint "0"); max_avg_hr := Some (pyfloat "0" "0");
     start_date := Some []; end_date := Some []; last_n_runs := Some 0%Z;
     distance_km := Some (pyint "0"); metric_filter := Some [];
     run_names := Some [] |}.

Definition tempo_run : Document :=
  Doc (py "Run Name: Tempo Run - 2")
      (<["name" := PStr (py "Tempo Run - 2")]>
       (<["type" := PStr (py "Tempo")]>
       (<["date" := PStr (py "2025-07-31 06:08:32")]>
       (<["distance" := PNum (pyfloat "7" "0")]>
       (<["avg_hr" := PNum (pyfloat "162" "78")]> ∅))))).

Definition two_runs : VectorStore :=
  {| stored := [manual_run; tempo_run]; nearest := [tempo_run; manual_run] |}.

Definition names_empty : Query :=
  {| type := None; min_avg_hr := None; max_avg_hr := None; start_date := None;
     end_date := None; last_n_runs := None; distance_km := None;
     metric_filter := None; run_names := Some [] |}.

Definition names_tempo_last_3 : Query :=
  {| type := None; min_avg_hr := None; max_avg_hr := None; start_date := None;
     end_date := None; last_n_runs := Some 3%Z; distance_km := None;
     metric_filter := None; run_names := Some [py "tempo run"] |}.

(** A document whose stored date lacks the time of day. *)
Definition undated_run : Document :=
  Doc (py "Run Name: Easy Run - 9")
      (<["name" := PStr (py "Easy Run - 9")]>
       (<["type" := PStr (py "Easy")]>
       (<["date" := PStr (py "2025-08-01")]> ∅))).

Definition mixed_dates : VectorStore :=
  {| stored := [tempo_run; undated_run]; nearest := [tempo_run; undated_run] |}.

Definition intervals_only : Query :=
  {| type := Some (py "Interval"); min_avg_hr := None; max_avg_hr := None;
     start_date := None; end_date := None; last_n_runs := None;
     distance_km := None; metric_filter := None; run_names := None |}.

Definition two_digits (d : nat) : str :=
  [ascii_of_nat (48 + d / 10); ascii_of_nat (48 + d mod 10)].

(** A run on the given day of July 2025. *)
Definition run_on_day (d : nat) : Document :=
  Doc [] (<["date" := PStr (py "2025-07-" ++ two_digits d ++ py " 06:00:00")]> ∅).

(** Twenty-one stored runs, one a day. *)
Definition twenty_one_runs : VectorStore :=
  {| stored := map run_on_day (seq 1 21); nearest := map run_on_day (seq 1 21) |}.

(** Streams of an activity recorded while standing still for the first
    kilometre of the distance stream: every velocity sample is zero. *)
Definition standstill_streams : gmap string (list (option Q)) :=
  <["distance" := [Some 0%Q; Some 500%Q; Some 1000%Q]]>
  (<["velocity_smooth" := [Some 0%Q; Some 0%Q; Some 0%Q]]> ∅).

(** A reply of the model that is fenced and is no JSON. *)
Definition fenced_reply : str :=
  py "```json" ++ [newline] ++ py "I could not find any filter" ++ [newline] ++ py "```".

Definition one_reply : Model :=
  {| replies := [fenced_reply]; prompts := [] |}.

(** What [interpret_query] makes of a question when the model gives
    [reply]. *)
Definition reply_outcome (reply : str) : outcome json :=
  fst (interpret_query json json_loads (fun t => t) (py "how was my last run?")
         {| replies := [reply]; prompts := [] |}).

(** A context in which a per-KM line comes before the first summary
    line. *)
Definition orphan_context : str :=
  py "KM 3: Pace 8.5 min/km, HR 150 bpm" ++ [newline]
  ++ py "2025-07-31 06:08:32 | Tempo Run - 2 | Distance: 7.0 km | Pace: 9.24 min/km | Avg HR: 162.78 bpm | Elevation: 15.6 m | Type: Tempo"
  ++ [newline] ++ py "KM 1: Pace 8.725 min/km, HR 146.248 bpm, Power 170 W, Elevation Gain 2.2 m".

Definition orphan_row : Row :=
  {| date := []; run_name := []; run_type := []; km := 3; pace := 17 # 2; hr := 150;
     power := 0; elevation_gain := 0; distance := 0; avg_hr := 0; avg_pace := 0;
     total_elevation := 0 |}.

Definition owned_row : Row :=
  {| date := py "2025-07-31 06:08:32"; run_name := py "Tempo Run - 2";
     run_type := py "Tempo"; km := 1; pace := 349 # 40; hr := 18281 # 125;
     power := 170; elevation_gain := 11 # 5; distance := 7; avg_hr := 8139 # 50;
     avg_pace := 231 # 25; total_elevation := 78 # 5 |}.

(** A manually entered run as it is stored: no heart rate, and a text of
    six summary lines, an empty line and the title of the breakdown in
    front of its only per-KM line. *)
Definition morning_run : Document :=
  Doc (py "Run Name: Morning Run" ++ [newline]
       ++ py "Timestamp: 2025-07-30 07:00:00" ++ [newline]
       ++ py "Distance: 5.0 kms" ++ [newline]
       ++ py "Run Type: Morning" ++ [newline]
       ++ py "Average Pace: 6.0 min/km" ++ [newline]
       ++ py "Elevation Gain: 0.0 m" ++ [newline]
       ++ [newline]
       ++ py "Per-KM Breakdown:" ++ [newline]
       ++ py "KM 1: Pace 6.0 min/km, Elevation Gain 0.0 m")
      (<["name" := PStr (py "Morning Run")]>
       (<["type" := PStr (py "Morning")]>
       (<["date" := PStr (py "2025-07-30 07:00:00")]>
       (<["distance" := PNum (pyfloat "5" "0")]>
       (<["pace" := PNum (pyfloat "6" "0")]>
       (<["elevation_gain" := PNum (pyfloat "0" "0")]> ∅)))))).

(** A run with streams, stored with the text of the summary prompt. *)
Definition tempo_run_2 : Document :=
  Doc (py "Run Name: Tempo Run - 2" ++ [newline]
       ++ py "Timestamp: 2025-07-31 06:08:32" ++ [newline]
       ++ py "Distance: 7.0 kms" ++ [newline]
       ++ py "Run Type: Tempo" ++ [newline]
       ++ py "Average Heart Rate: 162.78 bpm" ++ [newline]
       ++ py "Average Pace: 9.24 min/km" ++ [newline]
       ++ py "Average Power: 163.15 W" ++ [newline]
       ++ py "Elevation Gain: 15.6 m" ++ [newline]
       ++ [newline]
       ++ py "Per-KM Breakdown:" ++ [newline]
       ++ py "KM 1: Pace 8.725 min/km, HR 146.248 bpm, Power 170 W, Elevation Gain 2.2 m"
       ++ [newline]
       ++ py "KM 2: Pace 7.909 min/km, HR 166.694 bpm, Power 165 W, Elevation Gain 2.6 m")
      (<["name" := PStr (py "Tempo Run - 2")]>
       (<["type" := PStr (py "Tempo")]>
       (<["date" := PStr (py "2025-07-31 06:08:32")]>
       (<["distance" := PNum (pyfloat "7" "0")]>
       (<["pace" := PNum (pyfloat "9" "24")]>
       (<["avg_hr" := PNum (pyfloat "162" "78")]>
       (<["elevation_gain" := PNum (pyfloat "15" "6")]> ∅))))))).

(** A run stored with a text that has no breakdown. *)
Definition easy_run_5 : Document :=
  Doc (py "Run Name: Easy Run - 5")
      (<["name" := PStr (py "Easy Run - 5")]>
       (<["type" := PStr (py "Easy")]>
       (<["date" := PStr (py "2025-08-02 06:30:00")]>
       (<["distance" := PNum (pyint "5")]>
       (<["pace" := PNum (pyfloat "10" "5")]>
       (<["avg_hr" := PNum (pyint "140")]>
       (<["elevation_gain" := PNum (pyfloat "3" "0")]> ∅))))))).

Definition hr_between_170_and_150 : Query :=
  {| type := None; min_avg_hr := Some (pyint "170"); max_avg_hr := Some (pyint "150");
     start_date := None; end_date := None; last_n_runs := None;
     distance_km := None; metric_filter := None; run_names := None |}.

Definition tempo_only : Query :=
  {| type := Some (py "Tempo"); min_avg_hr := None; max_avg_hr := None;
     start_date := None; end_date := None; last_n_runs := None;
     distance_km := None; metric_filter := None; run_names := None |}.

(** A stored run without the [distance] key. *)
Definition run_without_distance : Document :=
  Doc (py "Run Name: Trail Run - 1")
      (<["name" := PStr (py "Trail Run - 1")]>
       (<["type" := PStr (py "Trail")]>
       (<["date" := PStr (py "2025-08-03 06:00:00")]> ∅))).

Definition store_with_gap : VectorStore :=
  {| stored := [tempo_run; run_without_distance];
     nearest := [tempo_run; run_without_distance] |}.

(** A context whose summary line has a distance with two points. *)
Definition garbled_context : str :=
  py "2025-07-31 06:08:32 | Tempo Run - 2 | Distance: 7.0.1 km | Pace: 9.24 min/km | Avg HR: 162.78 bpm | Elevation: 15.6 m | Type: Tempo".

(** Streams with no sample between 1000 m and 2000 m, and streams whose
    heart-rate stream is one sample short of the distance stream. *)
Definition gapped_streams : gmap string (list (option Q)) :=
  <["distance" := [Some 0%Q; Some 500%Q; Some 900%Q; Some 2100%Q; Some 2800%Q; Some 3400%Q]]> ∅.

Definition short_heartrate_streams : gmap string (list (option Q)) :=
  <["distance" := [Some 0%Q; Some 500%Q; Some 1100%Q]]>
  (<["heartrate" := [Some 140%Q; Some 150%Q]]> ∅).

(** A clock that always reads the same time, and a storage that holds
    two messages and the height of one user. *)
Definition midnight (reading : nat) : str := py "2024-07-01T00:00:00".

Definition asked_pace : ChatContext.ChatEntry :=
  {| ChatContext.timestamp := py "2024-06-30T18:00:00";
     ChatContext.message := py "how was my pace?";
     ChatContext.response := py "steady";
     ChatContext.is_user := true |}.

Definition asked_heart_rate : ChatContext.ChatEntry :=
  {| ChatContext.timestamp := py "2024-06-30T18:05:00";
     ChatContext.message := py "and my heart rate?";
     ChatContext.response := py "a little high";
     ChatContext.is_user := true |}.

Definition runner_context : ChatContext.Context :=
  {| ChatContext.user_id := "42";
     ChatContext.preferences := ∅;
     ChatContext.chat_history := [asked_pace; asked_heart_rate];
     ChatContext.personal_info := <["height" := py "175cm"]> ∅;
     ChatContext.last_updated := py "2024-06-30T18:05:00" |}.

Definition one_runner : ChatContext.Storage :=
  {| ChatContext.files := <["42" := runner_context]> ∅; ChatContext.clock := 0 |}.

(** A stand-in for [pd.to_datetime] on columns written in the format of
    the store: the empty text gives no time ([None], for NaT), a text
    that [strptime] reads gives its instant, and any other text makes the
    conversion of the column fail. *)
Fixpoint stored_format_to_datetime (column : list str) : res (list (option datetime)) :=
  match column with
  | [] => Ok []
  | [] :: rest => dates ← stored_format_to_datetime rest; Ok (None :: dates)
  | text :: rest =>
      match strptime text with
      | Some t => dates ← stored_format_to_datetime rest; Ok (Some t :: dates)
      | None => Raise (ValueError (py "time data does not match the format"))
      end
  end.

End Samples.
Export Samples.

(** * Properties *)

(** ** The embedding on sample inputs *)

Example splitlines_crlf :
  splitlines (py "a" ++ ["013"; "010"]%char ++ py "b" ++ [newline] ++ [newline])
  = [py "a"; py "b"; []].
Proof. reflexivity. Qed.

Example split_keeps_empty_parts :
  split "|" (py "a|b||c") = [py "a"; py "b"; []; py "c"].
Proof. reflexivity. Qed.

Example strptime_stored_format :
  strptime (py "2025-07-31 06:08:32") = Some (DateTime 2025 7 31 6 8 32).
Proof. reflexivity. Qed.

Example strptime_short_fields :
  strptime (py "2025-7-3 6:8:2") = Some (DateTime 2025 7 3 6 8 2).
Proof. reflexivity. Qed.

Example strptime_rejects :
  strptime (py "2025-08-01") = None /\
  strptime (py "2025-02-29 06:08:32") = None /\
  strptime (py "2024-02-29 06:08:60") = None /\
  strptime (py "2024-12-31 24:00:00") = None.
Proof. repeat split. Qed.

Example float_of_token_samples :
  float_of_token (py "12.50") = Ok (25 # 2) /\
  float_of_token (py "7.") = Ok 7%Q /\
  float_of_token (py "1.2.3") = Raise (not_a_float (py "1.2.3")) /\
  float_of_token (py ".") = Raise (not_a_float (py ".")).
Proof. repeat split. Qed.

Example clean_response_fenced :
  clean_response (py "```json" ++ [newline] ++ py "{}" ++ [newline] ++ py "```")
  = py "{}".
Proof. reflexivity. Qed.

Example summary_line_of_manual_run :
  summary_line (metadata manual_run)
  = newline :: py "2025-07-30 07:00:00 | Easy Run - 1 | Distance: 5.0 km | Pace: None min/km | Avg HR: None bpm | Elevation: None m | Type: Easy".
Proof. reflexivity. Qed.

Lemma res_bind_ok {A B : Type} (a : A) (k : A -> res B) : Ok a ≫= k = k a.
Proof. reflexivity. Qed.

Lemma res_bind_raise {A B : Type} (e : exn) (k : A -> res B) :
  @Raise A e ≫= k = Raise e.
Proof. reflexivity. Qed.

(** ** The post-filter of [retrieve_runs] *)


Lemma active_true {A : Type} (truthy : A -> bool) (v : A) :
  truthy v = true -> active truthy (Some v) = Some v.
Proof. intros H. simpl. rewrite H. reflexivity. Qed.

Lemma active_false {A : Type} (truthy : A -> bool) (v : A) :
  truthy v = false -> active truthy (Some v) = None.
Proof. intros H. simpl. rewrite H. reflexivity. Qed.

Lemma active_idem {A : Type} (truthy : A -> bool) (o : option A) :
  active truthy (active truthy o) = active truthy o.
Proof.
  destruct o as [v|]; simpl; [|reflexivity].
  destruct (truthy v) eqn:E; simpl; [rewrite E|]; reflexivity.
Qed.

(** C4, as stated, fails: a document without [avg_hr] is compared as 9999
    against the upper bound, so the bound 150 skips it and the retrieval
    over a store holding only that document returns nothing. *)
Lemma missing_hr_skipped_by_upper_bound :
  metadata manual_run !! "avg_hr" = None /\
  skip_max_avg_hr hr_at_most_150 (metadata manual_run) = Ok true /\
  retrieve_runs {| stored := [manual_run]; nearest := [manual_run] |}
    hr_at_most_150 top_k_default = Ok [].
Proof. vm_compute. repeat split. Qed.

(** C4, amended: a document without [avg_hr] is compared as 0 against
    [min_avg_hr] and as 9999 against [max_avg_hr]; a bound that is set
    (and not zero) skips it exactly when the lower bound is above 0,
    respectively the upper bound below 9999. *)
Theorem missing_hr_compared_by_defaults (query : Query) (meta : gmap string pyval) :
  meta !! "avg_hr" = None ->
  (forall m, min_avg_hr query = Some m ->
     skip_min_avg_hr query meta = Ok (truthy_num m && Qltb 0 (num_value m))) /\
  (forall m, max_avg_hr query = Some m ->
     skip_max_avg_hr query meta = Ok (truthy_num m && Qltb (num_value m) 9999)).
Proof.
  intros Habs. split; intros m Hm.
  - unfold skip_min_avg_hr, get_or. rewrite Hm, Habs. simpl.
    destruct (truthy_num m); reflexivity.
  - unfold skip_max_avg_hr, get_or. rewrite Hm, Habs. simpl.
    destruct (truthy_num m); reflexivity.
Qed.

Lemma missing_hr_compared_by_defaults_witness :
  skip_min_avg_hr hr_at_most_150 (metadata manual_run) = Ok false /\
  skip_max_avg_hr hr_at_most_150 (metadata manual_run) = Ok true.
Proof.
  destruct (missing_hr_compared_by_defaults hr_at_most_150 (metadata manual_run))
    as [_ Hmax]; [reflexivity|].
  split; [reflexivity|].
  rewrite (Hmax (pyint "150")); reflexivity.
Defined.






(** ** Fields that are false read as null *)

Lemma skipped_drop_falsy (query : Query) (meta : gmap string pyval) :
  skipped (drop_falsy query) meta = skipped query meta.
Proof.
  unfold skipped, skip_type, skip_min_avg_hr, skip_max_avg_hr, skip_distance_km,
    skip_start_date, skip_end_date, skip_run_names, drop_falsy; simpl.
  rewrite !active_idem. reflexivity.
Qed.

Lemma post_filter_drop_falsy (query : Query) (docs : list Document) :
  post_filter (drop_falsy query) docs = post_filter query docs.
Proof.
  induction docs as [|doc docs IH]; simpl; [reflexivity|].
  rewrite skipped_drop_falsy, IH. reflexivity.
Qed.

Lemma retrieve_runs_drop_falsy (vs : VectorStore) (query : Query) (top_k : nat) :
  retrieve_runs vs (drop_falsy query) top_k = retrieve_runs vs query top_k.
Proof.
  unfold retrieve_runs. destruct (stored vs); [reflexivity|].
  rewrite post_filter_drop_falsy. unfold drop_falsy at 1 2; simpl.
  rewrite !active_idem. reflexivity.
Qed.

Lemma retrieved_docs_drop_falsy (vs : VectorStore) (query : Query) :
  retrieved_docs vs (drop_falsy query) = retrieved_docs vs query.
Proof.
  unfold retrieved_docs. rewrite retrieve_runs_drop_falsy.
  unfold drop_falsy at 1; simpl. rewrite active_idem. reflexivity.
Qed.

(** C10: two queries that differ only in fields that are false in one
    (0, 0.0, the empty string, the empty list) and null in the other are
    answered alike, by [retrieve_runs] and by the whole retrieval block:
    no constraint is applied for such a field, [last_n_runs = 0] neither
    sorts nor truncates, and an empty [run_names] takes the general
    path. *)
Theorem falsy_fields_read_as_null (vs : VectorStore) (q1 q2 : Query) (top_k : nat) :
  drop_falsy q1 = drop_falsy q2 ->
  retrieve_runs vs q1 top_k = retrieve_runs vs q2 top_k /\
  retrieved_docs vs q1 = retrieved_docs vs q2.
Proof.
  intros H. split.
  - rewrite <- (retrieve_runs_drop_falsy vs q1), <- (retrieve_runs_drop_falsy vs q2), H.
    reflexivity.
  - rewrite <- (retrieved_docs_drop_falsy vs q1), <- (retrieved_docs_drop_falsy vs q2), H.
    reflexivity.
Qed.

Lemma falsy_fields_read_as_null_witness :
  retrieve_runs two_runs all_falsy top_k_default
    = retrieve_runs two_runs no_filter top_k_default /\
  retrieved_docs two_runs all_falsy = retrieved_docs two_runs no_filter.
Proof.
  apply (falsy_fields_read_as_null two_runs all_falsy no_filter top_k_default).
  reflexivity.
Defined.

(** ** Lookup by name *)

Lemma any_name_in_str (names : list str) (s : str) :
  any_name_in names (PStr s)
  = Ok (existsb (fun name => contains (lower name) (lower s)) names).
Proof.
  induction names as [|name names IH]; simpl; [reflexivity|].
  destruct (contains (lower name) (lower s)); simpl; [reflexivity | exact IH].
Qed.

Lemma matching_docs_filter (names : list str) (docs : list Document) :
  Forall (fun d => exists s, stored_name d = PStr s) docs ->
  matching_docs names docs = Ok (List.filter (name_matches names) docs).
Proof.
  induction 1 as [|doc docs [s Hs] _ IH]; simpl; [reflexivity|].
  unfold name_matches at 1. unfold stored_name in Hs. unfold stored_name.
  rewrite Hs, any_name_in_str, IH. simpl.
  destruct (existsb _ names); reflexivity.
Qed.

(** C2, as stated, fails: an empty [run_names] list is not null, no stored
    name contains one of its (zero) names, and yet the retrieval takes
    the general path and returns the stored documents. *)
Lemma empty_run_names_take_general_path :
  run_names names_empty = Some [] /\
  List.filter (name_matches []) (stored two_runs) = [] /\
  retrieved_docs two_runs names_empty = Ok [tempo_run; manual_run].
Proof. vm_compute. repeat split. Qed.

(** C2, amended: when [run_names] is a list that is not empty and the
    stored names are strings, the name lookup selects, in the order of the
    store, exactly the documents whose stored name contains a requested
    name as a substring, case aside; the retrieval returns that selection
    when it is not empty and the latest five runs otherwise, whatever the
    other fields of the query hold, and the empty list when the store is
    empty. *)
Theorem name_lookup_selects_substring_matches
    (vs : VectorStore) (query : Query) (names : list str) :
  run_names query = Some names ->
  names <> [] ->
  Forall (fun d => exists s, stored_name d = PStr s) (stored vs) ->
  get_runs_by_names vs names = Ok (List.filter (name_matches names) (stored vs)) /\
  retrieved_docs vs query
  = match List.filter (name_matches names) (stored vs) with
    | [] => get_latest_runs vs 5
    | found => Ok found
    end /\
  (stored vs = [] -> retrieved_docs vs query = Ok []).
Proof.
  intros Hq Hne Hnames.
  assert (Hget : get_runs_by_names vs names
                 = Ok (List.filter (name_matches names) (stored vs))).
  { unfold get_runs_by_names. rewrite <- (matching_docs_filter names _ Hnames).
    destruct (stored vs); reflexivity. }
  assert (Hall : retrieved_docs vs query
                 = match List.filter (name_matches names) (stored vs) with
                   | [] => get_latest_runs vs 5
                   | found => Ok found
                   end).
  { unfold retrieved_docs. rewrite Hq.
    destruct names as [|n names']; [congruence|].
    change (active truthy_list (Some (n :: names'))) with (Some (n :: names')).
    cbv beta iota. rewrite Hget, res_bind_ok.
    destruct (List.filter _ (stored vs)); reflexivity. }
  repeat split; [exact Hget | exact Hall |].
  intros Hempty. rewrite Hall, Hempty. simpl.
  unfold get_latest_runs. rewrite Hempty. reflexivity.
Qed.

Lemma name_lookup_selects_substring_matches_witness :
  get_runs_by_names two_runs [py "tempo run"] = Ok [tempo_run] /\
  retrieved_docs two_runs names_tempo_last_3 = Ok [tempo_run].
Proof.
  destruct (name_lookup_selects_substring_matches two_runs names_tempo_last_3
              [py "tempo run"]) as (Hget & Hall & _).
  - reflexivity.
  - discriminate.
  - repeat constructor; eexists; reflexivity.
  - split; [rewrite Hget | rewrite Hall]; reflexivity.
Defined.

(** ** The reverse sort *)

Section SortFacts.
Context {A K : Type}.
Variable lt : K -> K -> option bool.
Variable key : A -> K.

(** The elements whose keys the order relates properly. *)
Variable ordered : A -> Prop.
Hypothesis comparable :
  forall x y, ordered x -> ordered y -> is_Some (lt (key x) (key y)).
Hypothesis asym :
  forall x y, ordered x -> ordered y -> ltb lt key x y = true -> ltb lt key y x = false.
Hypothesis trans :
  forall x y z, ordered x -> ordered y -> ordered z ->
    not_below lt key x y -> not_below lt key y z -> not_below lt key x z.

Lemma insert_desc_perm (x : A) (l : list A) :
  Permutation (insert_desc lt key x l) (x :: l).
Proof.
  induction l as [|y l IH]; simpl; [reflexivity|].
  destruct (ltb lt key x y).
  - rewrite IH. apply perm_swap.
  - reflexivity.
Qed.

Lemma sort_desc_perm (l : list A) : Permutation (sort_desc lt key l) l.
Proof.
  induction l as [|x l IH]; simpl; [reflexivity|].
  rewrite insert_desc_perm. apply perm_skip, IH.
Qed.

Lemma sort_desc_length (l : list A) : length (sort_desc lt key l) = length l.
Proof. apply Permutation_length, sort_desc_perm. Qed.

Lemma sort_desc_ordered (l : list A) :
  Forall ordered l -> Forall ordered (sort_desc lt key l).
Proof.
  intros H. eapply Permutation_Forall; [|exact H].
  symmetry. apply sort_desc_perm.
Qed.

Lemma insert_desc_sorted (x : A) (l : list A) :
  ordered x -> Forall ordered l ->
  StronglySorted (not_below lt key) l -> StronglySorted (not_below lt key) (insert_desc lt key x l).
Proof.
  intros Hx Hl Hs. induction Hs as [|y l Hs IH Hy]; simpl.
  - repeat constructor.
  - inversion Hl as [|? ? Hoy Hol]; subst.
    destruct (ltb lt key x y) eqn:E.
    + constructor; [apply IH, Hol|].
      eapply Permutation_Forall; [symmetry; apply insert_desc_perm|].
      constructor; [apply asym; assumption | exact Hy].
    + constructor; [constructor; assumption|].
      constructor; [exact E|].
      rewrite Forall_forall in Hy, Hol. apply Forall_forall. intros z Hz.
      apply (trans x y z); auto.
Qed.

Lemma sort_desc_sorted (l : list A) :
  Forall ordered l -> StronglySorted (not_below lt key) (sort_desc lt key l).
Proof.
  induction 1 as [|x l Hx Hl IH]; simpl; [constructor|].
  apply insert_desc_sorted; auto using sort_desc_ordered.
Qed.

Lemma all_comparable_ordered (l : list A) :
  Forall ordered l -> all_comparable lt key l = true.
Proof.
  induction 1 as [|x l Hx Hl IH]; simpl; [reflexivity|].
  rewrite IH, andb_true_r. apply forallb_forall. intros y Hy.
  apply bool_decide_eq_true. apply comparable; [exact Hx|].
  rewrite List.Forall_forall in Hl. apply Hl. exact Hy.
Qed.

(** No comparison fails on a list of properly ordered keys. *)
Lemma sort_reverse_ordered (l : list A) :
  Forall ordered l -> sort_reverse lt key l = Ok (sort_desc lt key l).
Proof.
  intros H. unfold sort_reverse.
  destruct l as [|x [|y l]]; [reflexivity | reflexivity |].
  rewrite all_comparable_ordered by exact H. reflexivity.
Qed.

(** In a sorted list, the elements after the first [n] do not exceed any
    of the first [n]. *)
Lemma sorted_take_dominates (n : nat) (l : list A) :
  StronglySorted (not_below lt key) l ->
  forall x y, In x (take n l) -> In y (drop n l) -> not_below lt key x y.
Proof.
  intros Hs. revert n. induction Hs as [|z l Hs IH Hz]; intros n x y Hx Hy.
  - destruct n; simpl in Hx; contradiction.
  - destruct n as [|n]; simpl in Hx, Hy; [contradiction|].
    destruct Hx as [<-|Hx].
    + rewrite List.Forall_forall in Hz. apply Hz.
      rewrite <- (take_drop n l). apply in_or_app. right. exact Hy.
    + apply (IH n); assumption.
Qed.

End SortFacts.

(** ** The order of date strings and of parsed dates *)

Lemma str_ltb_asym (a b : str) : str_ltb a b = true -> str_ltb b a = false.
Proof.
  revert b. induction a as [|x a IH]; intros [|y b]; simpl; try congruence.
  destruct (N.ltb_spec (code x) (code y)), (N.ltb_spec (code y) (code x));
    try lia; try congruence.
  apply IH.
Qed.

Lemma str_not_below_trans (a b c : str) :
  str_ltb a b = false -> str_ltb b c = false -> str_ltb a c = false.
Proof.
  revert b c. induction a as [|x a IH]; intros [|y b] [|z c]; simpl;
    try congruence.
  destruct (N.ltb_spec (code x) (code y)), (N.ltb_spec (code y) (code x)),
    (N.ltb_spec (code y) (code z)), (N.ltb_spec (code z) (code y)),
    (N.ltb_spec (code x) (code z)), (N.ltb_spec (code z) (code x));
    try lia; try congruence.
  apply IH.
Qed.

Lemma date_strings_comparable (x y : Document) :
  has_date_string x -> has_date_string y ->
  is_Some (lt_pyval (date_of x) (date_of y)).
Proof. intros [s Hs] [t Ht]. rewrite Hs, Ht. simpl. eauto. Qed.

Lemma date_strings_asym (x y : Document) :
  has_date_string x -> has_date_string y ->
  ltb lt_pyval date_of x y = true -> ltb lt_pyval date_of y x = false.
Proof.
  intros [s Hs] [t Ht]. unfold ltb. rewrite Hs, Ht. simpl. apply str_ltb_asym.
Qed.

Lemma date_strings_trans (x y z : Document) :
  has_date_string x -> has_date_string y -> has_date_string z ->
  not_below lt_pyval date_of x y -> not_below lt_pyval date_of y z ->
  not_below lt_pyval date_of x z.
Proof.
  intros [s Hs] [t Ht] [u Hu]. unfold not_below, ltb. rewrite Hs, Ht, Hu. simpl.
  apply str_not_below_trans.
Qed.

Lemma parsed_dates_comparable (x y : Document) :
  has_parsed_date x -> has_parsed_date y ->
  is_Some (lt_date_key (get_date_key x) (get_date_key y)).
Proof. intros [s Hs] [t Ht]. rewrite Hs, Ht. simpl. eauto. Qed.

Lemma parsed_dates_asym (x y : Document) :
  has_parsed_date x -> has_parsed_date y ->
  ltb lt_date_key get_date_key x y = true -> ltb lt_date_key get_date_key y x = false.
Proof.
  intros [s Hs] [t Ht]. unfold ltb. rewrite Hs, Ht. simpl.
  intros H. apply N.ltb_lt in H. apply N.ltb_ge. lia.
Qed.

Lemma parsed_dates_trans (x y z : Document) :
  has_parsed_date x -> has_parsed_date y -> has_parsed_date z ->
  not_below lt_date_key get_date_key x y -> not_below lt_date_key get_date_key y z ->
  not_below lt_date_key get_date_key x z.
Proof.
  intros [s Hs] [t Ht] [u Hu]. unfold not_below, ltb. rewrite Hs, Ht, Hu. simpl.
  rewrite !N.ltb_ge. lia.
Qed.

(** ** The fallback to the latest runs *)

(** Outside the stores the program writes, the sort of the fallback can
    fail: here one stored date is in the format of the store and the
    other lacks the time of day.  No document has the requested type, the
    fallback sorts a parsed date against a raw string and the retrieval
    raises [TypeError], with two documents in the store. *)
Lemma latest_runs_raise_on_mixed_dates :
  length (stored mixed_dates) = 2 /\
  retrieve_runs mixed_dates intervals_only top_k_default = Ok [] /\
  get_latest_runs mixed_dates 5 = Raise TypeError /\
  retrieved_docs mixed_dates intervals_only = Raise TypeError.
Proof. vm_compute. repeat split. Qed.

(** X6: when every stored date is in the format of the store, the fallback
    does not fail: it returns the first five documents of the store sorted
    by parsed date, latest first, and the retrieval returns them whenever
    the tier before it found nothing. *)
Lemma latest_runs_of_parsed_dates (vs : VectorStore) :
  Forall has_parsed_date (stored vs) ->
  let sorted := sort_desc lt_date_key get_date_key (stored vs) in
  get_latest_runs vs 5 = Ok (take 5 sorted) /\
  Permutation sorted (stored vs) /\
  StronglySorted (not_below lt_date_key get_date_key) sorted /\
  length (take 5 sorted) = Nat.min 5 (length (stored vs)) /\
  (forall query, retrieve_runs vs query top_k_default = Ok [] ->
     active truthy_list (run_names query) = None ->
     retrieved_docs vs query = Ok (take 5 sorted)).
Proof.
  intros Hall sorted.
  assert (Hget : get_latest_runs vs 5 = Ok (take 5 sorted)).
  { unfold get_latest_runs. subst sorted.
    destruct (stored vs) as [|d l]; [reflexivity|].
    rewrite (sort_reverse_ordered lt_date_key get_date_key has_parsed_date
               parsed_dates_comparable (d :: l) Hall).
    reflexivity. }
  repeat split.
  - exact Hget.
  - apply sort_desc_perm.
  - apply (sort_desc_sorted lt_date_key get_date_key has_parsed_date
             parsed_dates_asym parsed_dates_trans). exact Hall.
  - rewrite length_take. subst sorted. rewrite sort_desc_length. reflexivity.
  - intros query Hnone Hnames. unfold retrieved_docs.
    rewrite Hnames, Hnone. exact Hget.
Qed.

(** ** Selection of the last N runs *)

Lemma post_filter_last_n_only (n : Z) (docs : list Document) :
  post_filter (last_n_only n) docs = Ok docs.
Proof.
  induction docs as [|doc docs IH]; simpl; [reflexivity|].
  rewrite IH. reflexivity.
Qed.

Lemma take_take_min {A : Type} (m n : nat) (l : list A) :
  take m (take n l) = take (Nat.min n m) l.
Proof. rewrite take_take. f_equal. lia. Qed.

(** C5, as stated, fails: with twenty-one stored runs and
    [last_n_runs = 21] the retrieval returns twenty documents, the result
    cap, not the twenty-one asked for. *)
Lemma last_n_capped_at_top_k :
  length (stored twenty_one_runs) = 21 /\
  returned_count (retrieve_runs twenty_one_runs (last_n_only 21) top_k_default) = 20 /\
  returned_count (retrieved_docs twenty_one_runs (last_n_only 21)) = 20.
Proof. vm_compute. repeat split. Qed.

(** C5, amended: for a query that sets only [last_n_runs = N] with N
    positive, over stored dates that are strings, the retrieval sorts the
    candidate pool (the sixty nearest documents at most) by date, latest
    first, and returns the first min(N, 20) of it; no document left in
    the pool has a later date than a returned one.  When the store holds
    at most sixty documents the pool is the whole store. *)
Theorem last_n_takes_latest_of_pool (vs : VectorStore) (n : Z) :
  (0 < n)%Z ->
  stored vs <> [] ->
  Forall has_date_string (nearest vs) ->
  let pool := take 60 (nearest vs) in
  let sorted := sort_desc lt_pyval date_of pool in
  let returned := take (Nat.min (Z.to_nat n) 20) sorted in
  retrieve_runs vs (last_n_only n) top_k_default = Ok returned /\
  Permutation sorted pool /\
  StronglySorted (not_below lt_pyval date_of) returned /\
  length returned = Nat.min (Nat.min (Z.to_nat n) 20) (length pool) /\
  (forall x y, In x returned -> In y (drop (Nat.min (Z.to_nat n) 20) sorted) ->
     not_below lt_pyval date_of x y) /\
  (length (nearest vs) <= 60 -> Permutation (nearest vs) (stored vs) ->
     Permutation sorted (stored vs)).
Proof.
  intros Hn Hstore Hdates pool sorted returned.
  assert (Hpool : Forall has_date_string pool).
  { subst pool. apply Forall_take. exact Hdates. }
  assert (Hsorted : StronglySorted (not_below lt_pyval date_of) sorted).
  { apply (sort_desc_sorted lt_pyval date_of has_date_string
             date_strings_asym date_strings_trans). exact Hpool. }
  repeat split.
  - unfold retrieve_runs. destruct (stored vs) as [|d0 l0]; [congruence|].
    change (active truthy_str (type (last_n_only n))) with (@None str).
    change (similarity_search vs None (top_k_default * 3)) with pool.
    rewrite post_filter_last_n_only, res_bind_ok.
    change (last_n_runs (last_n_only n)) with (Some n).
    rewrite active_true by (unfold truthy_int; apply negb_true_iff, Z.eqb_neq; lia).
    rewrite (sort_reverse_ordered lt_pyval date_of has_date_string
               date_strings_comparable pool Hpool).
    rewrite !res_bind_ok. unfold slice_to.
    replace (0 <=? n)%Z with true by (symmetry; apply Z.leb_le; lia).
    unfold top_k_default. rewrite take_take_min. reflexivity.
  - apply sort_desc_perm.
  - subst returned. rewrite <- (take_drop (Nat.min (Z.to_nat n) 20) sorted) in Hsorted.
    clear -Hsorted. revert Hsorted.
    generalize (take (Nat.min (Z.to_nat n) 20) sorted) as l1.
    generalize (drop (Nat.min (Z.to_nat n) 20) sorted) as l2.
    intros l2 l1. induction l1 as [|x l1 IH]; simpl; intros H; [constructor|].
    inversion H as [|? ? Hs Hf]; subst. constructor; [apply IH, Hs|].
    apply Forall_app in Hf. apply Hf.
  - subst returned. rewrite length_take. subst sorted.
    rewrite sort_desc_length. reflexivity.
  - intros x y. apply sorted_take_dominates. exact Hsorted.
  - intros Hlen Hperm. subst sorted. rewrite sort_desc_perm. subst pool.
    rewrite take_ge by exact Hlen. exact Hperm.
Qed.

Lemma last_n_takes_latest_of_pool_witness :
  retrieve_runs two_runs (last_n_only 1) top_k_default = Ok [tempo_run].
Proof.
  destruct (last_n_takes_latest_of_pool two_runs 1) as (H & _).
  - lia.
  - discriminate.
  - repeat constructor; eexists; reflexivity.
  - rewrite H. reflexivity.
Defined.

(** ** The query interpreter *)

(** ** The steps of the JSON scanner *)

Lemma skip_ws_length (s : str) : length (skip_ws s) <= length s.
Proof.
  induction s as [|c s IH]; [reflexivity|].
  cbn [skip_ws]. destruct (is_ws c); cbn [length]; lia.
Qed.

Lemma scanstring_shorter (n : nat) :
  forall s chars after,
    length s <= n -> scanstring s = Some (chars, after) -> length after < length s.
Proof.
  induction n as [|n IH]; intros s chars after Hn H.
  { destruct s; [discriminate H | cbn [length] in Hn; lia]. }
  assert (Hrec : forall t chars' after',
             length t <= n -> scanstring t = Some (chars', after') ->
             length after' < length t) by (intros; eapply IH; eauto).
  destruct s as [|c rest]; [discriminate H|].
  cbn [scanstring] in H. cbv zeta in H. cbn [length] in Hn |- *.
  repeat lazymatch type of H with
  | match ?x with _ => _ end = _ =>
      let E := fresh "E" in
      destruct x eqn:E; cbn [length] in *; try discriminate H
  | (let '(_, _) := ?x in _) = _ => destruct x
  end;
  injection H as <- <-; cbn [length] in *;
  repeat match goal with
  | E : scanstring ?t = Some (_, _) |- _ =>
      apply Hrec in E; [cbn [length] in E | cbn [length]; lia]
  end; lia.
Qed.

Lemma drop_span_length (p : ascii -> bool) (s : str) :
  length (drop (length (span_while p s)) s) <= length s.
Proof. rewrite length_drop. lia. Qed.

Lemma sign_part_length (s : str) : length (snd (sign_part s)) <= length s.
Proof.
  destruct s as [|c t]; [reflexivity|]. cbn [sign_part].
  destruct (Ascii.eqb c "-"); cbn [snd length]; lia.
Qed.

Lemma integer_part_shorter (s ip rest : str) :
  integer_part s = Some (ip, rest) -> length rest < length s.
Proof.
  destruct s as [|c t]; [discriminate|]. cbn [integer_part].
  destruct (Ascii.eqb c "0"); [intros [= <- <-]; cbn [length]; lia|].
  destruct (in_range 49 57 c); [|discriminate]. cbv zeta. intros [= <- <-].
  pose proof (drop_span_length isdigit t). cbn [length]. lia.
Qed.

Lemma fraction_part_length (s : str) : length (snd (fraction_part s)) <= length s.
Proof.
  destruct s as [|p [|d t]]; [reflexivity | reflexivity |]. cbn [fraction_part].
  destruct (Ascii.eqb p "." && isdigit d); [|reflexivity]. cbv zeta. cbn [snd].
  pose proof (drop_span_length isdigit (d :: t)). cbn [length] in *. lia.
Qed.

Lemma exponent_part_length (s : str) : length (snd (exponent_part s)) <= length s.
Proof.
  destruct s as [|e t]; [reflexivity|]. cbn [exponent_part].
  destruct (Ascii.eqb e "e" || Ascii.eqb e "E"); [|reflexivity].
  destruct t as [|c t'].
  - reflexivity.
  - destruct (Ascii.eqb c "-" || Ascii.eqb c "+").
    + pose proof (drop_span_length isdigit t').
      destruct (span_while isdigit t'); cbn [snd length] in *; lia.
    + pose proof (drop_span_length isdigit (c :: t')).
      destruct (span_while isdigit (c :: t')); cbn [snd length] in *; lia.
Qed.

Lemma match_number_shorter (s : str) (v : json) (rest : str) :
  match_number s = Some (v, rest) -> length rest < length s.
Proof.
  unfold match_number.
  pose proof (sign_part_length s) as Hsign.
  destruct (sign_part s) as [sign s1]. cbn [snd] in Hsign.
  destruct (integer_part s1) as [[ip s2]|] eqn:Eint; [|discriminate].
  apply integer_part_shorter in Eint.
  pose proof (fraction_part_length s2) as Hfrac.
  destruct (fraction_part s2) as [frac s3]. cbn [snd] in Hfrac.
  pose proof (exponent_part_length s3) as Hexp.
  destruct (exponent_part s3) as [exponent s4]. cbn [snd] in Hexp.
  destruct frac, exponent; intros [= <- <-]; lia.
Qed.

Ltac case_head H :=
  repeat lazymatch type of H with
  | match ?x with _ => _ end = _ =>
      let E := fresh "E" in destruct x eqn:E; try discriminate H
  end.

Ltac scanned_lengths Hv Ha Ho :=
  repeat match goal with
  | E : skip_ws ?x = _ |- _ =>
      let L := fresh "L" in
      pose proof (skip_ws_length x) as L; rewrite E in L; clear E
  | E : scanstring ?x = Some (_, _) |- _ =>
      apply (scanstring_shorter (length x)) in E; [|lia]
  | E : match_number _ = Some (_, _) |- _ => apply match_number_shorter in E
  | E : scan_once _ _ = Scanned _ _ |- _ => apply Hv in E
  | E : parse_array _ _ = Scanned _ _ |- _ => apply Ha in E
  | E : parse_object _ _ = Scanned _ _ |- _ => apply Ho in E
  end;
  repeat match goal with
  | H : context [length (skip_ws ?x)] |- _ =>
      lazymatch goal with
      | _ : length (skip_ws x) <= length x |- _ => fail
      | _ => pose proof (skip_ws_length x)
      end
  | |- context [length (skip_ws ?x)] =>
      lazymatch goal with
      | _ : length (skip_ws x) <= length x |- _ => fail
      | _ => pose proof (skip_ws_length x)
      end
  end;
  rewrite ?length_drop in *; cbn [length] in *.

(** What the scanner leaves is shorter than what it was given. *)
Lemma scanned_shorter (steps : nat) :
  (forall s v rest, scan_once steps s = Scanned v rest -> length rest < length s) /\
  (forall s items rest,
     parse_array steps s = Scanned items rest -> length rest < length s) /\
  (forall s pairs rest,
     parse_object steps s = Scanned pairs rest -> length rest < length s).
Proof.
  induction steps as [|steps (IHv & IHa & IHo)];
    [repeat split; intros; discriminate|].
  repeat split.
  - intros s v rest H. cbn [scan_once] in H. case_head H;
      injection H as <- <-;
      scanned_lengths IHv IHa IHo; lia.
  - intros s items rest H. cbn [parse_array] in H. case_head H;
      injection H as <- <-;
      scanned_lengths IHv IHa IHo; lia.
  - intros s pairs rest H. cbn [parse_object] in H. case_head H;
      injection H as <- <-;
      scanned_lengths IHv IHa IHo; lia.
Qed.

(** The scanner is given steps enough: twice the length of the text, and
    one more. *)
Lemma scanner_has_steps (steps : nat) :
  (forall s, 2 * length s + 1 <= steps -> scan_once steps s <> OutOfSteps) /\
  (forall s, 2 * length s + 2 <= steps -> parse_array steps s <> OutOfSteps) /\
  (forall s, 2 * length s + 2 <= steps -> parse_object steps s <> OutOfSteps).
Proof.
  induction steps as [|steps (IHv & IHa & IHo)];
    [repeat split; intros; lia|].
  destruct (scanned_shorter steps) as (Sv & Sa & So).
  repeat split.
  - intros s Hs H. cbn [scan_once] in H. case_head H;
      match goal with
      | E : scan_once steps ?t = OutOfSteps |- _ => apply (IHv t); [|exact E]
      | E : parse_array steps ?t = OutOfSteps |- _ => apply (IHa t); [|exact E]
      | E : parse_object steps ?t = OutOfSteps |- _ => apply (IHo t); [|exact E]
      end;
      subst; scanned_lengths Sv Sa So; lia.
  - intros s Hs H. cbn [parse_array] in H. case_head H;
      match goal with
      | E : scan_once steps ?t = OutOfSteps |- _ => apply (IHv t); [|exact E]
      | E : parse_array steps ?t = OutOfSteps |- _ => apply (IHa t); [|exact E]
      | E : parse_object steps ?t = OutOfSteps |- _ => apply (IHo t); [|exact E]
      end;
      subst; scanned_lengths Sv Sa So; lia.
  - intros s Hs H. cbn [parse_object] in H. case_head H;
      match goal with
      | E : scan_once steps ?t = OutOfSteps |- _ => apply (IHv t); [|exact E]
      | E : parse_array steps ?t = OutOfSteps |- _ => apply (IHa t); [|exact E]
      | E : parse_object steps ?t = OutOfSteps |- _ => apply (IHo t); [|exact E]
      end;
      subst; scanned_lengths Sv Sa So; lia.
Qed.

(** [json_loads] decides every text: a text it rejects is one the scanner
    found invalid or followed by something else, never one it had no
    steps left for. *)
Lemma json_loads_decides (s : str) :
  scan_once (2 * length s + 1) (skip_ws s) <> OutOfSteps.
Proof.
  apply scanner_has_steps. pose proof (skip_ws_length s). lia.
Qed.

(** C8, as stated, fails: a reply that is JSON of another shape than the
    query object, here an empty list and [null], is returned as it is
    parsed, with no error; and for the fenced reply that is no JSON the
    error carries the reply without its fences, which is not the text the
    model gave. *)
Lemma other_json_is_returned_unchecked :
  reply_outcome (py "[]") = Returned (JList []) /\
  reply_outcome (py "null") = Returned JNull /\
  reply_outcome fenced_reply
  = Raised (ValueError (py "Failed to parse Gemini output as JSON:" ++ [newline]
                        ++ py "I could not find any filter")) /\
  fenced_reply <> py "I could not find any filter".
Proof. vm_compute. repeat split. discriminate. Qed.

(** C8, amended: the model is called once and is not asked again.  When
    [json.loads] rejects the cleaned reply (the reply stripped, its
    fences removed), the call raises an error whose message is the fixed
    head followed by that cleaned reply; when [json.loads] accepts it,
    the value is returned as parsed, whatever its shape. *)
Theorem interpret_query_checks_syntax_only (interpreter_prompt : str -> str)
    (user_text content : str) (rest asked : list str) :
  let llm := {| replies := content :: rest; prompts := asked |} in
  let llm' := {| replies := rest; prompts := asked ++ [interpreter_prompt user_text] |} in
  let response := clean_response content in
  (json_loads response = None ->
     interpret_query json json_loads interpreter_prompt user_text llm
     = (Raised (ValueError (py "Failed to parse Gemini output as JSON:" ++ [newline]
                            ++ response)), llm')) /\
  (forall value, json_loads response = Some value ->
     interpret_query json json_loads interpreter_prompt user_text llm
     = (Returned value, llm')) /\
  (forall value, fst (interpret_query json json_loads interpreter_prompt user_text llm)
                 = Returned value ->
     json_loads response = Some value).
Proof.
  intros llm llm' response.
  assert (Hrun : interpret_query json json_loads interpreter_prompt user_text llm
                 = (match json_loads response with
                    | Some value => Returned value
                    | None => Raised (parse_failure response)
                    end, llm')).
  { unfold interpret_query. simpl. fold response.
    destruct (json_loads response); reflexivity. }
  repeat split.
  - intros Hfail. rewrite Hrun, Hfail. reflexivity.
  - intros value Hok. rewrite Hrun, Hok. reflexivity.
  - intros value. rewrite Hrun. cbn [fst].
    destruct (json_loads response); [intros [= <-]; reflexivity | discriminate].
Qed.

Lemma interpret_query_checks_syntax_only_witness :
  interpret_query json json_loads (fun t => t) (py "how was my last run?") one_reply
  = (Raised (ValueError (py "Failed to parse Gemini output as JSON:" ++ [newline]
                         ++ py "I could not find any filter")),
     {| replies := []; prompts := [py "how was my last run?"] |}).
Proof.
  destruct (interpret_query_checks_syntax_only (fun t => t)
              (py "how was my last run?") fenced_reply [] []) as [Hfail _].
  apply Hfail. reflexivity.
Defined.

(** ** The normaliser *)

Lemma pace_of_nonzero_mean (bucket : list npfloat) (m : Q) :
  nanmean bucket = Fin m -> Qeq_bool m 0 = false ->
  pace_of_velocities bucket = Fin (Qred (Qred (1000 / m) / 60)).
Proof.
  intros Hm Hnz. unfold pace_of_velocities. rewrite Hm. simpl.
  rewrite Hnz. reflexivity.
Qed.

(** C9, at streams the code can receive: the velocity samples of the
    first kilometre are all zero, their mean is zero, and the pace of the
    row is infinite, not null.  The path for activities without streams
    does guard the same division and gives no pace for a zero speed. *)
Theorem zero_mean_velocity_gives_infinite_pace :
  km_wise_data standstill_streams
  = Ok [{| KM := 1; Avg_HR := None; Avg_Cadence := None; Avg_Power := None;
           Avg_Pace_min_per_km := Some (Inf false); Elevation_Gain_m := None |}] /\
  fallback_pace 1 0 = None.
Proof. vm_compute. split; reflexivity. Qed.

(** ** Splitting and joining *)

Lemma split_nonempty (sep : ascii) (s : str) : split sep s <> [].
Proof.
  destruct s as [|c s]; simpl; [discriminate|].
  destruct (Ascii.eqb c sep); [discriminate|].
  destruct (split sep s); discriminate.
Qed.

Lemma split_cons_other (sep c : ascii) (s : str) :
  Ascii.eqb c sep = false ->
  exists l ls, split sep s = l :: ls /\ split sep (c :: s) = (c :: l) :: ls.
Proof.
  intros H. simpl. rewrite H.
  destruct (split sep s) as [|l ls] eqn:E; [exfalso; eapply split_nonempty; eauto|].
  eauto.
Qed.

Lemma split_app_sep (sep : ascii) (a b : str) :
  split sep (a ++ sep :: b) = split sep a ++ split sep b.
Proof.
  induction a as [|c a IH]; simpl.
  - rewrite Ascii.eqb_refl. reflexivity.
  - destruct (Ascii.eqb c sep); [rewrite IH; reflexivity|].
    rewrite IH.
    destruct (split sep a) as [|l ls] eqn:E; [exfalso; eapply split_nonempty; eauto|].
    reflexivity.
Qed.

Lemma split_free (sep : ascii) (s : str) :
  free_of sep s = true -> split sep s = [s].
Proof.
  induction s as [|c s IH]; simpl; [reflexivity|].
  intros H. apply andb_true_iff in H as [Hc Hs].
  apply negb_true_iff in Hc. rewrite Hc, (IH Hs). reflexivity.
Qed.

Lemma split_parts_free (sep : ascii) (s : str) :
  Forall (fun p => free_of sep p = true) (split sep s).
Proof.
  induction s as [|c s IH]; simpl; [repeat constructor|].
  destruct (Ascii.eqb c sep) eqn:E; [constructor; [reflexivity | exact IH]|].
  destruct (split sep s) as [|l ls]; [repeat constructor; simpl; rewrite E; reflexivity|].
  inversion IH as [|? ? Hl Hls]; subst. constructor; [|exact Hls].
  simpl. rewrite E. exact Hl.
Qed.

Lemma split_join_flat (sep : ascii) (parts : list str) :
  parts <> [] ->
  split sep (join [sep] parts) = flat_map (split sep) parts.
Proof.
  induction parts as [|p parts IH]; [congruence|]. intros _.
  destruct parts as [|q parts].
  - simpl. rewrite app_nil_r. reflexivity.
  - change (join [sep] (p :: q :: parts)) with (p ++ sep :: join [sep] (q :: parts)).
    rewrite split_app_sep, IH by discriminate. reflexivity.
Qed.

Lemma flat_map_split_free (sep : ascii) (parts : list str) :
  Forall (fun p => free_of sep p = true) parts ->
  flat_map (split sep) parts = parts.
Proof.
  induction 1 as [|p parts Hp _ IH]; simpl; [reflexivity|].
  rewrite (split_free sep p Hp), IH. reflexivity.
Qed.

Lemma split_join (sep : ascii) (parts : list str) :
  parts <> [] ->
  Forall (fun p => free_of sep p = true) parts ->
  split sep (join [sep] parts) = parts.
Proof.
  intros Hne Hfree. rewrite split_join_flat by exact Hne.
  apply flat_map_split_free, Hfree.
Qed.

(** ** Lines of a text whose only line boundary is the line feed *)

Lemma splitlines_or_split (s : str) :
  only_newlines s = true ->
  split newline s = splitlines s \/ split newline s = splitlines s ++ [[]].
Proof.
  induction s as [|c s IH]; [right; reflexivity|].
  intros H. simpl in H. apply andb_true_iff in H as [Hc Hs].
  specialize (IH Hs).
  destruct (Ascii.eqb c newline) eqn:Enl.
  - apply Ascii.eqb_eq in Enl. subst c. simpl.
    destruct s as [|c2 s2]; [right; reflexivity|].
    destruct IH as [IH|IH]; rewrite IH; [left | right]; reflexivity.
  - rewrite orb_false_r in Hc. apply negb_true_iff in Hc.
    simpl. rewrite Hc, Enl.
    destruct IH as [IH|IH]; rewrite IH.
    + left. reflexivity.
    + destruct (splitlines s) as [|l ls]; [left | right]; reflexivity.
Qed.

(** ** The deserializer, line by line *)

Lemma parse_km_parent (current_run : option RunHeader) (line : str) (r : Row) :
  parse_km current_run line = Ok r ->
  parent_of r = default blank_run current_run.
Proof.
  unfold parse_km. destruct (find_labeled isdigit (py "KM ") line); [|discriminate].
  destruct (labeled_float "Pace " line); [|discriminate].
  destruct (labeled_float "HR " line); [|discriminate].
  destruct (labeled_float "Power " line); [|discriminate].
  destruct (labeled_float "Elevation Gain " line); [|discriminate].
  simpl. intros [= <-]. destruct current_run as [[]|]; reflexivity.
Qed.

Lemma parse_km_converts (current_run : option RunHeader) (line : str) :
  (exists r, parse_km current_run line = Ok r) <->
  (exists r, parse_km None line = Ok r).
Proof.
  unfold parse_km. destruct (find_labeled isdigit (py "KM ") line);
    [|split; intros [r H]; discriminate].
  destruct (labeled_float "Pace " line); [|split; intros [r H]; discriminate].
  destruct (labeled_float "HR " line); [|split; intros [r H]; discriminate].
  destruct (labeled_float "Power " line); [|split; intros [r H]; discriminate].
  destruct (labeled_float "Elevation Gain " line);
    [|split; intros [r H]; discriminate].
  simpl. split; intros _; eauto.
Qed.

Lemma startswith_km_nonempty (line : str) :
  startswith (py "KM") line = true -> line <> [].
Proof. intros H ->. discriminate. Qed.

Lemma km_rows_parent (current_run : option RunHeader) (lines : list str) :
  Forall (fun r => parent_of r = default blank_run current_run)
    (km_rows current_run lines).
Proof.
  induction lines as [|raw lines IH]; simpl; [constructor|].
  destruct (is_km_line raw); [|exact IH].
  destruct (parse_km current_run (strip raw)) eqn:E; [|exact IH].
  constructor; [eapply parse_km_parent; eauto | exact IH].
Qed.

Lemma km_rows_length (current_run : option RunHeader) (lines : list str) :
  length (km_rows current_run lines) = length (List.filter km_line_converts lines).
Proof.
  induction lines as [|raw lines IH]; simpl; [reflexivity|].
  unfold km_line_converts at 1. destruct (is_km_line raw); simpl; [|exact IH].
  destruct (parse_km current_run (strip raw)) eqn:E.
  - destruct (proj1 (parse_km_converts current_run (strip raw))) as [r' Hr']; eauto.
    rewrite Hr'. simpl. rewrite IH. reflexivity.
  - destruct (parse_km None (strip raw)) eqn:E'; [|exact IH].
    destruct (proj2 (parse_km_converts current_run (strip raw))) as [r' Hr']; eauto.
    congruence.
Qed.

(** Lines that open no run leave [current_run] as it is: their rows come
    first, all under that [current_run], and the loop goes on from the
    same state. *)
Lemma rows_of_lines_no_header (current_run : option RunHeader)
    (lines rest : list str) :
  Forall (fun raw => opens_run raw = false) lines ->
  rows_of_lines current_run (lines ++ rest)
  = rows_of_lines current_run rest ≫= λ rows, Ok (km_rows current_run lines ++ rows).
Proof.
  induction 1 as [|raw lines Hraw _ IH]; simpl.
  - destruct (rows_of_lines current_run rest); reflexivity.
  - unfold opens_run in Hraw. unfold is_km_line.
    destruct (strip raw) as [|c line] eqn:E.
    + exact IH.
    + rewrite Hraw. change ["K"; "M"]%char with (py "KM").
      destruct (startswith (py "KM") (c :: line)); [|exact IH].
      destruct (parse_km current_run (c :: line)); [|exact IH].
      rewrite IH. destruct (rows_of_lines current_run rest); reflexivity.
Qed.

Lemma rows_of_lines_blank_end (current_run : option RunHeader) (lines : list str) :
  rows_of_lines current_run (lines ++ [[]]) = rows_of_lines current_run lines.
Proof.
  revert current_run. induction lines as [|raw lines IH]; intros cur; simpl.
  - reflexivity.
  - destruct (strip raw) as [|c line]; [apply IH|].
    destruct (is_header_line (c :: line)).
    + destruct (parse_header (c :: line)) as [parsed|e]; [|reflexivity].
      rewrite !res_bind_ok. apply IH.
    + change ["K"; "M"]%char with (py "KM").
      destruct (startswith (py "KM") (c :: line)); [|apply IH].
      destruct (parse_km cur (c :: line)); [|apply IH].
      rewrite IH. reflexivity.
Qed.

(** The loop reads a text whose only line boundary is the line feed as
    the lines between the line feeds. *)
Lemma rows_of_splitlines (current_run : option RunHeader) (s : str) :
  only_newlines s = true ->
  rows_of_lines current_run (splitlines s)
  = rows_of_lines current_run (split newline s).
Proof.
  intros H. destruct (splitlines_or_split s H) as [E|E]; rewrite E.
  - reflexivity.
  - symmetry. apply rows_of_lines_blank_end.
Qed.

(** ** Rows that come before any summary line *)

(** C7, as stated, fails: the per-KM line in front of the first summary
    line of this context gives a row of the list the loop builds, with
    empty strings and zeros for the fields of the run. *)
Lemma orphan_km_line_gives_row :
  rows_of_context orphan_context = Ok [orphan_row; owned_row].
Proof. vm_compute. reflexivity. Qed.

(** C7, amended: the per-KM lines that come before any summary line are
    not dropped.  Each of them whose numbers convert gives one row, ahead
    of the rows of the rest of the context, and the run-level fields of
    that row are the defaults of the empty [current_run]: empty date,
    name and type, and zero distance, pace, heart rate and elevation. *)
Theorem orphan_lines_give_default_rows (context : str) (before rest : list str) :
  splitlines context = before ++ rest ->
  Forall (fun raw => opens_run raw = false) before ->
  let orphans := km_rows None before in
  rows_of_context context
  = rows_of_lines None rest ≫= (λ rows, Ok (orphans ++ rows)) /\
  length orphans = length (List.filter km_line_converts before) /\
  Forall (fun r => parent_of r = blank_run) orphans.
Proof.
  intros Hlines Hno orphans. repeat split.
  - unfold rows_of_context. rewrite Hlines.
    apply rows_of_lines_no_header, Hno.
  - apply km_rows_length.
  - apply (km_rows_parent None).
Qed.

Lemma orphan_lines_give_default_rows_witness :
  rows_of_context orphan_context
  = rows_of_lines None (drop 1 (splitlines orphan_context))
      ≫= (λ rows, Ok (km_rows None (take 1 (splitlines orphan_context)) ++ rows)) /\
  length (km_rows None (take 1 (splitlines orphan_context))) = 1.
Proof.
  destruct (orphan_lines_give_default_rows orphan_context
              (take 1 (splitlines orphan_context))
              (drop 1 (splitlines orphan_context))) as (H & Hlen & _).
  - symmetry. apply take_drop.
  - repeat constructor.
  - split; [exact H | rewrite Hlen; reflexivity].
Defined.

(** The row stays in the frame that is returned; a conversion that reads
    the empty date as no time leaves it in its place. *)
Example orphan_row_stays_in_frame :
  context_to_dataframe (option datetime) stored_format_to_datetime orphan_context
  = Ok {| records := [orphan_row; owned_row];
          date_column := [None; strptime (date owned_row)] |}.
Proof. vm_compute. reflexivity. Qed.

(** ** Stripping, searching and converting *)

Lemma lstrip_nonspace (c : ascii) (s : str) :
  isspace c = false -> lstrip (c :: s) = c :: s.
Proof. intros H. simpl. rewrite H. reflexivity. Qed.

Lemma rstrip_app_nonspace (a : str) (c : ascii) :
  isspace c = false -> rstrip (a ++ [c]) = a ++ [c].
Proof.
  intros H. unfold rstrip. rewrite rev_app_distr. simpl. rewrite H. simpl.
  rewrite rev_involutive. reflexivity.
Qed.

Lemma rstrip_app_space (a : str) (c : ascii) :
  isspace c = true -> rstrip (a ++ [c]) = rstrip a.
Proof.
  intros H. unfold rstrip. rewrite rev_app_distr. simpl. rewrite H. reflexivity.
Qed.

(** A text with no whitespace at its ends is empty or runs from a first
    to a last character that are not whitespace. *)
Lemma no_edge_space_ends (s : str) :
  no_edge_space s = true ->
  s = [] \/
  (exists c s', s = c :: s' /\ isspace c = false) /\
  (exists s' c, s = s' ++ [c] /\ isspace c = false).
Proof.
  unfold no_edge_space. intros H. apply andb_true_iff in H as [Hfirst Hlast].
  destruct s as [|c s']; [left; reflexivity|]. right. split.
  - exists c, s'. split; [reflexivity|]. apply negb_true_iff, Hfirst.
  - destruct (rev (c :: s')) as [|z r] eqn:E.
    + apply (f_equal (@length ascii)) in E. rewrite length_rev in E. discriminate.
    + exists (rev r), z. split; [|apply negb_true_iff, Hlast].
      rewrite <- (rev_involutive (c :: s')), E. reflexivity.
Qed.

Lemma strip_padded (s : str) :
  no_edge_space s = true -> strip (" "%char :: s ++ [" "%char]) = s.
Proof.
  intros H. unfold strip. change (lstrip (" "%char :: s ++ [" "%char]))
    with (lstrip (s ++ [" "%char])).
  destruct (no_edge_space_ends s H) as [->|[(c & s' & -> & Hc) (s'' & z & E & Hz)]].
  - reflexivity.
  - change ((c :: s') ++ [" "%char]) with (c :: (s' ++ [" "%char])).
    rewrite (lstrip_nonspace c _ Hc).
    change (c :: (s' ++ [" "%char])) with ((c :: s') ++ [" "%char]).
    rewrite rstrip_app_space by reflexivity.
    rewrite E. apply rstrip_app_nonspace, Hz.
Qed.

Lemma strip_between (a b : str) (c z : ascii) :
  isspace c = false -> isspace z = false ->
  strip (c :: a ++ b ++ [z]) = c :: a ++ b ++ [z].
Proof.
  intros Hc Hz. unfold strip. rewrite (lstrip_nonspace c _ Hc).
  change (c :: a ++ b ++ [z]) with ((c :: a) ++ b ++ [z]).
  rewrite app_assoc. apply rstrip_app_nonspace, Hz.
Qed.

Lemma span_while_stop (p : ascii -> bool) (a b : str) :
  forallb p a = true ->
  match b with [] => true | c :: _ => negb (p c) end = true ->
  span_while p (a ++ b) = a.
Proof.
  intros Ha Hb. induction a as [|x a IH]; simpl.
  - destruct b as [|c b]; [reflexivity|]. simpl.
    apply negb_true_iff in Hb. rewrite Hb. reflexivity.
  - simpl in Ha. apply andb_true_iff in Ha as [Hx Ha].
    rewrite Hx, (IH Ha). reflexivity.
Qed.

Lemma find_labeled_unlabeled (cls : ascii -> bool) (c : ascii) (s : str) :
  find_labeled cls [] (c :: s)
  = match span_while cls (c :: s) with
    | [] => find_labeled cls [] s
    | tok => Some tok
    end.
Proof. simpl. destruct (cls c); reflexivity. Qed.

Lemma span_while_all (p : ascii -> bool) (a : str) :
  forallb p a = true -> span_while p a = a.
Proof.
  intros H. rewrite <- (app_nil_r a) at 1. apply span_while_stop; auto.
Qed.

(** The first run of the class [[\d.]] after a text that has none. *)
Lemma find_first_number (pre tok post : str) :
  forallb (fun c => negb (isnumch c)) pre = true ->
  numeric_token tok = true ->
  match post with [] => true | c :: _ => negb (isnumch c) end = true ->
  find_labeled isnumch [] (pre ++ tok ++ post) = Some tok.
Proof.
  intros Hpre Htok Hpost. apply andb_true_iff in Htok as [Hne Hnum].
  induction pre as [|c pre IH].
  - destruct tok as [|x tok]; [discriminate|].
    change ([] ++ (x :: tok) ++ post) with (x :: (tok ++ post)).
    rewrite find_labeled_unlabeled.
    change (x :: tok ++ post) with ((x :: tok) ++ post).
    rewrite (span_while_stop isnumch (x :: tok) post Hnum Hpost). reflexivity.
  - simpl in Hpre. apply andb_true_iff in Hpre as [Hc Hpre].
    apply negb_true_iff in Hc.
    change ((c :: pre) ++ tok ++ post) with (c :: (pre ++ tok ++ post)).
    rewrite find_labeled_unlabeled. simpl span_while. rewrite Hc.
    apply IH, Hpre.
Qed.

Lemma isdigit_isnumch (c : ascii) : isdigit c = true -> isnumch c = true.
Proof. intros H. unfold isnumch. rewrite H. reflexivity. Qed.

Lemma digits_numeric (s : str) : forallb isdigit s = true -> forallb isnumch s = true.
Proof.
  intros H. apply forallb_forall. intros c Hc.
  apply isdigit_isnumch. eapply forallb_forall in H; eauto.
Qed.

Lemma isdigit_not_point (c : ascii) : isdigit c = true -> Ascii.eqb c "." = false.
Proof.
  intros H. destruct (Ascii.eqb_spec c "."); [subst; discriminate | reflexivity].
Qed.

(** The text [str()] prints for a plain number is a numeric token, and
    [float] reads the number back from it. *)
Lemma str_of_plain_number (n : pynum) :
  plain_number n = true ->
  numeric_token (str_of_num n) = true /\
  float_of_token (str_of_num n) = Ok (num_value n).
Proof.
  destruct n as [neg ip fp]. unfold plain_number, str_of_num, num_value; simpl.
  intros H. apply andb_true_iff in H as [H Hf]. apply andb_true_iff in H as [H Hi].
  apply andb_true_iff in H as [Hneg Hne]. apply negb_true_iff in Hneg. subst neg.
  simpl. destruct ip as [|x ip]; [discriminate|]. clear Hne.
  destruct fp as [f|].
  - split.
    + unfold numeric_token. simpl app. cbn [truthy_str andb].
      change (x :: ip ++ "."%char :: f) with ((x :: ip) ++ "."%char :: f).
      rewrite forallb_app, (digits_numeric _ Hi). simpl. apply digits_numeric, Hf.
    + unfold float_of_token.
      change ((x :: ip) ++ py "." ++ f) with ((x :: ip) ++ ("."%char :: f)).
      rewrite (span_while_stop isdigit (x :: ip) ("."%char :: f) Hi eq_refl).
      rewrite drop_app_length. simpl. rewrite Hf. reflexivity.
  - split.
    + unfold numeric_token. rewrite app_nil_r. cbn [truthy_str andb].
      apply digits_numeric, Hi.
    + unfold float_of_token. rewrite app_nil_r.
      rewrite (span_while_all isdigit (x :: ip) Hi), drop_all. reflexivity.
Qed.

Lemma remove_all_absent (old s : str) :
  contains old s = false -> remove_all old s = s.
Proof.
  unfold remove_all. induction s as [|c s IH]; [reflexivity|].
  intros H. simpl in H. apply orb_false_iff in H as [Hhere Hrest].
  simpl. destruct old as [|o old']; [rewrite IH by exact Hrest; reflexivity|].
  rewrite Hhere, IH by exact Hrest. reflexivity.
Qed.

Lemma remove_type_label (t : str) :
  contains (py "Type: ") t = false ->
  remove_all (py "Type: ") (py "Type: " ++ t) = t.
Proof.
  intros H. rewrite <- (remove_all_absent (py "Type: ") t H) at 2.
  reflexivity.
Qed.

(** ** The summary line read back *)

Lemma numch_is_plain (c : ascii) :
  isnumch c = true ->
  Ascii.eqb c "|" = false /\ is_linebreak c = false /\ isspace c = false
  /\ Ascii.eqb c newline = false.
Proof.
  destruct c as [[] [] [] [] [] [] [] []]; intros H;
    first [discriminate H | repeat split].
Qed.

Lemma numeric_token_plain (s : str) :
  numeric_token s = true -> free_of "|" s = true /\ no_linebreak s = true.
Proof.
  intros H. apply andb_true_iff in H as [_ H].
  split; apply forallb_forall; intros c Hc;
    eapply forallb_forall in H; eauto;
    destruct (numch_is_plain c H) as (H1 & H2 & _); [rewrite H1 | rewrite H2];
    reflexivity.
Qed.

Lemma strip_trailing (s : str) :
  no_edge_space s = true -> strip (s ++ [" "%char]) = s.
Proof. intros H. apply (strip_padded s H). Qed.

Lemma labeled_float_field (pre tok post : str) :
  forallb (fun c => negb (isnumch c)) pre = true ->
  numeric_token tok = true ->
  match post with [] => true | c :: _ => negb (isnumch c) end = true ->
  labeled_float "" (pre ++ tok ++ post) = float_of_token tok.
Proof.
  intros Hpre Htok Hpost. unfold labeled_float.
  change (py "") with (@nil ascii).
  rewrite (find_first_number pre tok post Hpre Htok Hpost). reflexivity.
Qed.

Lemma number_text_plain (s : str) :
  number_text s -> free_of "|" s = true /\ no_linebreak s = true.
Proof. intros [H| ->]; [apply numeric_token_plain, H | split; reflexivity]. Qed.

Lemma find_no_number (s : str) :
  forallb (fun c => negb (isnumch c)) s = true -> find_labeled isnumch [] s = None.
Proof.
  induction s as [|c s IH]; [reflexivity|]. intros H.
  cbn [forallb] in H. apply andb_true_iff in H as [Hc Hs]. apply negb_true_iff in Hc.
  rewrite find_labeled_unlabeled. simpl span_while. rewrite Hc. apply IH, Hs.
Qed.

(** A segment of the summary line holds the text of its number between
    two texts without digits or points: a number is read back, and [None]
    is read as 0. *)
Lemma labeled_float_segment (pre s post : str) :
  forallb (fun c => negb (isnumch c)) pre = true ->
  number_text s ->
  forallb (fun c => negb (isnumch c)) post = true ->
  labeled_float "" (pre ++ s ++ post) = read_number s.
Proof.
  intros Hpre [Hs| ->] Hpost.
  - unfold read_number. rewrite Hs.
    apply labeled_float_field; [exact Hpre | exact Hs |].
    destruct post as [|c post]; [reflexivity|].
    cbn [forallb] in Hpost. apply andb_true_iff in Hpost as [Hc _]. exact Hc.
  - unfold labeled_float. change (py "") with (@nil ascii).
    rewrite find_no_number; [reflexivity|].
    rewrite !forallb_app, Hpre, Hpost. reflexivity.
Qed.

Ltac split_plain H :=
  let Hp := fresh H "_pipe" in
  let Hl := fresh H "_line" in
  let He := fresh H "_edge" in
  unfold plain_text in H;
  apply andb_true_iff in H as [H He];
  apply andb_true_iff in H as [Hp Hl].

Ltac pieces :=
  rewrite ?forallb_app; repeat (apply andb_true_intro; split);
  first [reflexivity | assumption].

Section SummaryLine.
Variables d nm sd sp sh se t : str.
Hypothesis date_plain : plain_text d = true.
Hypothesis date_opens : is_header_line d = true.
Hypothesis name_plain : plain_text nm = true.
Hypothesis type_plain : plain_text t = true.
Hypothesis type_there : t <> [].
Hypothesis type_unlabelled : contains (py "Type: ") t = false.
Hypothesis distance_token : number_text sd.
Hypothesis pace_token : number_text sp.
Hypothesis hr_token : number_text sh.
Hypothesis elevation_token : number_text se.

Lemma summary_parts :
  format_summary d nm sd sp sh se t
  = join (py "|")
      [d ++ py " "; py " " ++ nm ++ py " ";
       py " Distance: " ++ sd ++ py " km "; py " Pace: " ++ sp ++ py " min/km ";
       py " Avg HR: " ++ sh ++ py " bpm "; py " Elevation: " ++ se ++ py " m ";
       py " Type: " ++ t].
Proof.
  unfold format_summary, join, py. simpl.
  repeat rewrite <- app_assoc. simpl. reflexivity.
Qed.

Lemma summary_no_linebreak :
  no_linebreak (format_summary d nm sd sp sh se t) = true.
Proof.
  pose proof date_plain as Hd. pose proof name_plain as Hn.
  pose proof type_plain as Ht. split_plain Hd. split_plain Hn. split_plain Ht.
  destruct (number_text_plain sd distance_token) as [_ H1].
  destruct (number_text_plain sp pace_token) as [_ H2].
  destruct (number_text_plain sh hr_token) as [_ H3].
  destruct (number_text_plain se elevation_token) as [_ H4].
  unfold no_linebreak in *. unfold format_summary. pieces.
Qed.

Lemma summary_strip :
  strip (format_summary d nm sd sp sh se t) = format_summary d nm sd sp sh se t.
Proof.
  pose proof date_plain as Hd. pose proof type_plain as Ht.
  split_plain Hd. split_plain Ht.
  destruct (no_edge_space_ends d Hd_edge) as [->|[(c & d' & Ed & Hc) _]];
    [discriminate date_opens|].
  destruct (no_edge_space_ends t Ht_edge) as [E|[_ (t' & z & Et & Hz)]];
    [contradiction|].
  unfold format_summary. rewrite Ed, Et.
  match goal with
  | |- strip ((c :: d') ++ ?m1 ++ nm ++ ?m2 ++ ?m3 ++ sd ++ ?m4 ++ ?m5 ++ sp ++ ?m6
               ++ ?m7 ++ sh ++ ?m8 ++ ?m9 ++ se ++ ?m10 ++ ?m11 ++ t' ++ [z]) = _ =>
      replace ((c :: d') ++ m1 ++ nm ++ m2 ++ m3 ++ sd ++ m4 ++ m5 ++ sp ++ m6
               ++ m7 ++ sh ++ m8 ++ m9 ++ se ++ m10 ++ m11 ++ t' ++ [z])
        with (c :: d' ++ (m1 ++ nm ++ m2 ++ m3 ++ sd ++ m4 ++ m5 ++ sp ++ m6
                          ++ m7 ++ sh ++ m8 ++ m9 ++ se ++ m10 ++ m11 ++ t') ++ [z])
        by (simpl; repeat (rewrite <- app_assoc; simpl); reflexivity)
  end.
  apply strip_between; assumption.
Qed.

Lemma summary_opens_run :
  is_header_line (format_summary d nm sd sp sh se t) = true.
Proof.
  pose proof date_opens as H. unfold format_summary.
  destruct d as [|y1 [|y2 [|y3 [|y4 [|d1 [|m1 [|m2 [|d2 [|a1 [|a2 rest]]]]]]]]]];
    try discriminate H.
  exact H.
Qed.

Lemma summary_parse :
  parse_header (format_summary d nm sd sp sh se t)
  = read_number sd ≫= λ dist, read_number sp ≫= λ pc,
    read_number sh ≫= λ h, read_number se ≫= λ elev,
    Ok (Some {| h_date := d; h_run_name := nm; h_distance := dist;
                h_avg_pace := pc; h_avg_hr := h; h_total_elevation := elev;
                h_run_type := t |}).
Proof.
  pose proof date_plain as Hd. pose proof name_plain as Hn.
  pose proof type_plain as Ht. split_plain Hd. split_plain Hn. split_plain Ht.
  destruct (number_text_plain sd distance_token) as [H1 _].
  destruct (number_text_plain sp pace_token) as [H2 _].
  destruct (number_text_plain sh hr_token) as [H3 _].
  destruct (number_text_plain se elevation_token) as [H4 _].
  unfold parse_header. rewrite summary_parts.
  rewrite split_join; [|discriminate|].
  2:{ unfold free_of in *. repeat constructor; pieces. }
  rewrite !labeled_float_segment by (first [reflexivity | assumption]).
  change (py " ") with [" "%char].
  rewrite (strip_trailing d Hd_edge).
  change ([" "%char] ++ nm ++ [" "%char]) with (" "%char :: nm ++ [" "%char]).
  rewrite (strip_padded nm Hn_edge).
  replace (strip (py " Type: " ++ t)) with (py "Type: " ++ t).
  - rewrite (remove_type_label t type_unlabelled). reflexivity.
  - destruct (no_edge_space_ends t Ht_edge) as [E|[_ (t' & z & Et & Hz)]];
      [contradiction|].
    rewrite Et. symmetry.
    change (py " Type: " ++ t' ++ [z])
      with (" "%char :: "T"%char :: py "ype: " ++ t' ++ [z]).
    change (py "Type: " ++ t' ++ [z]) with ("T"%char :: py "ype: " ++ t' ++ [z]).
    unfold strip at 1. change (lstrip (" "%char :: ?x)) with (lstrip x).
    apply strip_between; [reflexivity | exact Hz].
Qed.

End SummaryLine.

(** ** One document in the context *)

Lemma rows_of_lines_header (current_run : option RunHeader) (raw : str)
    (rest : list str) :
  opens_run raw = true ->
  rows_of_lines current_run (raw :: rest)
  = parse_header (strip raw) ≫= λ parsed,
      rows_of_lines (match parsed with Some h => Some h | None => current_run end) rest.
Proof.
  unfold opens_run. simpl. destruct (strip raw) as [|c line]; [discriminate|].
  intros ->. reflexivity.
Qed.

Lemma no_linebreak_free (s : str) : no_linebreak s = true -> free_of newline s = true.
Proof.
  intros H. apply forallb_forall. intros c Hc.
  eapply forallb_forall in H; eauto. apply negb_true_iff in H.
  destruct (Ascii.eqb_spec c newline); [subst; discriminate | reflexivity].
Qed.

Lemma no_linebreak_only_newlines (s : str) :
  no_linebreak s = true -> only_newlines s = true.
Proof.
  intros H. apply forallb_forall. intros c Hc.
  eapply forallb_forall in H; eauto. rewrite H. reflexivity.
Qed.

Lemma split_only_newlines (sep : ascii) (s : str) :
  only_newlines s = true ->
  Forall (fun p => only_newlines p = true) (split sep s).
Proof.
  induction s as [|c s IH]; simpl; [repeat constructor|].
  intros H. apply andb_true_iff in H as [Hc Hs]. specialize (IH Hs).
  destruct (Ascii.eqb c sep); [constructor; [reflexivity | exact IH]|].
  destruct (split sep s) as [|l ls]; [repeat constructor; simpl; rewrite Hc; reflexivity|].
  inversion IH as [|? ? Hl Hls]; subst. constructor; [|exact Hls].
  simpl. rewrite Hc. exact Hl.
Qed.

Lemma join_only_newlines (parts : list str) :
  Forall (fun p => only_newlines p = true) parts ->
  only_newlines (join [newline] parts) = true.
Proof.
  induction 1 as [|p parts Hp Hparts IH]; [reflexivity|].
  destruct parts as [|q parts]; [exact Hp|].
  change (join [newline] (p :: q :: parts))
    with (p ++ newline :: join [newline] (q :: parts)).
  unfold only_newlines in *. rewrite forallb_app, Hp. simpl. exact IH.
Qed.

Lemma filter_none {A : Type} (f : A -> bool) (l : list A) :
  Forall (fun x => f x = false) l -> List.filter f l = [].
Proof.
  induction 1 as [|x l Hx _ IH]; simpl; [reflexivity|]. rewrite Hx. exact IH.
Qed.

(** When the first [n] lines hold no per-KM line and the per-KM lines after
    them convert, the lines that give a row are the per-KM lines. *)
Lemma km_lines_after_summary (n : nat) (lines : list str) :
  Forall (fun raw => is_km_line raw = false) (take n lines) ->
  Forall (fun raw => opens_run raw = false
                     /\ (is_km_line raw = true -> km_line_converts raw = true))
    (drop n lines) ->
  length (List.filter km_line_converts (drop n lines))
  = length (List.filter is_km_line lines).
Proof.
  intros Hhead Htail. rewrite <- (take_drop n lines) at 2.
  rewrite List.filter_app, (filter_none _ _ Hhead). simpl. f_equal.
  induction Htail as [|raw ls [_ Hraw] _ IH]; simpl; [reflexivity|].
  destruct (is_km_line raw) eqn:E.
  - rewrite (Hraw eq_refl), IH. reflexivity.
  - unfold km_line_converts at 1. rewrite E. simpl. exact IH.
Qed.

Section OneDocument.
Variable doc : Document.
Hypothesis wf : well_formed doc.

Lemma stored_number_text (v : pyval) :
  stored_number v ->
  number_text (py_str v) /\ read_number (py_str v) = Ok (value_of v).
Proof.
  intros [->|(n & -> & Hn)].
  - split; [right; reflexivity | reflexivity].
  - destruct (str_of_plain_number n Hn) as [T F]. split; [left; exact T|].
    unfold read_number. cbn [py_str]. rewrite T. exact F.
Qed.

Lemma stored_number_read_back (v : pyval) :
  stored_number v -> read_back v (value_of v).
Proof.
  intros [->|(n & -> & _)]; [left; split; reflexivity|].
  right. exists n. split; reflexivity.
Qed.

Lemma wf_summary_line :
  exists d nm t,
    get (metadata doc) "date" = PStr d /\
    get (metadata doc) "name" = PStr nm /\
    get (metadata doc) "type" = PStr t /\
    (plain_text d = true /\ is_header_line d = true) /\
    plain_text nm = true /\
    (plain_text t = true /\ t <> [] /\ contains (py "Type: ") t = false) /\
    summary_line (metadata doc)
    = newline :: format_summary d nm
                   (py_str (get (metadata doc) "distance"))
                   (py_str (get (metadata doc) "pace"))
                   (py_str (get (metadata doc) "avg_hr"))
                   (py_str (get (metadata doc) "elevation_gain")) t.
Proof.
  destruct wf as [(d & Hd & Hd1 & Hd2) (nm & Hnm & Hnm1) (t & Ht & Ht1 & Ht2 & Ht3)
                  _ _ _ _ _ _ _].
  assert (Gd : get (metadata doc) "date" = PStr d) by (unfold get; rewrite Hd; reflexivity).
  assert (Gn : get (metadata doc) "name" = PStr nm) by (unfold get; rewrite Hnm; reflexivity).
  assert (Gt : get (metadata doc) "type" = PStr t) by (unfold get; rewrite Ht; reflexivity).
  exists d, nm, t. repeat split; try assumption.
  unfold summary_line, format_summary. rewrite Gd, Gn, Gt. reflexivity.
Qed.

Lemma wf_run_of_metadata (r : Row) :
  parent_of r = run_of_metadata (metadata doc) ->
  carries_metadata (metadata doc) r /\
  (numbers_present (metadata doc) -> matches_metadata (metadata doc) r).
Proof.
  destruct wf_summary_line as (d & nm & t & Gd & Gn & Gt & _).
  unfold run_of_metadata, parent_of. rewrite Gd, Gn, Gt. cbn [text_of].
  intros H. injection H as H1 H2 H3 H4 H5 H6 H7.
  unfold carries_metadata, matches_metadata.
  rewrite Gd, Gn, Gt, H1, H2, H3, H4, H5, H6, H7. split.
  - repeat split; try reflexivity; apply stored_number_read_back, wf.
  - intros Hall. unfold numbers_present in Hall.
    repeat match goal with
    | H : Forall _ (_ :: _) |- _ =>
        let n := fresh "n" in
        let E := fresh "E" in
        apply Forall_cons in H as [[n E] H];
        unfold get; rewrite E; cbn [default value_of]
    end.
    unfold number_is. repeat split; eauto.
Qed.

(** The lines the document contributes to the context: an empty line, its
    summary line and its breakdown. *)
Lemma wf_doc_lines :
  exists line,
    opens_run line = true /\
    parse_header (strip line) = Ok (Some (run_of_metadata (metadata doc))) /\
    only_newlines (summary_line (metadata doc)) = true /\
    flat_map (split newline) (context_lines true doc)
    = [] :: line :: match breakdown doc with [] => [[]] | ls => ls end.
Proof.
  destruct wf_summary_line
    as (d & nm & t & Gd & Gn & Gt & [Hd1 Hd2] & Hnm1 & (Ht1 & Ht2 & Ht3) & Hline).
  destruct (stored_number_text _ (wf_distance doc wf)) as [Td Fd].
  destruct (stored_number_text _ (wf_pace doc wf)) as [Tp Fp].
  destruct (stored_number_text _ (wf_avg_hr doc wf)) as [Th Fh].
  destruct (stored_number_text _ (wf_elevation doc wf)) as [Te Fe].
  set (line := format_summary d nm
                 (py_str (get (metadata doc) "distance"))
                 (py_str (get (metadata doc) "pace"))
                 (py_str (get (metadata doc) "avg_hr"))
                 (py_str (get (metadata doc) "elevation_gain")) t) in *.
  assert (Hnl : no_linebreak line = true)
    by (apply summary_no_linebreak; assumption).
  assert (Hstrip : strip line = line) by (apply summary_strip; assumption).
  exists line. repeat split.
  - unfold opens_run. rewrite Hstrip. apply summary_opens_run; assumption.
  - rewrite Hstrip. unfold line.
    rewrite summary_parse by assumption.
    rewrite Fd, Fp, Fh, Fe. rewrite !res_bind_ok.
    unfold run_of_metadata. rewrite Gd, Gn, Gt. reflexivity.
  - rewrite Hline. simpl. apply no_linebreak_only_newlines, Hnl.
  - unfold context_lines.
    change (flat_map (split newline) [summary_line (metadata doc); km_data doc])
      with (split newline (summary_line (metadata doc))
            ++ split newline (km_data doc) ++ []).
    rewrite Hline, app_nil_r.
    change (split newline (newline :: line)) with ([] :: split newline line).
    rewrite (split_free newline line (no_linebreak_free line Hnl)).
    simpl app. do 2 f_equal.
    unfold km_data. fold (breakdown doc).
    destruct (breakdown doc) as [|l ls] eqn:E; [reflexivity|].
    apply split_join; [discriminate|].
    rewrite <- E. unfold breakdown. apply Forall_drop, split_parts_free.
Qed.

Lemma wf_km_data_only_newlines : only_newlines (km_data doc) = true.
Proof.
  unfold km_data. apply join_only_newlines, Forall_drop, split_only_newlines.
  apply wf.
Qed.

Lemma wf_rows_count : length (rows_of_doc doc) = split_count doc.
Proof.
  unfold rows_of_doc, split_count, breakdown. rewrite km_rows_length.
  apply (km_lines_after_summary 8).
  - apply (wf_summary doc wf).
  - apply (wf_breakdown doc wf).
Qed.

Lemma wf_rows_match :
  Forall (fun r => carries_metadata (metadata doc) r
                   /\ (numbers_present (metadata doc)
                       -> matches_metadata (metadata doc) r))
    (rows_of_doc doc).
Proof.
  eapply List.Forall_impl; [|apply km_rows_parent].
  intros r H. apply wf_run_of_metadata. exact H.
Qed.

Lemma wf_rows_dates :
  map date (rows_of_doc doc)
  = replicate (split_count doc) (text_of (get (metadata doc) "date")).
Proof.
  rewrite <- wf_rows_count.
  pose proof (km_rows_parent (Some (run_of_metadata (metadata doc))) (breakdown doc))
    as H.
  fold (rows_of_doc doc) in H.
  induction H as [|r rows Hr _ IH]; [reflexivity|].
  cbn [map length replicate]. rewrite IH. f_equal.
  apply (f_equal h_date) in Hr. exact Hr.
Qed.

(** The loop over the lines of the document: whatever run was open, the
    summary line opens the run of the document and the breakdown gives
    its rows. *)
Lemma wf_doc_rows (current_run : option RunHeader) (rest : list str) :
  rows_of_lines current_run
    (flat_map (split newline) (context_lines true doc) ++ rest)
  = rows_of_lines (Some (run_of_metadata (metadata doc))) rest
      ≫= λ rows, Ok (rows_of_doc doc ++ rows).
Proof.
  destruct wf_doc_lines as (line & Hopen & Hparse & _ & ->).
  change (([] :: line :: match breakdown doc with [] => [[]] | ls => ls end) ++ rest)
    with ([] :: line :: (match breakdown doc with [] => [[]] | ls => ls end ++ rest)).
  change (rows_of_lines current_run ([] :: ?l)) with (rows_of_lines current_run l).
  rewrite (rows_of_lines_header current_run line _ Hopen), Hparse, res_bind_ok.
  unfold rows_of_doc.
  destruct (breakdown doc) as [|l ls] eqn:E.
  - change (rows_of_lines ?c ([[]] ++ rest)) with (rows_of_lines c rest).
    destruct (rows_of_lines _ rest); reflexivity.
  - rewrite <- E. apply rows_of_lines_no_header.
    eapply List.Forall_impl; [|apply (wf_breakdown doc wf)].
    intros raw [H _]. exact H.
Qed.

End OneDocument.

(** ** The round trip *)

Lemma flat_map_nested {A B C : Type} (f : B -> list C) (g : A -> list B)
    (l : list A) :
  flat_map f (flat_map g l) = flat_map (fun x => flat_map f (g x)) l.
Proof.
  induction l as [|x l IH]; simpl; [reflexivity|].
  rewrite flat_map_app, IH. reflexivity.
Qed.

Lemma context_rows (docs : list Document) (current_run : option RunHeader) :
  Forall well_formed docs ->
  rows_of_lines current_run
    (flat_map (fun doc => flat_map (split newline) (context_lines true doc)) docs)
  = Ok (concat (map rows_of_doc docs)).
Proof.
  intros H. revert current_run.
  induction H as [|doc docs Hdoc _ IH]; intros cur; [reflexivity|].
  change (flat_map ?f (doc :: docs)) with (f doc ++ flat_map f docs). cbv beta.
  rewrite (wf_doc_rows doc Hdoc), IH, res_bind_ok.
  reflexivity.
Qed.

Lemma context_only_newlines (docs : list Document) :
  Forall well_formed docs ->
  only_newlines (join [newline] (flat_map (context_lines true) docs)) = true.
Proof.
  intros H. apply join_only_newlines.
  induction H as [|doc docs Hdoc _ IH]; simpl; [constructor|].
  constructor; [|constructor; [|exact IH]].
  - destruct (wf_doc_lines doc Hdoc) as (line & _ & _ & Hnl & _). exact Hnl.
  - apply wf_km_data_only_newlines, Hdoc.
Qed.

Lemma docs_to_context_rows (docs : list Document) :
  Forall well_formed docs ->
  rows_of_context (docs_to_context docs true)
  = Ok (concat (map rows_of_doc docs)).
Proof.
  intros H. destruct docs as [|doc docs]; [reflexivity|].
  unfold rows_of_context, docs_to_context.
  rewrite rows_of_splitlines by (apply context_only_newlines, H).
  rewrite split_join_flat by discriminate.
  rewrite flat_map_nested. apply context_rows, H.
Qed.

Lemma length_concat_groups (docs : list Document) :
  Forall well_formed docs ->
  length (concat (map rows_of_doc docs)) = sum_list (map split_count docs).
Proof.
  induction 1 as [|doc docs Hdoc _ IH]; simpl; [reflexivity|].
  rewrite length_app, IH, (wf_rows_count doc Hdoc). reflexivity.
Qed.

Lemma dates_of_rows (docs : list Document) :
  Forall well_formed docs ->
  map date (concat (map rows_of_doc docs)) = dates_of_docs docs.
Proof.
  induction 1 as [|doc docs Hdoc _ IH]; [reflexivity|].
  cbn [map concat]. rewrite map_app, IH, (wf_rows_dates doc Hdoc). reflexivity.
Qed.

(** The frame of a context from the rows of its loop. *)
Lemma frame_of_rows (Timestamp : Type) (to_datetime : list str -> res (list Timestamp))
    (context : str) (rows : list Row) (dates : list Timestamp) :
  rows_of_context context = Ok rows ->
  to_datetime (map date rows) = Ok dates ->
  context_to_dataframe Timestamp to_datetime context
  = Ok {| records := rows; date_column := column_of rows dates |}.
Proof.
  intros Hrows Hdates. unfold context_to_dataframe.
  rewrite Hrows, res_bind_ok. destruct rows as [|r rows]; [reflexivity|].
  rewrite Hdates. reflexivity.
Qed.

(** C1, as stated, fails: the stored run has no [avg_hr]; the summary
    line prints [None] for it and the only row of the frame carries the
    number 0, which is not the stored value.  The date of the run is one
    the frame library converts. *)
Lemma missing_hr_reads_back_as_zero :
  get (metadata morning_run) "avg_hr" = PNone /\
  split_count morning_run = 1 /\
  exists row stamp,
    context_to_dataframe (option datetime) stored_format_to_datetime
      (docs_to_context [morning_run] true)
    = Ok {| records := [row]; date_column := [stamp] |} /\
    avg_hr row = 0%Q /\
    ~ matches_metadata (metadata morning_run) row.
Proof.
  split; [reflexivity|]. split; [reflexivity|].
  eexists. eexists. split; [vm_compute; reflexivity|]. split; [reflexivity|].
  intros (_ & _ & _ & _ & (n & Hn & _) & _). discriminate Hn.
Qed.

(** C1, amended: for stored documents whose date, name and type are plain
    texts, whose distance, pace, heart rate and elevation are numbers
    that are not negative or are missing, and whose text keeps its per-KM
    lines, all convertible, after the eight lines of the summary,
    serializing them with the breakdown and deserializing the result
    gives, whenever the frame library converts the dates of the
    documents, the frame of the rows of the documents in order: as many
    rows for a document as its text has per-KM lines, hence the sum of
    these counts in all; in every row the date, name and type of its
    source document, each number that is stored, and 0 for each number
    that is missing; and for its date column the converted dates of the
    documents, one for each row. *)
Theorem context_round_trip (Timestamp : Type)
    (to_datetime : list str -> res (list Timestamp))
    (docs : list Document) (dates : list Timestamp) :
  Forall well_formed docs ->
  to_datetime (dates_of_docs docs) = Ok dates ->
  exists groups : list (list Row),
    context_to_dataframe Timestamp to_datetime (docs_to_context docs true)
    = Ok {| records := concat groups;
            date_column := column_of (concat groups) dates |} /\
    map date (concat groups) = dates_of_docs docs /\
    length (concat groups) = sum_list (map split_count docs) /\
    Forall2 (fun doc rows =>
               length rows = split_count doc
               /\ Forall (carries_metadata (metadata doc)) rows
               /\ (numbers_present (metadata doc)
                   -> Forall (matches_metadata (metadata doc)) rows))
      docs groups.
Proof.
  intros H Hdates. exists (map rows_of_doc docs).
  pose proof (dates_of_rows docs H) as Hcolumn. repeat split.
  - apply frame_of_rows; [apply docs_to_context_rows, H|].
    rewrite Hcolumn. exact Hdates.
  - exact Hcolumn.
  - apply length_concat_groups, H.
  - clear Hdates Hcolumn.
    induction H as [|doc docs Hdoc _ IH]; simpl; constructor; [|exact IH].
    pose proof (wf_rows_match doc Hdoc) as Hrows.
    split; [apply wf_rows_count, Hdoc|]. split.
    + eapply List.Forall_impl; [|exact Hrows]. intros r [Hr _]. exact Hr.
    + intros Hall. eapply List.Forall_impl; [|exact Hrows].
      intros r [_ Hr]. exact (Hr Hall).
Qed.

Ltac list_all tac :=
  match goal with
  | |- Forall ?P ?l =>
      let l' := eval vm_compute in l in
      change (Forall P l'); repeat (constructor; [tac|]); try constructor
  end.

Ltac check_stored_number :=
  first [left; reflexivity | right; eexists; split; reflexivity].

Ltac check_well_formed :=
  constructor;
  [ eexists; repeat split; reflexivity
  | eexists; repeat split; reflexivity
  | eexists; split; [reflexivity | split; [reflexivity | split; [discriminate | reflexivity]]]
  | check_stored_number
  | check_stored_number
  | check_stored_number
  | check_stored_number
  | reflexivity
  | list_all ltac:(reflexivity)
  | list_all ltac:(split; [reflexivity | intros H; first [reflexivity | discriminate H]]) ].

Lemma context_round_trip_witness :
  exists groups : list (list Row),
    context_to_dataframe (option datetime) stored_format_to_datetime
      (docs_to_context [tempo_run_2; morning_run; easy_run_5] true)
    = Ok {| records := concat groups;
            date_column :=
              [strptime (py "2025-07-31 06:08:32"); strptime (py "2025-07-31 06:08:32");
               strptime (py "2025-07-30 07:00:00")] |} /\
    length (concat groups) = 3.
Proof.
  destruct (context_round_trip (option datetime) stored_format_to_datetime
              [tempo_run_2; morning_run; easy_run_5]
              [strptime (py "2025-07-31 06:08:32"); strptime (py "2025-07-31 06:08:32");
               strptime (py "2025-07-30 07:00:00")])
    as (groups & Hframe & _ & Hlen & _).
  - repeat (constructor; [check_well_formed|]). constructor.
  - vm_compute. reflexivity.
  - exists groups. split; [|rewrite Hlen; reflexivity].
    rewrite Hframe. f_equal. f_equal.
    destruct (concat groups); [discriminate Hlen | reflexivity].
Defined.

(** * Further properties of the retrieval *)

Lemma post_filter_kept (query : Query) (pool kept : list Document) :
  post_filter query pool = Ok kept ->
  sublist kept pool /\
  Forall (fun d => skipped query (metadata d) = Ok false) kept.
Proof.
  revert kept. induction pool as [|doc pool IH]; simpl; intros kept H.
  - injection H as <-. split; constructor.
  - destruct (skipped query (metadata doc)) as [s|e] eqn:Es; [|discriminate H].
    simpl in H. destruct (post_filter query pool) as [rest|e]; [|discriminate H].
    simpl in H. injection H as <-. destruct (IH rest eq_refl) as [Hsub Hall].
    destruct s.
    + split; [apply sublist_cons, Hsub | exact Hall].
    + split; [apply sublist_skip, Hsub | constructor; assumption].
Qed.

Lemma sort_reverse_perm {A K : Type} (lt : K -> K -> option bool) (key : A -> K)
    (l sorted : list A) :
  sort_reverse lt key l = Ok sorted -> Permutation sorted l.
Proof.
  unfold sort_reverse. destruct l as [|x [|y l]].
  - intros [= <-]. reflexivity.
  - intros [= <-]. reflexivity.
  - destruct (all_comparable lt key (x :: y :: l)); [|discriminate].
    intros [= <-]. apply (sort_desc_perm lt key (x :: y :: l)).
Qed.

Lemma slice_to_sublist {A : Type} (n : Z) (l : list A) : sublist (slice_to n l) l.
Proof. unfold slice_to. destruct (0 <=? n)%Z; apply sublist_take. Qed.

(** The ways [retrieve_runs] returns. *)
Lemma retrieve_runs_returns (vs : VectorStore) (query : Query) (top_k : nat)
    (docs : list Document) :
  retrieve_runs vs query top_k = Ok docs ->
  (stored vs = [] /\ docs = []) \/
  exists kept,
    post_filter query
      (similarity_search vs (active truthy_str (type query)) (top_k * 3)) = Ok kept /\
    ((active truthy_int (last_n_runs query) = None /\ docs = take top_k kept) \/
     (exists n sorted,
        active truthy_int (last_n_runs query) = Some n /\
        sort_reverse lt_pyval date_of kept = Ok sorted /\
        docs = take top_k (slice_to n sorted))).
Proof.
  unfold retrieve_runs. destruct (stored vs) as [|d0 l0].
  - intros [= <-]. left. split; reflexivity.
  - intros H. right.
    destruct (post_filter query _) as [kept|e]; [|discriminate H].
    exists kept. split; [reflexivity|]. rewrite res_bind_ok in H.
    destruct (active truthy_int (last_n_runs query)) as [n|].
    + destruct (sort_reverse lt_pyval date_of kept) as [sorted|e]; [|discriminate H].
      simpl in H. injection H as <-. right. exists n, sorted. repeat split.
    + simpl in H. injection H as <-. left. split; reflexivity.
Qed.

(** X1: whatever the query and the store, [retrieve_runs] returns at most
    [top_k] documents. *)
Theorem retrieve_runs_at_most_top_k (vs : VectorStore) (query : Query)
    (top_k : nat) (docs : list Document) :
  retrieve_runs vs query top_k = Ok docs -> length docs <= top_k.
Proof.
  intros H. destruct (retrieve_runs_returns vs query top_k docs H)
    as [[_ ->]|(kept & _ & [[_ ->]|(n & sorted & _ & _ & ->)])].
  - simpl. lia.
  - rewrite length_take. lia.
  - rewrite length_take. lia.
Qed.

Lemma retrieve_runs_at_most_top_k_witness :
  length [tempo_run; manual_run] <= top_k_default.
Proof.
  apply (retrieve_runs_at_most_top_k two_runs no_filter top_k_default).
  reflexivity.
Defined.

(** The documents returned are taken from those the post-filter kept. *)
Lemma returned_among_kept (vs : VectorStore) (query : Query) (top_k : nat)
    (docs : list Document) :
  retrieve_runs vs query top_k = Ok docs ->
  docs = [] \/
  exists kept,
    post_filter query
      (similarity_search vs (active truthy_str (type query)) (top_k * 3)) = Ok kept /\
    forall d, In d docs -> In d kept.
Proof.
  intros H. destruct (retrieve_runs_returns vs query top_k docs H)
    as [[_ ->]|(kept & Hkept & Hdocs)]; [left; reflexivity|].
  right. exists kept. split; [exact Hkept|].
  destruct Hdocs as [[_ ->]|(n & sorted & _ & Hsort & ->)]; intros d Hd.
  - apply list_elem_of_In. apply list_elem_of_In in Hd.
    eapply elem_of_sublist; [exact Hd | apply sublist_take].
  - apply list_elem_of_In in Hd.
    assert (Hs : d ∈ sorted).
    { eapply elem_of_sublist; [exact Hd|].
      etransitivity; [apply sublist_take | apply slice_to_sublist]. }
    apply list_elem_of_In in Hs.
    eapply Permutation_in; [apply (sort_reverse_perm _ _ _ _ Hsort) | exact Hs].
Qed.

(** X2: every document [retrieve_runs] returns was among the first
    [3 * top_k] candidates of the similarity search and is skipped by none
    of the checks of the query. *)
Theorem retrieve_runs_returns_kept_candidates (vs : VectorStore) (query : Query)
    (top_k : nat) (docs : list Document) :
  retrieve_runs vs query top_k = Ok docs ->
  Forall (fun d =>
            In d (similarity_search vs (active truthy_str (type query)) (top_k * 3))
            /\ skipped query (metadata d) = Ok false) docs.
Proof.
  intros H. destruct (returned_among_kept vs query top_k docs H)
    as [->|(kept & Hkept & Hin)]; [constructor|].
  destruct (post_filter_kept query _ kept Hkept) as [Hsub Hall].
  apply List.Forall_forall. intros d Hd. specialize (Hin d Hd). split.
  - apply list_elem_of_In. eapply elem_of_sublist; [|exact Hsub].
    apply list_elem_of_In, Hin.
  - rewrite List.Forall_forall in Hall. apply Hall, Hin.
Qed.

Lemma retrieve_runs_returns_kept_candidates_witness :
  Forall (fun d => In d (similarity_search two_runs (Some (py "Tempo")) (top_k_default * 3))
                   /\ skipped tempo_only (metadata d) = Ok false) [tempo_run].
Proof.
  apply (retrieve_runs_returns_kept_candidates two_runs tempo_only top_k_default).
  reflexivity.
Defined.

Lemma or_skip_false (c rest : res bool) :
  or_skip c rest = Ok false -> c = Ok false /\ rest = Ok false.
Proof.
  unfold or_skip. destruct c as [[]|e]; simpl; intros H;
    first [discriminate H | split; [reflexivity | exact H]].
Qed.

Lemma get_is_string (meta : gmap string pyval) (k : string) (s : str) :
  get meta k = PStr s -> meta !! k = Some (PStr s).
Proof.
  unfold get. destruct (meta !! k) as [v|]; simpl; [congruence | discriminate].
Qed.

(** X3: when the query names a type, every document [retrieve_runs]
    returns stores exactly that string as its type; nothing is matched
    in part or with another case. *)
Theorem type_filter_is_exact (vs : VectorStore) (query : Query) (t : str)
    (top_k : nat) (docs : list Document) :
  type query = Some t -> t <> [] ->
  retrieve_runs vs query top_k = Ok docs ->
  Forall (fun d => metadata d !! "type" = Some (PStr t)) docs.
Proof.
  intros Ht Hne H.
  destruct (returned_among_kept vs query top_k docs H)
    as [->|(kept & Hkept & Hin)]; [constructor|].
  destruct (post_filter_kept query _ kept Hkept) as [_ Hall].
  rewrite List.Forall_forall in Hall.
  apply List.Forall_forall. intros d Hdocs.
  pose proof (Hall d (Hin d Hdocs)) as Hd. cbv beta in Hd.
  unfold skipped in Hd. apply or_skip_false in Hd as [Hd _].
  unfold skip_type in Hd. rewrite Ht in Hd.
  rewrite active_true in Hd by (destruct t; [congruence | reflexivity]).
  injection Hd as Hd. apply get_is_string.
  destruct (get (metadata d) "type") as [|n|s]; simpl in Hd; try discriminate.
  apply negb_false_iff in Hd. unfold str_eqb in Hd.
  apply bool_decide_eq_true in Hd. congruence.
Qed.

Lemma type_filter_is_exact_witness :
  Forall (fun d => metadata d !! "type" = Some (PStr (py "Tempo"))) [tempo_run].
Proof.
  apply (type_filter_is_exact two_runs tempo_only (py "Tempo") top_k_default).
  - reflexivity.
  - discriminate.
  - reflexivity.
Defined.

Lemma list_filter_sublist {A : Type} (f : A -> bool) (l : list A) :
  sublist (List.filter f l) l.
Proof.
  induction l as [|x l IH]; simpl; [constructor|].
  destruct (f x); [apply sublist_skip | apply sublist_cons]; exact IH.
Qed.

Lemma similarity_search_sublist (vs : VectorStore) (primary_filter : option str)
    (k : nat) :
  sublist (similarity_search vs primary_filter k) (nearest vs).
Proof.
  unfold similarity_search. etransitivity; [apply sublist_take|].
  destruct primary_filter; [apply list_filter_sublist | reflexivity].
Qed.

(** X4: while [last_n_runs] is not set, [retrieve_runs] does not reorder:
    the documents it returns stand in the order in which the similarity
    search ranks them. *)
Theorem retrieve_runs_keeps_ranking (vs : VectorStore) (query : Query)
    (top_k : nat) (docs : list Document) :
  active truthy_int (last_n_runs query) = None ->
  retrieve_runs vs query top_k = Ok docs ->
  sublist docs (nearest vs).
Proof.
  intros Hn H. destruct (retrieve_runs_returns vs query top_k docs H)
    as [[_ ->]|(kept & Hkept & [[_ ->]|(n & sorted & Hn' & _)])].
  - apply sublist_nil_l.
  - destruct (post_filter_kept query _ kept Hkept) as [Hsub _].
    etransitivity; [apply sublist_take|].
    etransitivity; [exact Hsub | apply similarity_search_sublist].
  - congruence.
Qed.

Lemma retrieve_runs_keeps_ranking_witness :
  sublist [tempo_run; manual_run] (nearest two_runs).
Proof.
  apply (retrieve_runs_keeps_ranking two_runs all_falsy top_k_default).
  - reflexivity.
  - reflexivity.
Defined.

(** ** Heart-rate bounds that exclude each other *)

Lemma Qltb_true (x y : Q) : Qltb x y = true <-> (x < y)%Q.
Proof.
  unfold Qltb. rewrite negb_true_iff. split.
  - intros H. apply Qnot_le_lt. intros Hle. apply Qle_bool_iff in Hle. congruence.
  - intros H. destruct (Qle_bool y x) eqn:E; [|reflexivity].
    apply Qle_bool_iff in E. lra.
Qed.

Lemma Qltb_false (x y : Q) : Qltb x y = false <-> (y <= x)%Q.
Proof.
  unfold Qltb. rewrite negb_false_iff. apply Qle_bool_iff.
Qed.

Lemma skipped_by_excluding_bounds (query : Query) (lo hi : pynum) (doc : Document) :
  min_avg_hr query = Some lo -> max_avg_hr query = Some hi ->
  truthy_num lo = true -> truthy_num hi = true ->
  Qltb (num_value hi) (num_value lo) = true ->
  hr_number_or_absent doc ->
  skipped query (metadata doc) = Ok true.
Proof.
  intros Hlo Hhi Tlo Thi Hlt Hdoc. apply Qltb_true in Hlt.
  unfold skipped. unfold or_skip at 1.
  assert (Htype : exists b, skip_type query (metadata doc) = Ok b).
  { unfold skip_type. destruct (active truthy_str (type query)); eauto. }
  destruct Htype as [[] ->]; [reflexivity|]. rewrite res_bind_ok.
  unfold skip_min_avg_hr, skip_max_avg_hr, get_or.
  rewrite Hlo, Hhi, (active_true _ _ Tlo), (active_true _ _ Thi).
  destruct Hdoc as [->|[n ->]]; simpl.
  - unfold or_skip at 1. simpl.
    destruct (Qltb (num_value (pyint "0")) (num_value lo)) eqn:E; [reflexivity|].
    apply Qltb_false in E. change (num_value (pyint "0")) with 0%Q in E.
    unfold or_skip at 1. simpl.
    replace (Qltb (num_value hi) (num_value (pyint "9999"))) with true; [reflexivity|].
    symmetry. apply Qltb_true. change (num_value (pyint "9999")) with 9999%Q. lra.
  - unfold or_skip at 1. simpl.
    destruct (Qltb (num_value n) (num_value lo)) eqn:E; [reflexivity|].
    apply Qltb_false in E. unfold or_skip at 1. simpl.
    replace (Qltb (num_value hi) (num_value n)) with true; [reflexivity|].
    symmetry. apply Qltb_true. lra.
Qed.

Lemma post_filter_skips_all (query : Query) (pool : list Document) :
  Forall (fun d => skipped query (metadata d) = Ok true) pool ->
  post_filter query pool = Ok [].
Proof.
  induction 1 as [|doc pool Hdoc _ IH]; simpl; [reflexivity|].
  rewrite Hdoc, IH. reflexivity.
Qed.

(** ** The dates the program writes *)
















(** When no candidate passes the checks of the filter, the filtered
    retrieval returns nothing. *)
Lemma all_skipped_nothing_found (vs : VectorStore) (query : Query) :
  active truthy_list (run_names query) = None ->
  Forall (fun d => skipped query (metadata d) = Ok true) (nearest vs) ->
  nothing_found vs query.
Proof.
  intros Hnames Hall. unfold nothing_found. rewrite Hnames.
  unfold retrieve_runs. destruct (stored vs) as [|d0 l0]; [reflexivity|].
  cbv zeta.
  rewrite post_filter_skips_all.
  2:{ apply List.Forall_forall. intros d Hd. rewrite List.Forall_forall in Hall.
      apply Hall. apply list_elem_of_In.
      eapply elem_of_sublist; [apply list_elem_of_In, Hd | apply similarity_search_sublist]. }
  rewrite res_bind_ok.
  destruct (active truthy_int (last_n_runs query)) as [n|]; [|reflexivity].
  cbn. unfold slice_to. destruct (0 <=? n)%Z; rewrite take_nil; reflexivity.
Qed.



(** X5: a query whose heart-rate bounds exclude each other (the upper
    bound below the lower one, both set) selects nothing from a store
    whose heart rates are numbers or missing: [retrieve_runs] returns the
    empty list without raising, and the retrieval goes to the latest
    runs. *)
Theorem excluding_hr_bounds_select_nothing (vs : VectorStore) (query : Query)
    (lo hi : pynum) (top_k : nat) :
  min_avg_hr query = Some lo -> max_avg_hr query = Some hi ->
  truthy_num lo = true -> truthy_num hi = true ->
  Qltb (num_value hi) (num_value lo) = true ->
  Forall hr_number_or_absent (nearest vs) ->
  retrieve_runs vs query top_k = Ok [] /\
  (active truthy_list (run_names query) = None ->
   retrieved_docs vs query = get_latest_runs vs 5).
Proof.
  intros Hlo Hhi Tlo Thi Hlt Hall.
  assert (Hpf : forall k, post_filter query
            (similarity_search vs (active truthy_str (type query)) k) = Ok []).
  { intros k. apply post_filter_skips_all. apply List.Forall_forall. intros d Hd.
    apply (skipped_by_excluding_bounds query lo hi d); try assumption.
    rewrite List.Forall_forall in Hall. apply Hall.
    apply list_elem_of_In. eapply elem_of_sublist;
      [apply list_elem_of_In, Hd | apply similarity_search_sublist]. }
  assert (Hret : forall k, retrieve_runs vs query k = Ok []).
  { intros k. unfold retrieve_runs. destruct (stored vs); [reflexivity|].
    rewrite Hpf, res_bind_ok.
    destruct (active truthy_int (last_n_runs query)) as [n|]; simpl.
    - unfold slice_to. destruct (0 <=? n)%Z; rewrite !take_nil; reflexivity.
    - rewrite take_nil. reflexivity. }
  split; [apply Hret|].
  intros Hnames. unfold retrieved_docs. rewrite Hnames, Hret. reflexivity.
Qed.

Lemma excluding_hr_bounds_select_nothing_witness :
  retrieve_runs two_runs hr_between_170_and_150 top_k_default = Ok [].
Proof.
  refine (proj1 (excluding_hr_bounds_select_nothing two_runs hr_between_170_and_150
                   (pyint "170") (pyint "150") top_k_default _ _ _ _ _ _));
    try reflexivity.
  constructor; [right; eexists; reflexivity|].
  constructor; [left; reflexivity | constructor].
Defined.

Lemma latest_runs_of_parsed_dates_witness :
  get_latest_runs two_runs 5 = Ok [tempo_run; manual_run].
Proof.
  refine (eq_trans (proj1 (latest_runs_of_parsed_dates two_runs _)) _).
  - repeat constructor; eexists; reflexivity.
  - reflexivity.
Defined.

(** ** A candidate without distance *)

Lemma skipped_distance_only (m : pynum) (doc : Document) :
  truthy_num m = true ->
  skipped (distance_only m) (metadata doc)
  = match metadata doc !! "distance" with
    | Some (PNum n) => Ok (Qltb (num_value n) (num_value m))
    | _ => Raise TypeError
    end.
Proof.
  intros Hm. unfold skipped, skip_type, skip_min_avg_hr, skip_max_avg_hr,
    skip_distance_km, skip_start_date, skip_end_date, skip_run_names, get.
  simpl. rewrite Hm. unfold or_skip. simpl.
  destruct (metadata doc !! "distance") as [[|n|s]|]; simpl; try reflexivity.
  destruct (Qltb (num_value n) (num_value m)); reflexivity.
Qed.

Lemma post_filter_distance_raises (m : pynum) (pool : list Document) :
  truthy_num m = true ->
  Forall (fun d => metadata d !! "distance" = None
                   \/ exists n, metadata d !! "distance" = Some (PNum n)) pool ->
  Exists (fun d => metadata d !! "distance" = None) pool ->
  post_filter (distance_only m) pool = Raise TypeError.
Proof.
  intros Hm Hall Hex. induction Hex as [doc pool Hdoc|doc pool Hex IH].
  - simpl. rewrite (skipped_distance_only m doc Hm), Hdoc. reflexivity.
  - inversion Hall as [|? ? Hd Hrest]; subst. simpl.
    rewrite (skipped_distance_only m doc Hm), (IH Hrest).
    destruct Hd as [->|[n ->]]; reflexivity.
Qed.

(** X8: the distance check has no default for a missing value.  With
    [distance_km] set, a candidate without the [distance] key is compared
    as [None] and [retrieve_runs] raises [TypeError] instead of returning
    the other candidates. *)
Theorem missing_distance_raises (vs : VectorStore) (m : pynum) (top_k : nat) :
  truthy_num m = true ->
  stored vs <> [] ->
  Forall (fun d => metadata d !! "distance" = None
                   \/ exists n, metadata d !! "distance" = Some (PNum n))
    (take (top_k * 3) (nearest vs)) ->
  Exists (fun d => metadata d !! "distance" = None) (take (top_k * 3) (nearest vs)) ->
  retrieve_runs vs (distance_only m) top_k = Raise TypeError.
Proof.
  intros Hm Hstore Hall Hex. unfold retrieve_runs.
  destruct (stored vs); [congruence|].
  change (similarity_search vs (active truthy_str (type (distance_only m)))
            (top_k * 3)) with (take (top_k * 3) (nearest vs)).
  rewrite (post_filter_distance_raises m _ Hm Hall Hex). reflexivity.
Qed.

Lemma missing_distance_raises_witness :
  retrieve_runs store_with_gap (distance_only (pyint "5")) top_k_default
  = Raise TypeError.
Proof.
  apply missing_distance_raises.
  - reflexivity.
  - discriminate.
  - constructor; [right; eexists; reflexivity|].
    constructor; [left; reflexivity | constructor].
  - apply Exists_cons_tl, Exists_cons_hd. reflexivity.
Defined.

(** ** Names listed and names looked up *)

Lemma startswith_refl (s : str) : startswith s s = true.
Proof.
  unfold startswith. induction s as [|c s IH]; simpl; [reflexivity|].
  rewrite Ascii.eqb_refl. exact IH.
Qed.

Lemma contains_refl (s : str) : contains s s = true.
Proof.
  destruct s as [|c s]; [reflexivity|].
  change (contains (c :: s) (c :: s))
    with (startswith (c :: s) (c :: s) || contains (c :: s) s).
  rewrite startswith_refl. reflexivity.
Qed.

Lemma listed_name_is_stored (vs : VectorStore) (v : pyval) :
  In v (get_existing_run_names vs) ->
  exists doc, In doc (stored vs) /\ metadata doc !! "name" = Some v.
Proof.
  unfold get_existing_run_names. intros H.
  assert (H' : In v (flat_map (fun doc => match metadata doc !! "name" with
                                          | Some name => [name]
                                          | None => []
                                          end) (stored vs))).
  { destruct (stored vs); [contradiction | exact H]. }
  apply in_flat_map in H' as (doc & Hdoc & Hv). exists doc. split; [exact Hdoc|].
  destruct (metadata doc !! "name") as [name|]; [|contradiction].
  destruct Hv as [->|[]]. reflexivity.
Qed.

(** X7: a name that [get_existing_run_names] lists can be looked up: when
    the stored names are strings, [get_runs_by_names] called with a listed
    name returns a document that carries exactly that name. *)
Theorem listed_names_are_found (vs : VectorStore) (v : pyval) :
  Forall (fun d => exists s, stored_name d = PStr s) (stored vs) ->
  In v (get_existing_run_names vs) ->
  exists name found doc,
    v = PStr name /\
    get_runs_by_names vs [name] = Ok found /\
    In doc found /\
    metadata doc !! "name" = Some (PStr name).
Proof.
  intros Hnames Hv.
  destruct (listed_name_is_stored vs v Hv) as (doc & Hdoc & Hname).
  assert (Hs : exists s, stored_name doc = PStr s).
  { rewrite List.Forall_forall in Hnames. apply Hnames, Hdoc. }
  destruct Hs as [name Hs]. unfold stored_name, get_or in Hs.
  rewrite Hname in Hs. simpl in Hs. subst v.
  exists name, (List.filter (name_matches [name]) (stored vs)), doc.
  repeat split.
  - unfold get_runs_by_names. rewrite <- (matching_docs_filter [name] _ Hnames).
    destruct (stored vs); reflexivity.
  - apply filter_In. split; [exact Hdoc|].
    unfold name_matches, stored_name, get_or. rewrite Hname. simpl.
    rewrite contains_refl. reflexivity.
  - exact Hname.
Qed.

Lemma listed_names_are_found_witness :
  exists name found doc,
    PStr (py "Tempo Run - 2") = PStr name /\
    get_runs_by_names two_runs [name] = Ok found /\
    In doc found /\
    metadata doc !! "name" = Some (PStr name).
Proof.
  apply (listed_names_are_found two_runs).
  - repeat constructor; eexists; reflexivity.
  - right. left. reflexivity.
Defined.

(** * Further properties of the deserializer *)

Lemma find_labeled_not_here (cls : ascii -> bool) (label : str) (c : ascii) (s : str) :
  strip_prefix label (c :: s) = None ->
  find_labeled cls label (c :: s) = find_labeled cls label s.
Proof. intros H. simpl find_labeled at 1. rewrite H. reflexivity. Qed.

Lemma find_labeled_here (cls : ascii -> bool) (label : str) (c : ascii)
    (s rest tok : str) :
  strip_prefix label (c :: s) = Some rest ->
  span_while cls rest = tok -> tok <> [] ->
  find_labeled cls label (c :: s) = Some tok.
Proof.
  intros H Hspan Htok. simpl find_labeled at 1. rewrite H, Hspan.
  destruct tok; [congruence | reflexivity].
Qed.

Lemma find_labeled_past_number (cls : ascii -> bool) (l0 : ascii) (label tok s : str) :
  isnumch l0 = false -> forallb isnumch tok = true ->
  find_labeled cls (l0 :: label) (tok ++ s) = find_labeled cls (l0 :: label) s.
Proof.
  intros Hl. induction tok as [|c tok IH]; intros Htok; [reflexivity|].
  simpl in Htok. apply andb_true_iff in Htok as [Hc Htok].
  change ((c :: tok) ++ s) with (c :: (tok ++ s)).
  rewrite find_labeled_not_here; [apply IH, Htok|].
  simpl. destruct (Ascii.eqb_spec l0 c); [congruence | reflexivity].
Qed.

Ltac walk_to_label :=
  repeat first
    [ rewrite find_labeled_not_here by reflexivity
    | rewrite find_labeled_past_number by (first [reflexivity | assumption]) ].

Section DocumentedLine.
Variables k p h w e : str.
Hypothesis km_digits : forallb isdigit k = true.
Hypothesis km_there : k <> [].
Hypothesis pace_token : numeric_token p = true.
Hypothesis hr_token : numeric_token h = true.
Hypothesis power_token : numeric_token w = true.
Hypothesis elevation_token : numeric_token e = true.

Lemma km_line_number :
  find_labeled isdigit (py "KM ") (km_line k p h w e) = Some k.
Proof.
  unfold km_line. cbn [py list_ascii_of_string app].
  eapply find_labeled_here; [reflexivity | | exact km_there].
  apply span_while_stop; [exact km_digits | reflexivity].
Qed.

Lemma km_line_floats :
  labeled_float "Pace " (km_line k p h w e) = float_of_token p /\
  labeled_float "HR " (km_line k p h w e) = float_of_token h /\
  labeled_float "Power " (km_line k p h w e) = float_of_token w /\
  labeled_float "Elevation Gain " (km_line k p h w e) = float_of_token e.
Proof.
  pose proof (digits_numeric k km_digits) as Hk.
  pose proof pace_token as Hp. pose proof hr_token as Hh.
  pose proof power_token as Hw. pose proof elevation_token as He.
  apply andb_true_iff in Hp as [Hp0 Hp]. apply andb_true_iff in Hh as [Hh0 Hh].
  apply andb_true_iff in Hw as [Hw0 Hw]. apply andb_true_iff in He as [He0 He].
  unfold km_line, labeled_float. cbn [py list_ascii_of_string app].
  repeat split; walk_to_label.
  - erewrite find_labeled_here; [reflexivity | reflexivity | | ].
    + apply span_while_stop; [exact Hp | reflexivity].
    + destruct p; [discriminate | discriminate].
  - erewrite find_labeled_here; [reflexivity | reflexivity | | ].
    + apply span_while_stop; [exact Hh | reflexivity].
    + destruct h; [discriminate | discriminate].
  - erewrite find_labeled_here; [reflexivity | reflexivity | | ].
    + apply span_while_stop; [exact Hw | reflexivity].
    + destruct w; [discriminate | discriminate].
  - erewrite find_labeled_here; [reflexivity | reflexivity | | ].
    + apply span_while_stop; [exact He | reflexivity].
    + destruct e; [discriminate | discriminate].
Qed.

End DocumentedLine.

Lemma km_line_strip (k p h w e : str) :
  strip (km_line k p h w e) = km_line k p h w e.
Proof.
  replace (km_line k p h w e)
    with ("K"%char :: [] ++ (py "M " ++ k ++ py ": Pace " ++ p ++ py " min/km, HR " ++ h
                             ++ py " bpm, Power " ++ w ++ py " W, Elevation Gain "
                             ++ e ++ py " ") ++ ["m"%char]).
  - apply strip_between; reflexivity.
  - unfold km_line. cbn [py list_ascii_of_string app].
    repeat (rewrite <- app_assoc; cbn [app]). reflexivity.
Qed.

Lemma is_header_line_nondigit (c : ascii) (s : str) :
  isdigit c = false -> is_header_line (c :: s) = false.
Proof.
  intros H. destruct s as [|c2 [|c3 [|c4 [|c5 [|c6 [|c7 [|c8 [|c9 [|c10 s]]]]]]]]];
    simpl; rewrite ?H; reflexivity.
Qed.

Lemma rows_of_single_km_line (current_run : option RunHeader) (raw : str) (row : Row) :
  strip raw = raw -> startswith (py "KM") raw = true ->
  parse_km current_run raw = Ok row ->
  rows_of_lines current_run [raw] = Ok [row].
Proof.
  intros Hstrip Hkm Hparse. simpl. rewrite Hstrip.
  destruct raw as [|c raw]; [discriminate Hkm|].
  rewrite is_header_line_nondigit.
  - change ["K"; "M"]%char with (py "KM"). rewrite Hkm, Hparse. reflexivity.
  - unfold startswith in Hkm. change (py "KM") with ("K"%char :: py "M") in Hkm.
    cbn [strip_prefix] in Hkm.
    destruct (Ascii.eqb_spec "K" c); [subst; reflexivity | discriminate Hkm].
Qed.

(** X9: a per-KM line written in the documented form, with a number of
    digits after [KM] and plain numbers after the four labels, is read
    back exactly: the loop gives one row that carries the five values of
    the line and the fields of the current run. *)
Theorem documented_km_line_read_back (current_run : option RunHeader)
    (k : str) (np nh nw ne : pynum) :
  forallb isdigit k = true -> k <> [] ->
  plain_number np = true -> plain_number nh = true ->
  plain_number nw = true -> plain_number ne = true ->
  rows_of_lines current_run
    [km_line k (str_of_num np) (str_of_num nh) (str_of_num nw) (str_of_num ne)]
  = Ok [row_of current_run (int_of_token k) (num_value np) (num_value nh)
          (num_value nw) (num_value ne)].
Proof.
  intros Hk Hkne Hp Hh Hw He.
  destruct (str_of_plain_number np Hp) as [Tp Fp].
  destruct (str_of_plain_number nh Hh) as [Th Fh].
  destruct (str_of_plain_number nw Hw) as [Tw Fw].
  destruct (str_of_plain_number ne He) as [Te Fe].
  set (line := km_line k (str_of_num np) (str_of_num nh) (str_of_num nw)
                 (str_of_num ne)).
  assert (Hparse : parse_km current_run line
            = Ok (row_of current_run (int_of_token k) (num_value np) (num_value nh)
                    (num_value nw) (num_value ne))).
  { unfold parse_km, line. rewrite (km_line_number k _ _ _ _ Hk Hkne).
    destruct (km_line_floats k _ _ _ _ Hk Tp Th Tw Te) as (-> & -> & -> & ->).
    rewrite Fp, Fh, Fw, Fe. reflexivity. }
  apply rows_of_single_km_line; [apply km_line_strip | reflexivity | exact Hparse].
Qed.

Lemma documented_km_line_read_back_witness :
  rows_of_lines None
    [py "KM 1: Pace 8.409 min/km, HR 142.024 bpm, Power 175.074 W, Elevation Gain 8.4 m"]
  = Ok [row_of None 1 (8409 # 1000) (17753 # 125) (87537 # 500) (42 # 5)].
Proof.
  apply (documented_km_line_read_back None (py "1") (pyfloat "8" "409")
           (pyfloat "142" "024") (pyfloat "175" "074") (pyfloat "8" "4"));
    first [reflexivity | discriminate].
Defined.

(** ** What makes the deserializer raise *)

Lemma float_of_token_raises (tok : str) (e : exn) :
  float_of_token tok = Raise e -> e = not_a_float tok.
Proof.
  unfold float_of_token.
  destruct (drop _ tok) as [|c fp].
  - destruct (span_while isdigit tok); intros H; [congruence | discriminate H].
  - destruct (Ascii.eqb c "." && forallb isdigit fp); [|congruence].
    destruct (span_while isdigit tok ++ fp); intros H; [congruence | discriminate H].
Qed.

Lemma labeled_float_raises (label : string) (s : str) (e : exn) :
  labeled_float label s = Raise e -> exists tok, e = not_a_float tok.
Proof.
  unfold labeled_float. destruct (find_labeled isnumch (py label) s) as [tok|].
  - intros H. exists tok. apply float_of_token_raises, H.
  - discriminate.
Qed.

Lemma parse_header_raises (line : str) (e : exn) :
  parse_header line = Raise e -> exists tok, e = not_a_float tok.
Proof.
  unfold parse_header.
  destruct (split "|" line) as [|p0 [|p1 [|p2 [|p3 [|p4 [|p5 [|p6 rest]]]]]]];
    try discriminate.
  destruct (labeled_float "" p2) eqn:E2; [|intros [= <-]; eapply labeled_float_raises; eauto].
  destruct (labeled_float "" p3) eqn:E3; [|intros [= <-]; eapply labeled_float_raises; eauto].
  destruct (labeled_float "" p4) eqn:E4; [|intros [= <-]; eapply labeled_float_raises; eauto].
  destruct (labeled_float "" p5) eqn:E5; [|intros [= <-]; eapply labeled_float_raises; eauto].
  discriminate.
Qed.

Lemma rows_of_lines_raises (current_run : option RunHeader) (lines : list str)
    (e : exn) :
  rows_of_lines current_run lines = Raise e ->
  exists raw tok, In raw lines /\ opens_run raw = true /\ e = not_a_float tok.
Proof.
  revert current_run. induction lines as [|raw lines IH]; intros cur; simpl;
    [discriminate|].
  assert (Hrest : forall c, rows_of_lines c lines = Raise e ->
            exists raw' tok, (raw = raw' \/ In raw' lines)
                             /\ opens_run raw' = true /\ e = not_a_float tok).
  { intros c H. destruct (IH c H) as (raw' & tok & Hin & Hopen & He).
    exists raw', tok. auto. }
  unfold opens_run at 1.
  destruct (strip raw) as [|c line] eqn:Es; [apply Hrest|].
  destruct (is_header_line (c :: line)) eqn:Eh.
  - destruct (parse_header (c :: line)) as [parsed|e'] eqn:Ep.
    + rewrite res_bind_ok. apply Hrest.
    + intros [= <-]. destruct (parse_header_raises _ _ Ep) as [tok ->].
      exists raw, tok. repeat split; [left; reflexivity|].
      unfold opens_run. rewrite Es. exact Eh.
  - change ["K"; "M"]%char with (py "KM").
    destruct (startswith (py "KM") (c :: line)); [|apply Hrest].
    destruct (parse_km cur (c :: line)); [|apply Hrest].
    destruct (rows_of_lines cur lines) eqn:Er; [discriminate|].
    intros [= <-]. apply (Hrest cur Er).
Qed.

(** X10: the deserializer raises for two reasons only.  Either a line
    that opens with a date holds, in one of its four numeric segments, a
    run of digits and points that is no number, and the exception is the
    [ValueError] of that conversion; or the loop has built at least one
    row and the frame library rejects the date column, and the exception
    is the library's.  A per-KM line never makes the call fail. *)
Theorem deserializer_raises_on_numbers_or_dates (Timestamp : Type)
    (to_datetime : list str -> res (list Timestamp)) (context : str) (e : exn) :
  context_to_dataframe Timestamp to_datetime context = Raise e ->
  (exists raw tok,
     In raw (splitlines context) /\ opens_run raw = true /\ e = not_a_float tok) \/
  (exists rows,
     rows_of_context context = Ok rows /\ rows <> [] /\
     to_datetime (map date rows) = Raise e).
Proof.
  unfold context_to_dataframe, rows_of_context. intros H.
  destruct (rows_of_lines None (splitlines context)) as [rows|e'] eqn:Hrows.
  - right. exists rows. rewrite res_bind_ok in H.
    destruct rows as [|r rows]; [discriminate H|].
    repeat split; [discriminate|].
    destruct (to_datetime (map date (r :: rows))) as [dates|e'']; [discriminate H|].
    injection H as <-. reflexivity.
  - left. injection H as <-.
    destruct (rows_of_lines_raises None (splitlines context) e' Hrows)
      as (raw & tok & Hin & Hopen & He).
    exists raw, tok. repeat split; assumption.
Qed.

Lemma deserializer_raises_on_numbers_or_dates_witness :
  (exists raw tok,
     In raw (splitlines garbled_context) /\ opens_run raw = true
     /\ not_a_float (py "7.0.1") = not_a_float tok) \/
  (exists rows,
     rows_of_context garbled_context = Ok rows /\ rows <> [] /\
     stored_format_to_datetime (map date rows) = Raise (not_a_float (py "7.0.1"))).
Proof.
  apply (deserializer_raises_on_numbers_or_dates (option datetime)
           stored_format_to_datetime garbled_context).
  reflexivity.
Defined.

(** ** A context without the breakdown *)

Lemma wf_summary_split (doc : Document) :
  well_formed doc ->
  exists line,
    opens_run line = true /\
    (exists h, parse_header (strip line) = Ok (Some h)) /\
    only_newlines (summary_line (metadata doc)) = true /\
    split newline (summary_line (metadata doc)) = [[]; line].
Proof.
  intros wf.
  destruct (wf_summary_line doc wf)
    as (d & nm & t & Gd & Gn & Gt & [Hd1 Hd2] & Hnm1 & (Ht1 & Ht2 & Ht3) & Hline).
  destruct (stored_number_text _ (wf_distance doc wf)) as [Td Fd].
  destruct (stored_number_text _ (wf_pace doc wf)) as [Tp Fp].
  destruct (stored_number_text _ (wf_avg_hr doc wf)) as [Th Fh].
  destruct (stored_number_text _ (wf_elevation doc wf)) as [Te Fe].
  set (line := format_summary d nm
                 (py_str (get (metadata doc) "distance"))
                 (py_str (get (metadata doc) "pace"))
                 (py_str (get (metadata doc) "avg_hr"))
                 (py_str (get (metadata doc) "elevation_gain")) t) in *.
  assert (Hnl : no_linebreak line = true)
    by (apply summary_no_linebreak; assumption).
  assert (Hstrip : strip line = line) by (apply summary_strip; assumption).
  exists line. repeat split.
  - unfold opens_run. rewrite Hstrip. apply summary_opens_run; assumption.
  - rewrite Hstrip. unfold line. rewrite summary_parse by assumption.
    rewrite Fd, Fp, Fh, Fe, !res_bind_ok. eauto.
  - rewrite Hline. simpl. apply no_linebreak_only_newlines, Hnl.
  - rewrite Hline.
    change (split newline (newline :: line)) with ([] :: split newline line).
    rewrite (split_free newline line (no_linebreak_free line Hnl)). reflexivity.
Qed.

Lemma summaries_give_no_rows (docs : list Document) (current_run : option RunHeader) :
  Forall well_formed docs ->
  rows_of_lines current_run
    (flat_map (fun doc => flat_map (split newline) (context_lines false doc)) docs)
  = Ok [].
Proof.
  intros H. revert current_run.
  induction H as [|doc docs Hdoc _ IH]; intros cur; [reflexivity|].
  destruct (wf_summary_split doc Hdoc) as (line & Hopen & [h Hparse] & _ & Hsplit).
  change (flat_map ?f (doc :: docs)) with (f doc ++ flat_map f docs). cbv beta.
  unfold context_lines at 1.
  change (flat_map (split newline) [summary_line (metadata doc)])
    with (split newline (summary_line (metadata doc)) ++ []).
  rewrite Hsplit.
  change (([[]; line] ++ []) ++ ?rest) with ([] :: line :: rest).
  change (rows_of_lines cur ([] :: ?l)) with (rows_of_lines cur l).
  rewrite (rows_of_lines_header cur line _ Hopen), Hparse, res_bind_ok.
  apply IH.
Qed.

(** X11: without the breakdown, which is how [docs_to_context] serializes
    unless told otherwise, the context of well-formed documents holds
    summary lines only and the deserializer builds no row from it: it
    returns the empty frame, and no date is converted. *)
Theorem summaries_alone_give_empty_frame (Timestamp : Type)
    (to_datetime : list str -> res (list Timestamp)) (docs : list Document) :
  Forall well_formed docs ->
  rows_of_context (docs_to_context docs false) = Ok [] /\
  context_to_dataframe Timestamp to_datetime (docs_to_context docs false)
  = Ok {| records := []; date_column := [] |}.
Proof.
  intros H.
  assert (Hrows : rows_of_context (docs_to_context docs false) = Ok []).
  { destruct docs as [|doc docs]; [reflexivity|].
    unfold rows_of_context, docs_to_context.
    rewrite rows_of_splitlines.
    - rewrite split_join_flat by discriminate.
      rewrite flat_map_nested. apply summaries_give_no_rows, H.
    - apply join_only_newlines.
      clear -H. induction H as [|d ds Hd _ IH]; simpl; constructor; [|exact IH].
      destruct (wf_summary_split d Hd) as (line & _ & _ & Hnl & _). exact Hnl. }
  split; [exact Hrows|].
  unfold context_to_dataframe. rewrite Hrows. reflexivity.
Qed.

Lemma summaries_alone_give_empty_frame_witness :
  context_to_dataframe (option datetime) stored_format_to_datetime
    (docs_to_context [tempo_run_2; morning_run] false)
  = Ok {| records := []; date_column := [] |}.
Proof.
  apply summaries_alone_give_empty_frame.
  repeat (constructor; [check_well_formed|]). constructor.
Defined.

(** ** Cleaning the model's replies *)

Lemma startswith_other_head (p : str) (a c : ascii) (s : str) :
  Ascii.eqb a c = false -> startswith (a :: p) (c :: s) = false.
Proof. intros H. unfold startswith. cbn [strip_prefix]. rewrite H. reflexivity. Qed.

Lemma sub_fences_plain (bol : bool) (s : str) :
  free_of "`" s = true -> sub_fences 0 false bol s = s.
Proof.
  revert bol. induction s as [|c t IH]; intros bol H; [reflexivity|].
  unfold free_of in H. cbn [forallb] in H.
  apply andb_true_iff in H as [Hc Ht]. apply negb_true_iff in Hc.
  assert (Hc' : Ascii.eqb "`" c = false) by (rewrite Ascii.eqb_sym; exact Hc).
  cbn [sub_fences andb].
  change (py "```json") with ("`"%char :: py "``json").
  change (py "```") with ("`"%char :: py "``").
  rewrite !(startswith_other_head _ _ _ _ Hc'), andb_false_r. cbn [andb].
  rewrite (IH _ Ht). reflexivity.
Qed.

Lemma lstrip_app_nonspace (a : str) (c : ascii) :
  isspace c = false -> lstrip (a ++ [c]) = lstrip a ++ [c].
Proof.
  intros H. induction a as [|x a IH]; cbn [lstrip app].
  - rewrite H. reflexivity.
  - destruct (isspace x); [exact IH | reflexivity].
Qed.

Lemma lstrip_head (s : str) :
  match lstrip s with [] => true | c :: _ => negb (isspace c) end = true.
Proof.
  induction s as [|x s IH]; cbn [lstrip]; [reflexivity|].
  destruct (isspace x) eqn:E; [exact IH | rewrite E; reflexivity].
Qed.

Lemma strip_no_edge_space (s : str) : no_edge_space (strip s) = true.
Proof.
  unfold no_edge_space, strip, rstrip. rewrite rev_involutive.
  rewrite (lstrip_head (rev (lstrip s))), andb_true_r.
  pose proof (lstrip_head s) as Hhead.
  destruct (lstrip s) as [|c a]; [reflexivity|].
  apply negb_true_iff in Hhead.
  cbn [rev]. rewrite (lstrip_app_nonspace _ _ Hhead), rev_app_distr.
  cbn [rev app]. rewrite Hhead. reflexivity.
Qed.

Lemma strip_fixed (s : str) : no_edge_space s = true -> strip s = s.
Proof.
  intros H.
  destruct (no_edge_space_ends s H) as [->|[(c & s' & E & Hc) (s'' & z & E' & Hz)]];
    [reflexivity|].
  unfold strip. rewrite E, (lstrip_nonspace c s' Hc), <- E, E'.
  apply rstrip_app_nonspace, Hz.
Qed.

Lemma forallb_lstrip (p : ascii -> bool) (s : str) :
  forallb p s = true -> forallb p (lstrip s) = true.
Proof.
  induction s as [|x s IH]; [reflexivity|]. intros H. cbn [lstrip].
  destruct (isspace x); [|exact H].
  cbn [forallb] in H. apply andb_true_iff in H as [_ H]. exact (IH H).
Qed.

Lemma forallb_rev (p : ascii -> bool) (s : str) :
  forallb p s = true -> forallb p (rev s) = true.
Proof.
  intros H. apply forallb_forall. intros c Hc. apply in_rev in Hc.
  eapply forallb_forall in H; eauto.
Qed.

Lemma forallb_strip (p : ascii -> bool) (s : str) :
  forallb p s = true -> forallb p (strip s) = true.
Proof.
  intros H. unfold strip, rstrip.
  apply forallb_rev, forallb_lstrip, forallb_rev, forallb_lstrip, H.
Qed.

(** X12: a reply without a backtick is only stripped of the whitespace
    around it: the removal of the fences changes nothing. *)
Theorem reply_without_fence_is_stripped (content : str) :
  free_of "`" content = true ->
  clean_response content = strip content.
Proof.
  intros H. unfold clean_response.
  rewrite sub_fences_plain by (apply forallb_strip, H).
  apply strip_fixed, strip_no_edge_space.
Qed.

Lemma reply_without_fence_is_stripped_witness :
  clean_response (newline :: py " { } " ++ [newline]) = py "{ }".
Proof.
  rewrite (reply_without_fence_is_stripped (newline :: py " { } " ++ [newline]));
    reflexivity.
Defined.

Lemma space_is_no_backtick (s : str) :
  forallb isspace s = true -> free_of "`" s = true.
Proof.
  intros H. apply forallb_forall. intros c Hc.
  eapply forallb_forall in H; eauto.
  destruct (Ascii.eqb_spec c "`") as [->|]; [discriminate H | reflexivity].
Qed.

Lemma lstrip_spaces (w s : str) :
  forallb isspace w = true -> lstrip (w ++ s) = lstrip s.
Proof.
  induction w as [|x w IH]; [reflexivity|]. intros H.
  cbn [forallb] in H. apply andb_true_iff in H as [Hx Hw].
  cbn [app lstrip]. rewrite Hx. exact (IH Hw).
Qed.

Lemma strip_trailing_spaces (s w : str) :
  no_edge_space s = true -> forallb isspace w = true -> strip (s ++ w) = s.
Proof.
  intros Hs Hw.
  destruct (no_edge_space_ends s Hs) as [->|[(c & s' & E & Hc) (s'' & z & E' & Hz)]].
  - unfold strip. cbn [app]. rewrite <- (app_nil_r w), (lstrip_spaces w [] Hw).
    reflexivity.
  - unfold strip. rewrite E. change ((c :: s') ++ w) with (c :: (s' ++ w)).
    rewrite (lstrip_nonspace c _ Hc).
    change (c :: (s' ++ w)) with ((c :: s') ++ w). rewrite <- E.
    unfold rstrip. rewrite rev_app_distr, (lstrip_spaces (rev w)) by (apply forallb_rev, Hw).
    fold (rstrip s). rewrite E'. apply rstrip_app_nonspace, Hz.
Qed.

(** Within the whitespace that follows an opening fence everything is
    dropped, up to the first character that is not whitespace. *)
Lemma sub_fences_spaces (bol : bool) (w rest : str) :
  forallb isspace w = true ->
  exists bol', sub_fences 0 true bol (w ++ rest) = sub_fences 0 true bol' rest.
Proof.
  revert bol. induction w as [|x w IH]; intros bol H; [exists bol; reflexivity|].
  cbn [forallb] in H. apply andb_true_iff in H as [Hx Hw].
  cbn [app sub_fences andb]. rewrite Hx. apply IH, Hw.
Qed.

Lemma sub_fences_closing (ws bol : bool) : sub_fences 0 ws bol (py "```") = [].
Proof. destruct ws, bol; reflexivity. Qed.

Lemma sub_fences_to_closing (bol : bool) (s : str) :
  free_of "`" s = true -> sub_fences 0 false bol (s ++ py "```") = s.
Proof.
  revert bol. induction s as [|c t IH]; intros bol H; [apply sub_fences_closing|].
  unfold free_of in H. cbn [forallb] in H.
  apply andb_true_iff in H as [Hc Ht]. apply negb_true_iff in Hc.
  assert (Hc' : Ascii.eqb "`" c = false) by (rewrite Ascii.eqb_sym; exact Hc).
  cbn [app sub_fences andb].
  rewrite (startswith_other_head (py "``json") _ _ _ Hc' : startswith (py "```json") _ = _).
  rewrite (startswith_other_head (py "``") _ _ _ Hc' : startswith (py "```") _ = _).
  rewrite andb_false_r. cbn [andb].
  rewrite (IH _ Ht). reflexivity.
Qed.

Lemma sub_fences_after_spaces (bol : bool) (s : str) :
  match s with [] => true | c :: _ => negb (isspace c) end = true ->
  sub_fences 0 true bol s = sub_fences 0 false bol s.
Proof.
  destruct s as [|c t]; [reflexivity|]. intros H. apply negb_true_iff in H.
  cbn [sub_fences andb]. rewrite H. reflexivity.
Qed.

(** X13: a reply made of an opening [```json] fence, a text without
    backticks and a closing fence that ends the reply is reduced to that
    text, whatever whitespace separates the three. *)
Theorem fenced_json_is_unwrapped (gap body gap' : str) :
  forallb isspace gap = true ->
  forallb isspace gap' = true ->
  free_of "`" body = true ->
  no_edge_space body = true ->
  clean_response (py "```json" ++ gap ++ body ++ gap' ++ py "```") = body.
Proof.
  intros Hgap Hgap' Hfree Hedge. unfold clean_response.
  set (rest := body ++ gap' ++ py "```").
  assert (Hstrip : strip (py "```json" ++ gap ++ rest) = py "```json" ++ gap ++ rest).
  { change (py "```json" ++ gap ++ rest) with ("`"%char :: (py "``json" ++ gap ++ rest)).
    unfold rest.
    replace (py "``json" ++ gap ++ body ++ gap' ++ py "```")
      with ((py "``json" ++ gap ++ body ++ gap') ++ py "``" ++ ["`"%char])
      by (rewrite <- !app_assoc; reflexivity).
    apply strip_between; reflexivity. }
  rewrite Hstrip.
  change (sub_fences 0 false true (py "```json" ++ gap ++ rest))
    with (sub_fences 0 true false (gap ++ rest)).
  destruct (sub_fences_spaces false gap rest Hgap) as [bol ->].
  destruct body as [|c b].
  - unfold rest. cbn [app].
    destruct (sub_fences_spaces bol gap' (py "```") Hgap') as [bol' ->].
    rewrite sub_fences_closing. reflexivity.
  - unfold rest. rewrite sub_fences_after_spaces.
    + rewrite app_assoc, sub_fences_to_closing.
      * apply strip_trailing_spaces; assumption.
      * unfold free_of. rewrite forallb_app. fold (free_of "`" (c :: b)).
        rewrite Hfree. apply space_is_no_backtick, Hgap'.
    + unfold no_edge_space in Hedge. apply andb_true_iff in Hedge as [H _]. exact H.
Qed.

Lemma fenced_json_is_unwrapped_witness :
  clean_response (py "```json" ++ [newline] ++ py "{ }" ++ [newline] ++ py "```")
  = py "{ }".
Proof.
  apply (fenced_json_is_unwrapped [newline] (py "{ }") [newline]); reflexivity.
Defined.

(** ** The plotting code kept from a fenced reply *)

Lemma splitlines_line (l : str) :
  no_linebreak l = true -> l <> [] -> splitlines l = [l].
Proof.
  induction l as [|c l IH]; [congruence|]. intros H _.
  unfold no_linebreak in H. cbn [forallb] in H.
  apply andb_true_iff in H as [Hc Hl]. apply negb_true_iff in Hc.
  cbn [splitlines]. rewrite Hc.
  destruct l as [|c' l']; [reflexivity|].
  rewrite IH by (exact Hl || discriminate). reflexivity.
Qed.

Lemma splitlines_first_line (l rest : str) :
  no_linebreak l = true ->
  splitlines (l ++ newline :: rest) = l :: splitlines rest.
Proof.
  induction l as [|c l IH]; intros H.
  - cbn [app splitlines]. change (is_linebreak newline) with true. cbv iota.
    destruct rest as [|c2 t2]; reflexivity.
  - unfold no_linebreak in H. cbn [forallb] in H.
    apply andb_true_iff in H as [Hc Hl]. apply negb_true_iff in Hc.
    cbn [app splitlines]. rewrite Hc, (IH Hl). reflexivity.
Qed.

Lemma splitlines_join (lines : list str) (last : str) :
  Forall (fun l => no_linebreak l = true) (lines ++ [last]) ->
  last <> [] ->
  splitlines (join [newline] (lines ++ [last])) = lines ++ [last].
Proof.
  intros H Hlast. induction lines as [|p lines IH].
  - inversion H; subst. apply splitlines_line; assumption.
  - inversion H as [|? ? Hp Hrest]; subst.
    change ((p :: lines) ++ [last]) with (p :: (lines ++ [last])).
    destruct (lines ++ [last]) as [|q rest] eqn:E;
      [destruct lines; discriminate E|].
    change (join [newline] (p :: q :: rest))
      with (p ++ newline :: join [newline] (q :: rest)).
    rewrite (splitlines_first_line p _ Hp), (IH Hrest). reflexivity.
Qed.

Lemma join_snoc (sep : str) (parts : list str) (p last : str) :
  join sep ((p :: parts) ++ [last]) = join sep (p :: parts) ++ sep ++ last.
Proof.
  revert p. induction parts as [|q parts IH]; intros p.
  - reflexivity.
  - change (join sep ((p :: q :: parts) ++ [last]))
      with (p ++ sep ++ join sep ((q :: parts) ++ [last])).
    rewrite IH.
    change (join sep (p :: q :: parts)) with (p ++ sep ++ join sep (q :: parts)).
    rewrite <- !app_assoc. reflexivity.
Qed.

Lemma join_starts_with_first (sep p : str) (parts : list str) :
  exists tail, join sep (p :: parts) = p ++ tail.
Proof.
  destruct parts as [|q parts].
  - exists []. cbn [join]. rewrite app_nil_r. reflexivity.
  - eexists. reflexivity.
Qed.

Lemma startswith_app (p a b : str) :
  startswith p a = true -> startswith p (a ++ b) = true.
Proof.
  unfold startswith. revert a. induction p as [|x p IH]; intros a H; [reflexivity|].
  destruct a as [|y a]; [discriminate H|].
  cbn [app strip_prefix] in *.
  destruct (Ascii.eqb x y); [exact (IH a H) | discriminate H].
Qed.

(** X14: of a reply that opens with a fence, whatever follows the three
    backticks on its first line, the plotting code keeps the lines in
    between the first and the last one; the last line is dropped whether
    or not it is a closing fence. *)
Theorem fenced_code_loses_last_line
    (plotting_prompt : str -> str -> str -> str)
    (df_description user_question llm_response : str)
    (fence : str) (code : list str) (last : str) (later : list str) (asked : list str) :
  startswith (py "```") fence = true ->
  Forall (fun l => no_linebreak l = true) (fence :: code ++ [last]) ->
  ends_visibly last = true ->
  fst (get_plotting_code plotting_prompt df_description user_question llm_response
         {| replies := join [newline] (fence :: code ++ [last]) :: later;
            prompts := asked |})
  = Some (join [newline] code).
Proof.
  intros Hfence Hlines Hlast.
  unfold get_plotting_code, invoke. cbn [replies prompts fst]. f_equal.
  unfold clean_code.
  set (content := join [newline] (fence :: code ++ [last])).
  assert (Hne : last <> []) by (intros ->; discriminate Hlast).
  assert (Hstart : startswith (py "```") content = true).
  { unfold content.
    destruct (join_starts_with_first [newline] fence (code ++ [last])) as [tail ->].
    apply startswith_app, Hfence. }
  assert (Hstrip : strip content = content).
  { apply strip_fixed. unfold no_edge_space. apply andb_true_iff. split.
    - destruct content as [|c rest]; [reflexivity|].
      unfold startswith in Hstart. change (py "```") with ("`"%char :: py "``") in Hstart.
      cbn [strip_prefix] in Hstart.
      destruct (Ascii.eqb_spec "`" c) as [<-|]; [reflexivity | discriminate Hstart].
    - unfold content.
      change (fence :: code ++ [last]) with ((fence :: code) ++ [last]).
      rewrite join_snoc, !rev_app_distr.
      unfold ends_visibly in Hlast.
      destruct (rev last) as [|z r]; [discriminate Hlast | exact Hlast]. }
  cbv zeta. rewrite Hstrip, Hstart. unfold content.
  change (fence :: code ++ [last]) with ((fence :: code) ++ [last]).
  rewrite splitlines_join by assumption.
  unfold inner_lines. rewrite length_app. cbn [length].
  replace (S (length code) + 1 - 1) with (length (fence :: code)) by (cbn [length]; lia).
  rewrite take_app_length. reflexivity.
Qed.

Lemma fenced_code_loses_last_line_witness :
  fst (get_plotting_code (fun d q r => q) [] (py "plot my pace") []
         {| replies := [join [newline] [py "```python"; py "plt.plot(df.pace)"; py "plt.show()"]];
            prompts := [] |})
  = Some (py "plt.plot(df.pace)").
Proof.
  apply (fenced_code_loses_last_line (fun d q r => q) [] (py "plot my pace") []
           (py "```python") [py "plt.plot(df.pace)"] (py "plt.show()") [] []).
  - reflexivity.
  - repeat constructor.
  - reflexivity.
Defined.

(** ** The rows of [km_wise_data] *)

Lemma res_bind_inv {A B : Type} (m : res A) (k : A -> res B) (b : B) :
  m ≫= k = Ok b -> exists a, m = Ok a /\ k a = Ok b.
Proof. destruct m as [a|e]; [eauto | discriminate]. Qed.

Lemma km_rows_kept (dist hr cad watts pace alt : list npfloat) (kms : list nat)
    (rows : list KmRow) :
  Strava.km_rows dist hr cad watts pace alt kms = Ok rows ->
  map KM rows
  = List.filter (fun km => negb (forallb negb (bucket_mask dist km))) kms.
Proof.
  revert rows. induction kms as [|km kms IH]; intros rows H.
  - injection H as <-. reflexivity.
  - cbn [Strava.km_rows] in H. cbn [List.filter]. cbv zeta in H.
    destruct (forallb negb (bucket_mask dist km)); cbn [negb]; [exact (IH _ H)|].
    apply res_bind_inv in H as (a_hr & _ & H).
    apply res_bind_inv in H as (a_cad & _ & H).
    apply res_bind_inv in H as (a_pow & _ & H).
    apply res_bind_inv in H as (a_pace & _ & H).
    apply res_bind_inv in H as (a_elev & _ & H).
    apply res_bind_inv in H as (rest & Hrest & H).
    injection H as <-. cbn [map KM]. rewrite (IH _ Hrest). reflexivity.
Qed.

Lemma bucket_has_sample (dist : list (option Q)) (km : nat) :
  forallb negb (bucket_mask (safe_array dist) km) = false ->
  exists d, In (Some d) dist /\ in_kilometre km d.
Proof.
  induction dist as [|v dist IH]; [discriminate|].
  cbn [safe_array map bucket_mask forallb]. intros H.
  apply andb_false_iff in H as [H|H].
  - destruct v as [d|]; [|discriminate H].
    apply negb_false_iff, andb_true_iff in H as [Hlo Hhi].
    exists d. split; [left; reflexivity|]. split.
    + apply Qle_bool_iff, Hlo.
    + apply Qltb_true, Hhi.
  - destruct (IH H) as (d & Hin & Hd). exists d. split; [right; exact Hin | exact Hd].
Qed.

Lemma seq_strongly_sorted (a n : nat) : StronglySorted lt (seq a n).
Proof.
  revert a. induction n as [|n IH]; intros a; cbn [seq]; constructor; [apply IH|].
  apply List.Forall_forall. intros x Hx. apply in_seq in Hx. lia.
Qed.

Lemma filter_strongly_sorted {A : Type} (R : A -> A -> Prop) (f : A -> bool) (l : list A) :
  StronglySorted R l -> StronglySorted R (List.filter f l).
Proof.
  induction 1 as [|x l Hl IH Hx]; cbn [List.filter]; [constructor|].
  destruct (f x); [|exact IH]. constructor; [exact IH|].
  apply List.Forall_forall. intros y Hy. apply filter_In in Hy as [Hy _].
  eapply List.Forall_forall in Hx; eauto.
Qed.

Lemma last_safe_array (data : list (option Q)) (q : Q) :
  last (safe_array data) = Some (Fin q) -> last data = Some (Some q).
Proof.
  induction data as [|v data IH]; [discriminate|].
  destruct data as [|w data].
  - destruct v as [d|]; cbn; intros [= E]; subst; reflexivity.
  - exact IH.
Qed.

Lemma whole_kilometres_below (km : nat) (q : Q) :
  (km <= Z.to_nat (Qfloor (q / 1000)))%nat -> (1 <= km)%nat ->
  (inject_Z (Z.of_nat km * 1000) <= q)%Q.
Proof.
  intros Hkm Hpos.
  assert (Hz : (Z.of_nat km <= Qfloor (q / 1000))%Z) by lia.
  assert (Hq : (inject_Z (Z.of_nat km) <= q / 1000)%Q).
  { eapply Qle_trans; [|apply Qfloor_le]. rewrite <- Zle_Qle. exact Hz. }
  rewrite inject_Z_mult.
  apply (Qmult_le_r _ _ 1000) in Hq; [|reflexivity].
  eapply Qle_trans; [exact Hq|].
  unfold Qdiv. rewrite <- Qmult_assoc, (Qmult_comm (/ 1000)), Qmult_inv_r by discriminate.
  rewrite Qmult_1_r. apply Qle_refl.
Qed.

(** X15: the rows of [km_wise_data] come in strictly increasing order of
    their kilometre; each one stands for a kilometre that holds a sample of
    the distance stream and that the last sample has completed, so that the
    kilometres without a sample and the part run after the last whole
    kilometre have no row. *)
Theorem rows_are_sampled_whole_kilometres
    (streams : gmap string (list (option Q))) (rows : list KmRow) :
  km_wise_data streams = Ok rows ->
  StronglySorted lt (map KM rows) /\
  Forall (fun row =>
            (1 <= KM row)%nat /\
            (exists q, last (stream_data streams "distance") = Some (Some q) /\
                       (inject_Z (Z.of_nat (KM row) * 1000) <= q)%Q) /\
            (exists d, In (Some d) (stream_data streams "distance") /\
                       in_kilometre (KM row) d)) rows.
Proof.
  unfold km_wise_data. intros H.
  destruct (bool_decide (streams = ∅)).
  { injection H as <-. split; constructor. }
  cbv zeta in H.
  destruct (last (safe_array (stream_data streams "distance"))) as [[q| |]|] eqn:Hlast;
    try discriminate H.
  2: { injection H as <-. split; constructor. }
  apply km_rows_kept in H. split.
  - rewrite H. apply filter_strongly_sorted, seq_strongly_sorted.
  - apply List.Forall_forall. intros row Hrow.
    assert (Hkm : In (KM row) (map KM rows)) by (apply in_map, Hrow).
    rewrite H in Hkm. apply filter_In in Hkm as [Hseq Hmask].
    apply in_seq in Hseq. apply negb_true_iff in Hmask.
    split; [lia|]. split.
    + exists q. split; [apply last_safe_array, Hlast|].
      apply whole_kilometres_below; lia.
    + apply bucket_has_sample, Hmask.
Qed.

Lemma rows_are_sampled_whole_kilometres_witness :
  map KM
    [{| KM := 1; Avg_HR := None; Avg_Cadence := None; Avg_Power := None;
        Avg_Pace_min_per_km := None; Elevation_Gain_m := None |};
     {| KM := 3; Avg_HR := None; Avg_Cadence := None; Avg_Power := None;
        Avg_Pace_min_per_km := None; Elevation_Gain_m := None |}] = [1; 3]%nat /\
  StronglySorted lt [1; 3]%nat.
Proof.
  split; [reflexivity|].
  apply (rows_are_sampled_whole_kilometres gapped_streams
           [{| KM := 1; Avg_HR := None; Avg_Cadence := None; Avg_Power := None;
               Avg_Pace_min_per_km := None; Elevation_Gain_m := None |};
            {| KM := 3; Avg_HR := None; Avg_Cadence := None; Avg_Power := None;
               Avg_Pace_min_per_km := None; Elevation_Gain_m := None |}]).
  vm_compute. reflexivity.
Defined.

(** ** Streams of different lengths *)

Lemma select_same_length (a : list npfloat) (mask : list bool) (sel : list npfloat) :
  select a mask = Ok sel -> length a = length mask.
Proof.
  revert mask sel. induction a as [|v a IH]; intros [|m mask] sel H;
    try discriminate H; [reflexivity|].
  cbn [select] in H. apply res_bind_inv in H as (rest & Hrest & _).
  cbn [length]. f_equal. exact (IH _ _ Hrest).
Qed.

Lemma select_raises (a : list npfloat) (mask : list bool) :
  (exists sel, select a mask = Ok sel) \/ select a mask = Raise IndexError.
Proof.
  revert mask. induction a as [|v a IH]; intros [|m mask];
    [left; eexists; reflexivity | right; reflexivity | right; reflexivity |].
  cbn [select]. destruct (IH mask) as [[rest ->]| ->].
  - left. eexists. reflexivity.
  - right. reflexivity.
Qed.

Lemma aggregate_raises (f : list npfloat -> npfloat) (a : list npfloat) (mask : list bool) :
  (exists v, aggregate f a mask = Ok v) \/ aggregate f a mask = Raise IndexError.
Proof.
  unfold aggregate. destruct a as [|v a]; [left; eexists; reflexivity|].
  destruct (select_raises (v :: a) mask) as [[sel ->]| ->].
  - left. eexists. reflexivity.
  - right. reflexivity.
Qed.

Lemma aggregate_mismatch (f : list npfloat -> npfloat) (a : list npfloat) (mask : list bool) :
  a <> [] -> length a <> length mask -> aggregate f a mask = Raise IndexError.
Proof.
  intros Hne Hlen. unfold aggregate. destruct a as [|v a]; [congruence|].
  destruct (select_raises (v :: a) mask) as [[sel Hsel]| ->]; [|reflexivity].
  apply select_same_length in Hsel. contradiction.
Qed.

Lemma km_rows_mismatch (dist hr cad watts pace alt : list npfloat) (kms : list nat) :
  Exists (fun a => a <> [] /\ length a <> length dist) [hr; cad; watts; pace; alt] ->
  Strava.km_rows dist hr cad watts pace alt kms = Ok [] \/
  Strava.km_rows dist hr cad watts pace alt kms = Raise IndexError.
Proof.
  intros Hbad. induction kms as [|km kms IH]; [left; reflexivity|].
  cbn [Strava.km_rows]. cbv zeta.
  destruct (forallb negb (bucket_mask dist km)); [exact IH|]. right.
  assert (Hmask : length (bucket_mask dist km) = length dist)
    by (unfold bucket_mask; apply length_map).
  rewrite <- Hmask in Hbad.
  destruct (aggregate_raises nanmean hr (bucket_mask dist km)) as [[a_hr Ehr]|Ehr];
    rewrite Ehr; [rewrite res_bind_ok | reflexivity].
  destruct (aggregate_raises nanmean cad (bucket_mask dist km)) as [[a_cad Ecad]|Ecad];
    rewrite Ecad; [rewrite res_bind_ok | reflexivity].
  destruct (aggregate_raises nanmean watts (bucket_mask dist km)) as [[a_pow Epow]|Epow];
    rewrite Epow; [rewrite res_bind_ok | reflexivity].
  destruct (aggregate_raises pace_of_velocities pace (bucket_mask dist km))
    as [[a_pace Epace]|Epace]; rewrite Epace; [rewrite res_bind_ok | reflexivity].
  destruct (aggregate_raises elevation_of alt (bucket_mask dist km))
    as [[a_elev Eelev]|Eelev]; rewrite Eelev; [rewrite res_bind_ok | reflexivity].
  exfalso.
  repeat match goal with
  | H : Exists _ (_ :: _) |- _ => apply Exists_cons in H as [[Hne Hlen]|H]
  | H : Exists _ [] |- _ => apply Exists_nil in H; contradiction
  | Hne : ?a <> [], Hlen : length ?a <> _, E : aggregate ?f ?a _ = Ok _ |- _ =>
      rewrite (aggregate_mismatch f a _ Hne Hlen) in E; discriminate E
  end.
Qed.

(** X16: when one of the averaged streams is present with a number of
    samples other than that of the distance stream, [km_wise_data] gives no
    row at all: it returns the empty frame or it raises, with the
    [IndexError] of the mask or the [ValueError] of a last distance that
    is NaN. *)
Theorem mismatched_stream_gives_no_row
    (streams : gmap string (list (option Q))) (name : string) :
  In name averaged_streams ->
  stream_data streams name <> [] ->
  length (stream_data streams name) <> length (stream_data streams "distance") ->
  km_wise_data streams = Ok [] \/
  km_wise_data streams = Raise IndexError \/
  km_wise_data streams = Raise nan_to_int.
Proof.
  intros Hname Hne Hlen. unfold km_wise_data.
  destruct (bool_decide (streams = ∅)); [left; reflexivity|]. cbv zeta.
  destruct (last (safe_array (stream_data streams "distance"))) as [[q| |]|];
    [|right; right; reflexivity .. |left; reflexivity].
  assert (Hsafe : forall data, length (safe_array data) = length data)
    by (intros data; apply length_map).
  assert (Hnil : forall data, data <> [] -> safe_array data <> [])
    by (intros [|v data] H; [congruence | discriminate]).
  destruct (km_rows_mismatch
              (safe_array (stream_data streams "distance"))
              (safe_array (stream_data streams "heartrate"))
              (safe_array (stream_data streams "cadence"))
              (safe_array (stream_data streams "watts"))
              (safe_array (stream_data streams "velocity_smooth"))
              (safe_array (stream_data streams "altitude"))
              (seq 1 (Z.to_nat (Qfloor (q / 1000))))) as [H|H];
    [|left; exact H | right; left; exact H].
  unfold averaged_streams in Hname. cbn [In] in Hname.
  assert (Hbad : safe_array (stream_data streams name) <> [] /\
                 length (safe_array (stream_data streams name))
                 <> length (safe_array (stream_data streams "distance")))
    by (split; [apply Hnil, Hne | rewrite !Hsafe; exact Hlen]).
  destruct Hname as [<-|[<-|[<-|[<-|[<-|[]]]]]].
  - apply Exists_cons_hd, Hbad.
  - do 1 apply Exists_cons_tl. apply Exists_cons_hd, Hbad.
  - do 2 apply Exists_cons_tl. apply Exists_cons_hd, Hbad.
  - do 3 apply Exists_cons_tl. apply Exists_cons_hd, Hbad.
  - do 4 apply Exists_cons_tl. apply Exists_cons_hd, Hbad.
Qed.

Lemma mismatched_stream_gives_no_row_witness :
  km_wise_data short_heartrate_streams = Raise IndexError.
Proof.
  destruct (mismatched_stream_gives_no_row short_heartrate_streams "heartrate")
    as [H|[H|H]].
  - left. reflexivity.
  - vm_compute. discriminate.
  - vm_compute. discriminate.
  - vm_compute in H. discriminate H.
  - exact H.
  - vm_compute in H. discriminate H.
Defined.

(** ** The refresh token in the [.env] file *)

Lemma token_line_is_token_line (new_refresh_token : str) :
  is_token_line (token_key ++ new_refresh_token ++ [newline]) = true.
Proof.
  unfold is_token_line. apply startswith_app.
  rewrite <- (app_nil_r token_key) at 2. apply startswith_app, startswith_refl.
Qed.

Lemma update_lines_first (new_refresh_token : str) (lines lines' : list str) :
  update_lines new_refresh_token lines = Some lines' ->
  exists before old after,
    lines = before ++ old :: after /\
    lines' = before ++ (token_key ++ new_refresh_token ++ [newline]) :: after /\
    is_token_line old = true /\
    forallb (fun line => negb (is_token_line line)) before = true.
Proof.
  revert lines'. induction lines as [|line rest IH]; intros lines' H; [discriminate|].
  cbn [update_lines] in H. destruct (startswith token_key line) eqn:E.
  - injection H as <-. exists [], line, rest. auto.
  - destruct (update_lines new_refresh_token rest) as [rest'|]; [|discriminate].
    injection H as <-.
    destruct (IH rest' eq_refl) as (before & old & after & -> & -> & Hold & Hbefore).
    exists (line :: before), old, after. repeat split; try assumption.
    cbn [forallb]. unfold is_token_line at 1. rewrite E. exact Hbefore.
Qed.

Lemma update_lines_at_first (new_refresh_token : str) (before after : list str) (old : str) :
  forallb (fun line => negb (is_token_line line)) before = true ->
  is_token_line old = true ->
  update_lines new_refresh_token (before ++ old :: after)
  = Some (before ++ (token_key ++ new_refresh_token ++ [newline]) :: after).
Proof.
  intros Hbefore Hold. induction before as [|line before IH].
  - cbn [app update_lines]. unfold is_token_line in Hold. rewrite Hold. reflexivity.
  - cbn [forallb] in Hbefore. apply andb_true_iff in Hbefore as [Hline Hbefore].
    apply negb_true_iff in Hline. unfold is_token_line in Hline.
    cbn [app update_lines]. rewrite Hline, (IH Hbefore). reflexivity.
Qed.

(** X17: when the [.env] file holds a token line, the update rewrites
    the first such line and nothing else, so that a later duplicate keeps
    its old token; and a second update leaves the file as if it had been
    the only one. *)
Theorem env_update_rewrites_first_token_line
    (token token' : str) (lines : list str) :
  existsb is_token_line lines = true ->
  exists before old after,
    lines = before ++ old :: after /\
    is_token_line old = true /\
    forallb (fun line => negb (is_token_line line)) before = true /\
    _update_env_refresh_token token (Some lines)
    = Some (before ++ (token_key ++ token ++ [newline]) :: after) /\
    _update_env_refresh_token token' (_update_env_refresh_token token (Some lines))
    = _update_env_refresh_token token' (Some lines).
Proof.
  intros Hsome.
  assert (Hupd : exists lines', update_lines token lines = Some lines').
  { induction lines as [|line rest IH]; [discriminate|].
    cbn [existsb] in Hsome. cbn [update_lines].
    fold (is_token_line line). destruct (is_token_line line); [eauto|].
    destruct (IH Hsome) as [rest' ->]. eauto. }
  destruct Hupd as [lines' Hupd].
  destruct (update_lines_first token lines lines' Hupd)
    as (before & old & after & -> & -> & Hold & Hbefore).
  exists before, old, after. repeat split; try assumption.
  - unfold _update_env_refresh_token. rewrite Hupd. reflexivity.
  - unfold _update_env_refresh_token. rewrite Hupd. cbv iota.
    pose proof (update_lines_at_first token' before after _ Hbefore
                  (token_line_is_token_line token)) as Hsecond.
    pose proof (update_lines_at_first token' before after old Hbefore Hold) as Honly.
    match goal with
    | |- match ?a with Some _ => _ | None => _ end
         = match ?b with Some _ => _ | None => _ end =>
        replace a with (Some (before ++ (token_key ++ token' ++ [newline]) :: after))
          by (symmetry; exact Hsecond);
        replace b with (Some (before ++ (token_key ++ token' ++ [newline]) :: after))
          by (symmetry; exact Honly)
    end.
    reflexivity.
Qed.

Lemma env_update_rewrites_first_token_line_witness :
  _update_env_refresh_token (py "new")
    (Some [py "STRAVA_CLIENT_ID=7" ++ [newline];
           py "STRAVA_REFRESH_TOKEN=old" ++ [newline];
           py "STRAVA_REFRESH_TOKEN=older" ++ [newline]])
  = Some [py "STRAVA_CLIENT_ID=7" ++ [newline];
          py "STRAVA_REFRESH_TOKEN=new" ++ [newline];
          py "STRAVA_REFRESH_TOKEN=older" ++ [newline]].
Proof.
  destruct (env_update_rewrites_first_token_line (py "new") (py "newer")
              [py "STRAVA_CLIENT_ID=7" ++ [newline];
               py "STRAVA_REFRESH_TOKEN=old" ++ [newline];
               py "STRAVA_REFRESH_TOKEN=older" ++ [newline]])
    as (before & old & after & Hlines & Hold & Hbefore & Hupd & _); [reflexivity|].
  destruct before as [|l0 [|l1 before]].
  - injection Hlines as <- _. discriminate Hold.
  - injection Hlines as <- <- <-. exact Hupd.
  - injection Hlines as <- <- Hrest. cbn [forallb] in Hbefore.
    apply andb_true_iff in Hbefore as [_ Hbefore].
    apply andb_true_iff in Hbefore as [Hbefore _]. discriminate Hbefore.
Defined.

(** ** The chat context manager *)

Section ChatContextProperties.
Import ChatContext.
Variable isoformat_now : nat -> str.

Lemma last_entries_short {A : Type} (n : nat) (history : list A) :
  (length history <= n)%nat -> last_entries n history = history.
Proof.
  intros H. unfold last_entries.
  replace (length history - n)%nat with 0%nat by lia. reflexivity.
Qed.

Lemma last_entries_length {A : Type} (n : nat) (history : list A) :
  (length (last_entries n history) <= n)%nat.
Proof. unfold last_entries. rewrite length_drop. lia. Qed.

Lemma update_user_context_stores (user : string) (updates : Updates) (s : Storage) :
  exists time,
    files (update_user_context isoformat_now user updates s) !! user
    = Some
        {| user_id := default (user_id (context_of isoformat_now user s))
                        (on_user_id updates);
           preferences :=
             match on_preferences updates with
             | Some value => value ∪ preferences (context_of isoformat_now user s)
             | None => preferences (context_of isoformat_now user s)
             end;
           chat_history :=
             match on_chat_history updates with
             | Some value =>
                 last_entries 50 (history_of isoformat_now user s ++ value)
             | None => history_of isoformat_now user s
             end;
           personal_info :=
             match on_personal_info updates with
             | Some value => value ∪ personal_info (context_of isoformat_now user s)
             | None => personal_info (context_of isoformat_now user s)
             end;
           last_updated := time |}.
Proof.
  unfold update_user_context, history_of, context_of, get_user_context.
  destruct (files s !! user) as [context|]; cbn [now fst files clock];
    eexists; rewrite lookup_insert_eq; reflexivity.
Qed.

Lemma context_of_stored (user : string) (s : Storage) (context : Context) :
  files s !! user = Some context -> context_of isoformat_now user s = context.
Proof. intros H. unfold context_of, get_user_context. rewrite H. reflexivity. Qed.

Lemma context_of_clock (user : string) (s : Storage) (n : nat) :
  files s !! user <> None ->
  context_of isoformat_now user {| files := files s; clock := n |}
  = context_of isoformat_now user s.
Proof.
  intros H. unfold context_of, get_user_context. cbn [files].
  destruct (files s !! user); [reflexivity | congruence].
Qed.

End ChatContextProperties.

Import ChatContext.

(** X18: a message that is added becomes the last entry of the stored
    history, which holds the last 50 entries of the old history followed by
    the new one and so never grows beyond 50. *)
Theorem added_message_is_kept_last
    (isoformat_now : nat -> str) (user : string) (msg reply : str) (from_user : bool)
    (s : Storage) :
  exists chat_entry,
    message chat_entry = msg /\ response chat_entry = reply /\
    is_user chat_entry = from_user /\
    history_of isoformat_now user (add_chat_message isoformat_now user msg reply from_user s)
    = last_entries 50 (history_of isoformat_now user s ++ [chat_entry]) /\
    last (history_of isoformat_now user
            (add_chat_message isoformat_now user msg reply from_user s))
    = Some chat_entry /\
    (length (history_of isoformat_now user
               (add_chat_message isoformat_now user msg reply from_user s)) <= 50)%nat.
Proof.
  unfold add_chat_message. cbn [now].
  set (chat_entry := {| timestamp := isoformat_now (clock s); message := msg;
                        response := reply; is_user := from_user |}).
  set (s1 := {| files := files s; clock := S (clock s) |}).
  destruct (update_user_context_stores isoformat_now user
              (only_chat_history [chat_entry]) s1) as [time Hstored].
  cbn [only_chat_history on_user_id on_preferences on_chat_history on_personal_info]
    in Hstored.
  assert (Hsame : history_of isoformat_now user s1 = history_of isoformat_now user s).
  { unfold history_of, context_of, get_user_context, s1. cbn [files].
    destruct (files s !! user); reflexivity. }
  rewrite Hsame in Hstored.
  assert (Hafter : history_of isoformat_now user
                     (update_user_context isoformat_now user
                        (only_chat_history [chat_entry]) s1)
                   = last_entries 50 (history_of isoformat_now user s ++ [chat_entry])).
  { unfold history_of at 1. rewrite (context_of_stored _ _ _ _ Hstored). reflexivity. }
  exists chat_entry. repeat split; try exact Hafter.
  - rewrite Hafter. unfold last_entries. rewrite length_app. cbn [length].
    rewrite drop_app_le by lia. apply last_snoc.
  - rewrite Hafter. apply last_entries_length.
Qed.

(** X19: [clear_chat_history] removes nothing.  For a user whose file
    holds a history of at most 50 entries, as every history the manager has
    written is, the context stored after the call has the same history, the
    same preferences and the same personal information. *)
Theorem clear_chat_history_clears_nothing
    (isoformat_now : nat -> str) (user : string) (s : Storage) (context : Context) :
  files s !! user = Some context ->
  (length (chat_history context) <= 50)%nat ->
  exists time,
    files (clear_chat_history isoformat_now user s) !! user
    = Some {| user_id := user_id context;
              preferences := preferences context;
              chat_history := chat_history context;
              personal_info := personal_info context;
              last_updated := time |}.
Proof.
  intros Hfile Hlen. unfold clear_chat_history.
  destruct (update_user_context_stores isoformat_now user (only_chat_history []) s)
    as [time Hstored].
  exists time. rewrite Hstored. unfold history_of.
  rewrite (context_of_stored _ _ _ _ Hfile).
  cbn [only_chat_history on_user_id on_preferences on_chat_history on_personal_info
       default].
  rewrite app_nil_r, last_entries_short by exact Hlen. reflexivity.
Qed.

(** X20: [update_personal_info] stores the value under its key and keeps
    the other keys and the preferences, but it appends the chat history to
    itself: the stored history is the last 50 entries of the old history
    written twice. *)
Theorem update_personal_info_repeats_history
    (isoformat_now : nat -> str) (user info_type : string) (value : str) (s : Storage) :
  exists stored,
    files (update_personal_info isoformat_now user info_type value s) !! user
    = Some stored /\
    personal_info stored
    = <[info_type := value]> (personal_info (context_of isoformat_now user s)) /\
    preferences stored = preferences (context_of isoformat_now user s) /\
    chat_history stored
    = last_entries 50 (history_of isoformat_now user s ++ history_of isoformat_now user s).
Proof.
  unfold update_personal_info, history_of, context_of.
  destruct (get_user_context isoformat_now user s) as [current s1] eqn:Hget.
  cbn [fst].
  match goal with
  | |- context [update_user_context _ _ ?u _] =>
      destruct (update_user_context_stores isoformat_now user u s1) as [time Hstored]
  end.
  cbn [as_updates on_user_id on_preferences on_chat_history on_personal_info
       user_id preferences chat_history personal_info default] in Hstored.
  assert (Hagain : personal_info (context_of isoformat_now user s1) = personal_info current
                   /\ preferences (context_of isoformat_now user s1) = preferences current
                   /\ history_of isoformat_now user s1 = chat_history current).
  { unfold history_of, context_of. unfold get_user_context in Hget |- *.
    destruct (files s !! user) as [context|] eqn:Hfile.
    - injection Hget as <- <-. rewrite Hfile. auto.
    - cbn [now] in Hget. injection Hget as <- <-. cbn [files]. rewrite Hfile.
      cbn [now fst default_context personal_info preferences chat_history]. auto. }
  destruct Hagain as (Hinfo & Hprefs & Hhist).
  rewrite Hinfo, Hprefs, Hhist in Hstored.
  eexists. split; [exact Hstored|].
  cbn [personal_info preferences chat_history]. repeat split.
  - rewrite <- insert_union_l. f_equal. apply (idemp_L (∪)).
  - apply (idemp_L (∪)).
Qed.

Lemma clear_chat_history_clears_nothing_witness :
  exists time,
    files (clear_chat_history midnight "42" one_runner) !! "42"
    = Some {| user_id := "42";
              preferences := ∅;
              chat_history := [asked_pace; asked_heart_rate];
              personal_info := <["height" := py "175cm"]> ∅;
              last_updated := time |}.
Proof.
  apply (clear_chat_history_clears_nothing midnight "42" one_runner runner_context).
  - reflexivity.
  - cbn. lia.
Defined.

(** X21: the storage part of the bot's [/reset] command resets neither
    the personal information nor the preferences of a user who has a file,
    and it leaves the history, cut to its last 50 entries, written twice. *)
Theorem reset_command_resets_nothing
    (isoformat_now : nat -> str) (user : string) (s : Storage) (context : Context) :
  files s !! user = Some context ->
  exists stored,
    files (reset_command isoformat_now user s) !! user = Some stored /\
    personal_info stored = personal_info context /\
    preferences stored = preferences context /\
    chat_history stored
    = last_entries 50 (last_entries 50 (chat_history context)
                       ++ last_entries 50 (chat_history context)).
Proof.
  intros Hfile. unfold reset_command, clear_chat_history.
  destruct (update_user_context_stores isoformat_now user (only_chat_history []) s)
    as [time1 Hcleared].
  unfold history_of in Hcleared. rewrite (context_of_stored _ _ _ _ Hfile) in Hcleared.
  cbn [only_chat_history on_user_id on_preferences on_chat_history on_personal_info
       default] in Hcleared.
  rewrite app_nil_r in Hcleared.
  set (s1 := update_user_context isoformat_now user (only_chat_history []) s) in *.
  cbv zeta. unfold get_user_context at 1. rewrite Hcleared.
  match goal with
  | |- context [update_user_context _ _ ?u _] =>
      destruct (update_user_context_stores isoformat_now user u s1) as [time2 Hstored]
  end.
  unfold history_of in Hstored. rewrite (context_of_stored _ _ _ _ Hcleared) in Hstored.
  cbn [as_updates on_user_id on_preferences on_chat_history on_personal_info
       user_id preferences chat_history personal_info default] in Hstored.
  eexists. split; [exact Hstored|].
  cbn [personal_info preferences chat_history]. repeat split.
  - apply (left_id_L ∅ (∪)).
  - apply (left_id_L ∅ (∪)).
Qed.

Lemma reset_command_resets_nothing_witness :
  exists stored,
    files (reset_command midnight "42" one_runner) !! "42" = Some stored /\
    personal_info stored = <["height" := py "175cm"]> ∅ /\
    preferences stored = ∅ /\
    chat_history stored
    = [asked_pace; asked_heart_rate; asked_pace; asked_heart_rate].
Proof.
  destruct (reset_command_resets_nothing midnight "42" one_runner runner_context)
    as (stored & Hfile & Hinfo & Hprefs & Hhist); [reflexivity|].
  exists stored. repeat split; assumption.
Defined.
